(** * Discord NFT verifier for Monad: a shallow embedding

    The development follows the layout of the repository:

    - [JS]          the JavaScript primitives the code relies on
                    ([parseInt(_, 16)], [Number.prototype.toString],
                    [toLowerCase], truthiness, IEEE-754 rounding);
    - [Amount]      [ethToWei] and [generateVerificationAmount]
                    (verifiers/base-verifier.js);
    - [Scanner]     [MonadNFTVerifier.checkVerificationTransaction];
    - [Ownership]   the three [verifyNFTOwnership] methods,
                    [checkStakedNFTsDirectly], [verifyNFTOwnershipWithStaking];
    - [RateLimiter] the limiter and its middleware (middleware/rateLimiter.js);
    - [Store]       the two database classes: saves, reads, removal,
                    statistics;
    - [Bot]         the interaction handlers and commands of monad-bot.js;
    - [Validation]  utils/validation.js;
    - [Examples]    concrete chains, stores and records.

    Network replies, the clock and [Math.random] are inputs of the embedded
    functions; everything else is computed as the source computes it.  The
    definitions come first; the facts about them follow, module by module
    ([JSFacts], [ScannerFacts], one module of claims per component, then
    one module of further properties per component). *)

From Stdlib Require Import ZArith List String Ascii Bool Lia.
From Stdlib Require Import Decimal DecimalString DecimalN.
From stdpp Require Import base gmap strings list fin_maps.

Local Open Scope Z_scope.

(* ===================================================================== *)
(** * JavaScript primitives                                               *)
(* ===================================================================== *)

Module JS.

(** ** Numbers

    A JavaScript Number is an IEEE-754 binary64.  Every Number the scanner
    and the verifiers handle is integer valued (the result of [parseInt], a
    [length], a sum of such), so those are carried as [Num z] with [z] the
    integer the double denotes, next to [NaN] and the two infinities.
    Fractional doubles only occur as challenge amounts and live in
    [Amount.double]. *)

Inductive number : Type :=
  | NaN
  | Infinity (negative : bool)
  | Num (z : Z).

Definition number_eqb (a b : number) : bool :=
  match a, b with
  | NaN, NaN => true
  | Infinity s, Infinity t => Bool.eqb s t
  | Num x, Num y => x =? y
  | _, _ => false
  end.

(** [round53 z], for [0 <= z]: the integer nearest to [z] that has at most
    53 significant bits, ties to the even significand (the rounding of
    every Number-producing operation). *)
Definition round53 (z : Z) : Z :=
  let sh := Z.log2 z + 1 - 53 in
  if sh <=? 0 then z
  else
    let q := Z.shiftr z sh in
    let r := z - Z.shiftl q sh in
    let half := Z.shiftl 1 (sh - 1) in
    let q' := if (half <? r) || ((r =? half) && Z.odd q) then q + 1 else q in
    Z.shiftl q' sh.

(** The Number denoting the mathematical integer [z]: rounded to 53 bits,
    and an infinity from [2^1024] on. *)
Definition number_of_Z (z : Z) : number :=
  let a := round53 (Z.abs z) in
  if 2 ^ 1024 <=? a then Infinity (z <? 0) else Num (Z.sgn z * a).

(** Relational operators; every comparison with [NaN] is false. *)
Definition num_le (a b : number) : bool :=
  match a, b with
  | NaN, _ | _, NaN => false
  | Infinity true, _ => true
  | _, Infinity false => true
  | Infinity false, _ => false
  | _, Infinity true => false
  | Num x, Num y => x <=? y
  end.

Definition num_lt (a b : number) : bool :=
  match a, b with
  | NaN, _ | _, NaN => false
  | Infinity s, Infinity t => s && negb t
  | Infinity true, Num _ => true
  | Num _, Infinity false => true
  | Infinity false, Num _ => false
  | Num _, Infinity true => false
  | Num x, Num y => x <? y
  end.

Definition num_ge (a b : number) : bool := num_le b a.
Definition num_gt (a b : number) : bool := num_lt b a.

(** [a + b]. *)
Definition num_add (a b : number) : number :=
  match a, b with
  | NaN, _ | _, NaN => NaN
  | Infinity s, Infinity t => if Bool.eqb s t then Infinity s else NaN
  | Infinity s, Num _ => Infinity s
  | Num _, Infinity t => Infinity t
  | Num x, Num y => number_of_Z (x + y)
  end.

Definition num_neg (a : number) : number :=
  match a with
  | NaN => NaN
  | Infinity s => Infinity (negb s)
  | Num x => Num (- x)
  end.

(** [a - b]. *)
Definition num_sub (a b : number) : number := num_add a (num_neg b).

(** [Math.max(a, b)]. *)
Definition Math_max (a b : number) : number :=
  match a, b with
  | NaN, _ | _, NaN => NaN
  | _, _ => if num_le a b then b else a
  end.

(** Truthiness of a Number: [0] and [NaN] are falsy. *)
Definition num_truthy (a : number) : bool :=
  match a with
  | NaN => false
  | Infinity _ => true
  | Num z => negb (z =? 0)
  end.

(** ** Strings *)

Local Open Scope string_scope.

(** Truthiness of a possibly missing string ([undefined], [null] and the
    empty string are falsy). *)
Definition truthy (o : option string) : bool :=
  match o with
  | Some (String _ _) => true
  | _ => false
  end.

Definition lower_char (c : ascii) : ascii :=
  let n := nat_of_ascii c in
  if (Nat.leb 65 n && Nat.leb n 90)%bool then ascii_of_nat (n + 32) else c.

(** [s.toLowerCase()] on ASCII text (addresses are hexadecimal). *)
Fixpoint toLowerCase (s : string) : string :=
  match s with
  | EmptyString => EmptyString
  | String c s' => String (lower_char c) (toLowerCase s')
  end.

(** ** [parseInt(s, 16)] *)

Definition isWhiteSpace (c : ascii) : bool :=
  let n := nat_of_ascii c in
  (Nat.eqb n 9 || Nat.eqb n 10 || Nat.eqb n 11 || Nat.eqb n 12
   || Nat.eqb n 13 || Nat.eqb n 32)%bool.

Fixpoint trimStart (s : string) : string :=
  match s with
  | String c s' => if isWhiteSpace c then trimStart s' else s
  | EmptyString => EmptyString
  end.

Definition hexDigit (c : ascii) : option Z :=
  let n := Z.of_nat (nat_of_ascii c) in
  if (48 <=? n)%Z && (n <=? 57)%Z then Some (n - 48)%Z
  else if (97 <=? n)%Z && (n <=? 102)%Z then Some (n - 87)%Z
  else if (65 <=? n)%Z && (n <=? 70)%Z then Some (n - 55)%Z
  else None.

(** The value of the longest prefix of hexadecimal digits; [acc] is [None]
    until a first digit has been read. *)
Fixpoint hexPrefix (s : string) (acc : option Z) : option Z :=
  match s with
  | String c s' =>
      match hexDigit c with
      | Some d => hexPrefix s' (Some (16 * default 0%Z acc + d)%Z)
      | None => acc
      end
  | EmptyString => acc
  end.

Definition stripSign (s : string) : bool * string :=
  match s with
  | String "-" s' => (true, s')
  | String "+" s' => (false, s')
  | _ => (false, s)
  end.

Definition strip0x (s : string) : string :=
  match s with
  | String "0" (String "x" s') => s'
  | String "0" (String "X" s') => s'
  | _ => s
  end.

(** The mathematical integer [parseInt(s, 16)] reads, before it is turned
    into a Number; [None] when there is no digit (the result is [NaN]). *)
Definition mathInt16 (s : string) : option Z :=
  let '(neg, s1) := stripSign (trimStart s) in
  match hexPrefix (strip0x s1) None with
  | Some m => Some (if neg then - m else m)%Z
  | None => None
  end.

Definition parseInt16 (s : string) : number :=
  match mathInt16 s with
  | Some z => number_of_Z z
  | None => NaN
  end.

(** [parseInt(x, 16)] where [x] may be [undefined] or [null]: the argument
    is first converted to the text "undefined" or "null", which starts with
    no hexadecimal digit. *)
Definition parseInt16_opt (o : option string) : number :=
  match o with
  | Some s => parseInt16 s
  | None => NaN
  end.

(** ** [Number.prototype.toString()] *)

(** Decimal digits of a natural number. *)
Definition decimal (z : Z) : string :=
  NilZero.string_of_uint (N.to_uint (Z.to_N z)).

(** The number of decimal digits of [v], for [0 < v]: the least [n] from
    [start] on with [v < 10^n]. *)
Fixpoint ndigits_from (fuel : nat) (v start : Z) : Z :=
  match fuel with
  | O => start
  | S f => if (v <? 10 ^ start)%Z then start else ndigits_from f v (start + 1)%Z
  end.

Definition ndigits (v : Z) : Z := ndigits_from (Z.to_nat (Z.log2 v)) v 1%Z.

Definition digits_ok (v p k s : Z) : bool :=
  ((10 ^ (k - 1) <=? s) && (s <? 10 ^ k)
   && number_eqb (number_of_Z (s * p)) (Num v))%Z%bool.

(** The [k]-digit integer [s] with [s * 10^(n-k)] converting back to [v],
    nearest to [v], the even one on a tie; [None] if [k] digits are too few. *)
Definition pick (v n k : Z) : option Z :=
  (let p := 10 ^ (n - k) in
   let lo := v / p in
   let hi := lo + 1 in
   match digits_ok v p k lo, digits_ok v p k hi with
   | true, true =>
       let dlo := v - lo * p in
       let dhi := hi * p - v in
       Some (if dlo <? dhi then lo
             else if dhi <? dlo then hi
             else if Z.even lo then lo else hi)
   | true, false => Some lo
   | false, true => Some hi
   | false, false => None
   end)%Z.

(** ECMAScript's [Number::toString]: "let n, k, s be integers such that
    k >= 1, 10^(k-1) <= s < 10^k, s * 10^(n-k) is v, and k is as small as
    possible".  [k] is searched upwards from 1; [k = n] always succeeds with
    [s = v]. *)
Fixpoint shortest (fuel : nat) (v n k : Z) : Z * Z :=
  match fuel with
  | O => (v, n)
  | S f =>
      match pick v n k with
      | Some s => (s, k)
      | None => shortest f v n (k + 1)%Z
      end
  end.

Definition toString_pos (v : Z) : string :=
  let n := ndigits v in
  let '(s, k) := shortest (Z.to_nat n) v n 1%Z in
  if (n <=? 21)%Z then decimal (s * 10 ^ (n - k))%Z
  else
    match decimal s with
    | String c EmptyString => String c ("e+" ++ decimal (n - 1)%Z)
    | String c rest => String c ("." ++ rest ++ "e+" ++ decimal (n - 1)%Z)
    | EmptyString => EmptyString
    end.

Definition Number_toString (x : number) : string :=
  match x with
  | NaN => "NaN"
  | Infinity false => "Infinity"
  | Infinity true => "-Infinity"
  | Num z =>
      if (z =? 0)%Z then "0"
      else if (z <? 0)%Z then "-" ++ toString_pos (- z)%Z
      else toString_pos z
  end.

(** Does a text consist of decimal digits only? *)
Fixpoint all_digits (s : string) : bool :=
  match s with
  | EmptyString => true
  | String c s' =>
      (Nat.leb 48 (nat_of_ascii c) && Nat.leb (nat_of_ascii c) 57)%bool
      && all_digits s'
  end.

End JS.

(* ===================================================================== *)
(** * Challenge amounts (verifiers/base-verifier.js)                      *)
(* ===================================================================== *)

Module Amount.

(** A finite double, as the dyadic rational [mant * 2^expo].  The
    significand is kept as the operations leave it (it is not normalised);
    two doubles denote the same Number when [dy_eqb] holds.  Amounts stay
    far inside the normal range (between 2^-1022 and 2^1024), where rounding
    to 53 significant bits is all an operation does. *)
Record double : Type := Dy { mant : Z; expo : Z }.

Definition dy_eqb (a b : double) : bool :=
  let e := Z.min (expo a) (expo b) in
  mant a * 2 ^ (expo a - e) =? mant b * 2 ^ (expo b - e).

(** Rounding of the exact result of an operation. *)
Definition dy_round (d : double) : double :=
  Dy (Z.sgn (mant d) * JS.round53 (Z.abs (mant d))) (expo d).

(** [a * b] *)
Definition dy_mul (a b : double) : double :=
  dy_round (Dy (mant a * mant b) (expo a + expo b)).

(** [a + b] *)
Definition dy_add (a b : double) : double :=
  let e := Z.min (expo a) (expo b) in
  dy_round (Dy (mant a * 2 ^ (expo a - e) + mant b * 2 ^ (expo b - e)) e).

(** [a - b] *)
Definition dy_sub (a b : double) : double :=
  dy_add a (Dy (- mant b) (expo b)).

(** The double nearest to the rational [p / q] ([0 <= p], [0 < q]): the
    value of a decimal literal, and of [Number(text)].  The quotient is
    taken with enough extra bits, and a sticky bit for the remainder, for
    the final rounding to see on which side of a tie the rational lies. *)
Definition dy_of_ratio (p q : Z) : double :=
  let k := Z.max 0 (Z.log2 q - Z.log2 p + 56) in
  let n := p * 2 ^ k in
  let sticky := if n mod q =? 0 then 0 else 1 in
  dy_round (Dy (2 * (n / q) + sticky) (- k - 1)).

(** [Math.floor(d)], an integer. *)
Definition Math_floor (d : double) : Z :=
  if 0 <=? expo d then mant d * 2 ^ expo d else mant d / 2 ^ (- expo d).

(** [x.toFixed(10)] for [0 <= x < 10^21]: "let n be an integer for which
    n / 10^10 - x is as close to zero as possible; if there are two such n,
    pick the larger".  The text produced is the decimal expansion of
    [n / 10^10]; [toFixed10] returns [n]. *)
Definition toFixed10 (x : double) : Z :=
  if 0 <=? expo x then mant x * 2 ^ expo x * 10 ^ 10
  else (2 * mant x * 10 ^ 10 + 2 ^ (- expo x)) / 2 ^ (- expo x + 1).

(** [Number(text)] for the text [toFixed(10)] produced. *)
Definition Number_of_fixed10 (n : Z) : double := dy_of_ratio n (10 ^ 10).

(** function generateVerificationAmount(); [random] is the value
    [Math.random()] returns, a double in [0, 1). *)
Definition generateVerificationAmount (random : double) : double :=
  let min := dy_of_ratio 1 (10 ^ 8) in      (* 0.00000001 *)
  let max := dy_of_ratio 1 (10 ^ 7) in      (* 0.0000001 *)
  let randomAmount := dy_add min (dy_mul random (dy_sub max min)) in
  Number_of_fixed10 (toFixed10 randomAmount).

(** function ethToWei(ethAmount):
    [Math.floor(ethAmount * 1e18).toString()] *)
Definition ethToWei (ethAmount : double) : string :=
  JS.Number_toString (JS.Num (Math_floor (dy_mul ethAmount (Dy (10 ^ 18) 0)))).

(** Truthiness of an amount ([existingCode[1].amount || ...]). *)
Definition amount_truthy (a : option double) : bool :=
  match a with
  | Some d => negb (mant d =? 0)
  | None => false
  end.

(** The amounts [k / 10^10], [100 <= k <= 1000], for which [ethToWei]
    differs from the integer [k * 10^8]. *)
Definition shortAmounts : list Z :=
  List.filter
    (fun k => negb (String.eqb (ethToWei (Number_of_fixed10 k)) (JS.decimal (k * 10 ^ 8))))
    (map Z.of_nat (seq 100 901)).

End Amount.

(* ===================================================================== *)
(** * Replies of the network                                              *)
(* ===================================================================== *)

(** What an awaited request ([axios.get], [axios.post], a database query)
    yields: the promise is rejected (network failure, HTTP error status:
    the [await] throws), or it resolves with a payload. *)
Inductive reply (A : Type) : Type :=
  | Rejected
  | Resolved (payload : A).

Arguments Rejected {A}.
Arguments Resolved {A} payload.

(** How a block of code ends: it returns a value or throws. *)
Inductive completion (A : Type) : Type :=
  | Returned (value : A)
  | Thrown.

Arguments Returned {A} value.
Arguments Thrown {A}.

(* ===================================================================== *)
(** * The transaction scanner                                             *)
(* ===================================================================== *)

Module Scanner.

Import JS.

(** A transaction object of an [eth_getBlockByNumber] reply; a field that
    is absent or [null] is [None]. *)
Record transaction : Type := {
  tx_to : option string;
  tx_from : option string;
  tx_value : option string;
  tx_hash : option string
}.

(** [blockResponse.data.result], when it is an object. *)
Record block : Type := {
  transactions : option (list transaction)
}.

(** The JSON-RPC endpoint, as the scanner sees it: the reply to
    [eth_blockNumber] ([data.result]) and, for each block number asked, the
    reply to [eth_getBlockByNumber] ([data.result], [None] for [null]).
    The request names the block by ['0x' + blockNum.toString(16)], a text
    that determines [blockNum]; the replies are indexed by [blockNum]. *)
Record rpc : Type := {
  eth_blockNumber : reply (option string);
  eth_getBlockByNumber : number -> reply (option block)
}.

Section Scan.

Variables fromAddress toAddress exactAmount : string.
Variable net : rpc.

(** [const txValue = tx.value ? parseInt(tx.value, 16).toString() : '0'] *)
Definition txValue (tx : transaction) : string :=
  if truthy (tx_value tx)
  then Number_toString (parseInt16_opt (tx_value tx))
  else "0"%string.

(** The address test of the inner loop:
    [tx.to && tx.from && tx.to.toLowerCase() === toAddress.toLowerCase()
     && tx.from.toLowerCase() === fromAddress.toLowerCase()] *)
Definition addresses_match (tx : transaction) : bool :=
  truthy (tx_to tx) && truthy (tx_from tx)
  && String.eqb (toLowerCase (default ""%string (tx_to tx))) (toLowerCase toAddress)
  && String.eqb (toLowerCase (default ""%string (tx_from tx))) (toLowerCase fromAddress).

(** One turn of [for (const tx of block.transactions)]: does it reach
    [return true]? *)
Definition tx_confirms (tx : transaction) : bool :=
  if addresses_match tx
  then String.eqb (txValue tx) exactAmount
  else false.

(** The body of the block loop for one block: [true] when the function
    returns [true] from inside it, [false] when the loop goes on
    ([continue], or the transactions are exhausted). *)
Definition block_confirms (b : option block) : bool :=
  match b with
  | None => false                                  (* !block *)
  | Some blk =>
      match transactions blk with
      | None => false                              (* !block.transactions *)
      | Some txs => existsb tx_confirms txs
      end
  end.

(** [for (let blockNum = latestBlock; blockNum >= startBlock; blockNum--)].
    [blockNum] is a Number, and [blockNum--] is a floating-point
    subtraction: from 2^53 on it may leave [blockNum] unchanged, and the
    loop then never ends.  [fuel] bounds the number of turns; [None] means
    the bound was reached. *)
Fixpoint scan (fuel : nat) (blockNum startBlock : number)
  : option (completion bool) :=
  match fuel with
  | O => None
  | S fuel' =>
      if num_ge blockNum startBlock then
        match eth_getBlockByNumber net blockNum with
        | Rejected => Some Thrown
        | Resolved b =>
            if block_confirms b then Some (Returned true)
            else scan fuel' (num_sub blockNum (Num 1)) startBlock
        end
      else Some (Returned false)
  end.

(** The [try] block of [checkVerificationTransaction]. *)
Definition scan_body (fuel : nat) : option (completion bool) :=
  match eth_blockNumber net with
  | Rejected => Some Thrown
  | Resolved latestBlockHex =>
      let latestBlock := parseInt16_opt latestBlockHex in
      let blocksToCheck := Num 1000 in
      let startBlock := Math_max (Num 0) (num_sub latestBlock blocksToCheck) in
      scan fuel latestBlock startBlock
  end.

(** async checkVerificationTransaction(fromAddress, toAddress, exactAmount):
    the [catch] turns every exception into [return false]. *)
Definition checkVerificationTransaction (fuel : nat) : option bool :=
  match scan_body fuel with
  | Some (Returned b) => Some b
  | Some Thrown => Some false
  | None => None
  end.

(** The Wei value a transaction carries: the integer its [value] field
    denotes (what [parseInt] reads before rounding), [0] for a missing
    field, [None] when the field is not a number. *)
Definition wei_value (tx : transaction) : option Z :=
  if truthy (tx_value tx)
  then mathInt16 (default ""%string (tx_value tx))
  else Some 0.

(** The transactions of the block numbered [b] (none when the node has no
    such block or the request fails). *)
Definition transactions_at (b : Z) : list transaction :=
  match eth_getBlockByNumber net (Num b) with
  | Resolved (Some blk) => default [] (transactions blk)
  | _ => []
  end.

(** Block [b] holds a transfer from [fromAddress] to [toAddress] of exactly
    [c] base units. *)
Definition transfer_at (c b : Z) : Prop :=
  exists tx, In tx (transactions_at b)
             /\ addresses_match tx = true /\ wei_value tx = Some c.

(** The chain head is at height [head], a height for which Number
    arithmetic is exact. *)
Definition head_is (head : Z) : Prop :=
  exists hex, eth_blockNumber net = Resolved hex
              /\ parseInt16_opt hex = Num head /\ 0 <= head <= 2 ^ 53.

(** The trailing window of a scan from [head]. *)
Definition in_window (head b : Z) : Prop :=
  Z.max 0 (head - 1000) <= b <= head.

(** Block [b] holds a transaction that makes the scan return [true]. *)
Definition confirms_at (b : Z) : Prop :=
  exists blk, eth_getBlockByNumber net (Num b) = Resolved blk
              /\ block_confirms blk = true.


(** The block loop over the [n] blocks [b, b - 1, ...], in integer
    arithmetic: what [scan] computes while block numbers stay below 2^53
    ([ScannerFacts.scan_exact]). *)
Fixpoint scan_range (n : nat) (b : Z) : completion bool :=
  match n with
  | O => Returned false
  | S n' =>
      match eth_getBlockByNumber net (Num b) with
      | Rejected => Thrown
      | Resolved blk =>
          if block_confirms blk then Returned true
          else scan_range n' (b - 1)
      end
  end.

End Scan.

End Scanner.

(* ===================================================================== *)
(** * The ownership verifiers                                             *)
(* ===================================================================== *)

Module Ownership.

Import JS.

(** ** The holdings API ([getNFTsForOwner]) *)

Record contractInfo : Type := {
  address : string;
  contract_name : option string;
  contract_symbol : option string
}.

Record imageInfo : Type := {
  cachedUrl : option string;
  originalUrl : option string
}.

Record nft : Type := {
  contract : contractInfo;
  tokenId : string;
  nft_name : option string;
  image : option imageInfo
}.

(** [response.data] of the holdings API. *)
Record nftData : Type := {
  ownedNfts : option (list nft);
  totalCount : option number
}.

(** [getNFTsForOwner(walletAddress)]: the API's reply for a wallet; a
    rejected request is rethrown as [Error('Failed to fetch NFTs: ...')]. *)
Definition holdingsApi : Type := string -> reply nftData.

(** ** Verification results

    Result objects have a field set that varies with the path that built
    them; a field the path does not set is [None]. *)

Record ownedToken : Type := {
  ot_tokenId : string;
  ot_name : string;
  ot_image : option string
}.

(** The text of [details.message], with its interpolated numbers. *)
Inductive messageText : Type :=
  | WalletOwns (owned minimum : number)
  | OwnsFromRequired (count : number)
  | NeedsFromRequired (count minimum : number)
  | VerifiedThroughStaked (total contracts minimum : number)
  | InsufficientStaked (total contracts minimum : number).

(** [error.message] *)
Inductive errorMessage : Type :=
  | FailedToFetchNFTs
  | ContractNotFound
  | RequestFailed
  | CannotSetPropertiesOfUndefined.

(** What [checkStakedNFTsDirectly] returns. *)
Record stakingResult : Type := {
  hasStakedNFTs : bool;
  stakedCount : option number;
  sr_stakedTokenIds : option (list number);
  sr_error : option errorMessage;
  sr_walletAddress : string;
  stakingContract : string;
  sr_verificationMethod : string
}.

Record details : Type := {
  collectionName : option string;
  collectionSymbol : option string;
  ownedTokens : option (list ownedToken);
  message : option messageText;
  stakingInfo : option number;
  stakingDetails : option (list stakingResult)
}.

Record verificationResult : Type := {
  verified : bool;
  error : option errorMessage;
  network : string;
  walletAddress : string;
  totalNFTs : option number;
  ownedNFTs : option number;
  requiredCollection : option string;
  minRequired : option number;
  collectionNFTs : option number;
  result_details : option details;
  timestamp : string;
  verificationMethod : option string;
  stakedNFTCount : option number;
  stakedTokenIds : option (list number);
  totalStakedTokenIds : option number;
  stakingContracts : option (list string);
  stakingContractsChecked : option number
}.

(** Configuration of one verifier, read from the environment by its
    constructor. *)
Record config : Type := {
  cfg_requiredCollection : option string;
  cfg_minNftCount : number
}.

(** [parseInt(process.env.X_MIN_NFT_COUNT) || 1], given the parsed
    number. *)
Definition minNftCount_of (parsed : number) : number :=
  if num_truthy parsed then parsed else Num 1.

Definition count {A : Type} (l : list A) : number :=
  Num (Z.of_nat (List.length l)).

(** [n || 0] *)
Definition or_zero (n : option number) : number :=
  match n with
  | Some x => if num_truthy x then x else Num 0
  | None => Num 0
  end.

(** [s || fallback] *)
Definition or_else (s : option string) (fallback : string) : string :=
  if truthy s then default fallback s else fallback.

(** [collectionNFTs.map(nft => ({ tokenId, name, image }))] *)
Definition describe (n : nft) : ownedToken :=
  {| ot_tokenId := tokenId n;
     ot_name := or_else (nft_name n) (String "#" (tokenId n));
     ot_image :=
       match image n with
       | Some i => if truthy (cachedUrl i) then cachedUrl i else originalUrl i
       | None => None
       end |}.

(** [ownedNFTs.filter(nft => nft.contract.address.toLowerCase() ===
    this.requiredCollection.toLowerCase())] *)
Definition fromCollection (required : string) (owned : list nft) : list nft :=
  List.filter
    (fun n => String.eqb (toLowerCase (address (contract n))) (toLowerCase required))
    owned.

(** The object the [catch] of [verifyNFTOwnership] returns. *)
Definition failedResult (net wallet now : string) : verificationResult :=
  {| verified := false; error := Some FailedToFetchNFTs; network := net;
     walletAddress := wallet; totalNFTs := Some (Num 0); ownedNFTs := None;
     requiredCollection := None; minRequired := None; collectionNFTs := None;
     result_details := None; timestamp := now; verificationMethod := None;
     stakedNFTCount := None; stakedTokenIds := None;
     totalStakedTokenIds := None; stakingContracts := None;
     stakingContractsChecked := None |}.

(** The result of a completed direct check, from the values the three
    verifiers compute. *)
Definition directResult (net wallet now : string) (cfg : config) (data : nftData)
    (isVerified : bool) (inCollection : option number) (d : details)
  : verificationResult :=
  {| verified := isVerified; error := None; network := net;
     walletAddress := wallet;
     totalNFTs := Some (or_zero (totalCount data));
     ownedNFTs := Some (count (default [] (ownedNfts data)));
     requiredCollection := cfg_requiredCollection cfg;
     minRequired := Some (cfg_minNftCount cfg);
     collectionNFTs := inCollection;
     result_details := Some d; timestamp := now; verificationMethod := None;
     stakedNFTCount := None; stakedTokenIds := None;
     totalStakedTokenIds := None; stakingContracts := None;
     stakingContractsChecked := None |}.

(** The branch all three verifiers share: no collection is required. *)
Definition anyCollection (net wallet now : string) (cfg : config) (data : nftData)
  : verificationResult :=
  let owned := count (default [] (ownedNfts data)) in
  directResult net wallet now cfg data
    (num_ge owned (cfg_minNftCount cfg)) None
    {| collectionName := None; collectionSymbol := None; ownedTokens := None;
       message := Some (WalletOwns owned (cfg_minNftCount cfg));
       stakingInfo := None; stakingDetails := None |}.

(** [result.details.message] of the collection branch. *)
Definition collectionMessage (isVerified : bool) (n minimum : number) : messageText :=
  if isVerified then OwnsFromRequired n else NeedsFromRequired n minimum.

(** [details.collectionName] of a result. *)
Definition nameIn (r : verificationResult) : option string :=
  match result_details r with
  | Some d => collectionName d
  | None => None
  end.

End Ownership.

(** ** ArbitrumNFTVerifier *)

Module ArbitrumNFTVerifier.

Import JS Ownership.

(** async verifyNFTOwnership(walletAddress) *)
Definition verifyNFTOwnership (cfg : config) (api : holdingsApi) (now : string)
    (wallet : string) : verificationResult :=
  match api wallet with
  | Rejected => failedResult "arbitrum" wallet now
  | Resolved data =>
      let owned := default [] (ownedNfts data) in
      if negb (truthy (cfg_requiredCollection cfg)) then
        anyCollection "arbitrum" wallet now cfg data
      else
        let required := default ""%string (cfg_requiredCollection cfg) in
        let collection := fromCollection required owned in
        let isVerified := num_ge (count collection) (cfg_minNftCount cfg) in
        let msg := collectionMessage isVerified (count collection) (cfg_minNftCount cfg) in
        directResult "arbitrum" wallet now cfg data isVerified (Some (count collection))
          match collection with
          | first :: _ =>
              {| collectionName := Some "Schizo Sybils (Gen 1)"%string;
                 collectionSymbol := Some (or_else (contract_symbol (contract first)) "");
                 ownedTokens := Some (map describe collection);
                 message := Some msg; stakingInfo := None; stakingDetails := None |}
          | [] =>
              (* else if (this.requiredCollection):
                 "Set collection name even when no NFTs found" *)
              {| collectionName := Some "Schizo Sybils (Gen 1)"%string;
                 collectionSymbol := Some ""%string;
                 ownedTokens := None;
                 message := Some msg; stakingInfo := None; stakingDetails := None |}
          end
  end.

End ArbitrumNFTVerifier.

(** ** BeraVerifier *)

Module BeraVerifier.

Import JS Ownership.

(** async verifyNFTOwnership(walletAddress) *)
Definition verifyNFTOwnership (cfg : config) (api : holdingsApi) (now : string)
    (wallet : string) : verificationResult :=
  match api wallet with
  | Rejected => failedResult "berachain" wallet now
  | Resolved data =>
      let owned := default [] (ownedNfts data) in
      if negb (truthy (cfg_requiredCollection cfg)) then
        anyCollection "berachain" wallet now cfg data
      else
        let required := default ""%string (cfg_requiredCollection cfg) in
        let collection := fromCollection required owned in
        let isVerified := num_ge (count collection) (cfg_minNftCount cfg) in
        let msg := collectionMessage isVerified (count collection) (cfg_minNftCount cfg) in
        directResult "berachain" wallet now cfg data isVerified (Some (count collection))
          match collection with
          | first :: _ =>
              {| collectionName := Some "Super Schizos (Gen 2)"%string;
                 collectionSymbol := Some (or_else (contract_symbol (contract first)) "");
                 ownedTokens := Some (map describe collection);
                 message := Some msg; stakingInfo := None; stakingDetails := None |}
          | [] =>
              (* else if (this.requiredCollection):
                 "Set collection name even when no NFTs found" *)
              {| collectionName := Some "Super Schizos (Gen 2)"%string;
                 collectionSymbol := Some ""%string;
                 ownedTokens := None;
                 message := Some msg; stakingInfo := None; stakingDetails := None |}
          end
  end.

End BeraVerifier.

(** ** MonadNFTVerifier *)

Module MonadNFTVerifier.

Import JS Ownership.

(** async verifyNFTOwnership(walletAddress) *)
Definition verifyNFTOwnership (cfg : config) (api : holdingsApi) (now : string)
    (wallet : string) : verificationResult :=
  match api wallet with
  | Rejected => failedResult "monad_testnet" wallet now
  | Resolved data =>
      let owned := default [] (ownedNfts data) in
      if negb (truthy (cfg_requiredCollection cfg)) then
        anyCollection "monad_testnet" wallet now cfg data
      else
        let required := default ""%string (cfg_requiredCollection cfg) in
        let collection := fromCollection required owned in
        let isVerified := num_ge (count collection) (cfg_minNftCount cfg) in
        let msg := collectionMessage isVerified (count collection) (cfg_minNftCount cfg) in
        directResult "monad_testnet" wallet now cfg data isVerified (Some (count collection))
          match collection with
          | first :: _ =>
              {| collectionName :=
                   Some (or_else (contract_name (contract first)) "Unknown Collection");
                 collectionSymbol := Some (or_else (contract_symbol (contract first)) "");
                 ownedTokens := Some (map describe collection);
                 message := Some msg; stakingInfo := None; stakingDetails := None |}
          | [] =>
              (* no else branch: only the message is set *)
              {| collectionName := None; collectionSymbol := None;
                 ownedTokens := None;
                 message := Some msg; stakingInfo := None; stakingDetails := None |}
          end
  end.

(** async checkVerificationTransaction(fromAddress, toAddress, exactAmount)
    is the method embedded in [Scanner]. *)
Definition checkVerificationTransaction :
  string -> string -> string -> Scanner.rpc -> nat -> option bool :=
  Scanner.checkVerificationTransaction.

(** [process.env.STAKING_CONTRACT_ADDRESS] and [..._2]. *)
Record stakingEnv : Type := {
  STAKING_CONTRACT_ADDRESS : option string;
  STAKING_CONTRACT_ADDRESS_2 : option string
}.

(** getStakingContracts() *)
Definition getStakingContracts (env : stakingEnv) : list string :=
  let contracts :=
    (if truthy (STAKING_CONTRACT_ADDRESS env)
     then [default ""%string (STAKING_CONTRACT_ADDRESS env)] else [])
    ++ (if truthy (STAKING_CONTRACT_ADDRESS_2 env)
        then [default ""%string (STAKING_CONTRACT_ADDRESS_2 env)] else []) in
  List.filter
    (fun addr => truthy (Some addr)
                 && Nat.eqb (String.length addr) 42
                 && String.prefix "0x" addr)
    contracts.

(** [response.data] of a JSON-RPC call: its [result] and whether it
    carries an [error]. *)
Record rpcData : Type := {
  rpc_result : option string;
  rpc_error : bool
}.

(** The JSON-RPC endpoint, as [checkStakedNFTsDirectly] sees it:
    [eth_getCode(address)] and [eth_call({to, data})]; [None] is a reply
    without [data]. *)
Record contractRpc : Type := {
  eth_getCode : string -> reply (option rpcData);
  eth_call : string -> string -> reply (option rpcData)
}.

(** [data && data.result && data.result !== '0x'] *)
Definition usable (d : option rpcData) : option string :=
  match d with
  | Some r =>
      if truthy (rpc_result r)
         && negb (String.eqb (default ""%string (rpc_result r)) "0x")
      then rpc_result r else None
  | None => None
  end.

(** [s.slice(a, b)] for [a <= b]. *)
Definition slice (a b : nat) (s : string) : string :=
  String.substring a (b - a) s.

(** [s.slice(2).padStart(64, '0')] *)
Definition paddedAddress (walletAddress : string) : string :=
  let body := slice 2 (String.length walletAddress) walletAddress in
  String.string_of_list_ascii
    (repeat "0"%char (64 - String.length body)) ++ body.

(** [funcName.includes(part)] *)
Definition includes (part funcName : string) : bool :=
  match String.index 0 part funcName with
  | Some _ => true
  | None => false
  end.

Section Staking.

Variable net : contractRpc.

(** The loop over the two function signatures: a usable reply to
    [nftStakeCount(address)] sets [stakedCount] and leaves the loop; a
    reply to [totalNFTStakeCount()] is only logged; a rejected call is
    caught inside the loop. *)
Fixpoint trySignatures (stakingContractAddress padded : string)
    (signatures : list (string * string)) (stakedCount : number) : number :=
  match signatures with
  | [] => stakedCount
  | (funcName, signature) :: rest =>
      let callData :=
        if includes "address" funcName
        then (signature ++ padded)%string else signature in
      match eth_call net stakingContractAddress callData with
      | Rejected => trySignatures stakingContractAddress padded rest stakedCount
      | Resolved d =>
          match usable d with
          | Some result =>
              if includes "totalNFTStakeCount" funcName
              then trySignatures stakingContractAddress padded rest stakedCount
              else parseInt16 result                               (* break *)
          | None => trySignatures stakingContractAddress padded rest stakedCount
          end
      end
  end.

Definition stakeSignatures : list (string * string) :=
  [ ("nftStakeCount(address)"%string, "0xde276f94"%string);
    ("totalNFTStakeCount()"%string, "0x18a9a40c"%string) ].

(** [for (let i = 0; i < arrayLength; i++)]: the token ids of the slots
    [i .. i + remaining - 1] of the reply. *)
Fixpoint readTokenIds (hex : string) (i remaining : nat) : list number :=
  match remaining with
  | O => []
  | S r =>
      let tokenIdHex := slice (128 + i * 64) (128 + (i + 1) * 64) hex in
      let here :=
        if Nat.eqb (String.length tokenIdHex) 64 then
          let tokenId := parseInt16 tokenIdHex in
          if num_gt tokenId (Num 0) then [tokenId] else []
        else [] in
      here ++ readTokenIds hex (S i) r
  end.

(** The [getStakedTokenIds(address)] call and its decoding; its own
    [try]/[catch] turns a rejected call into an empty list. *)
Definition fetchTokenIds (stakingContractAddress padded : string) : list number :=
  match eth_call net stakingContractAddress ("0x7047bc52" ++ padded)%string with
  | Rejected => []
  | Resolved d =>
      match usable d with
      | Some result =>
          let hex := slice 2 (String.length result) result in
          if Nat.leb 128 (String.length hex) then
            let arrayLength := parseInt16 (slice 64 128 hex) in
            match arrayLength with
            | Num n =>
                if (0 <? n) && (n <=? 1000)
                then readTokenIds hex 0 (Z.to_nat n) else []
            | _ => []
            end
          else []
      | None => []
      end
  end.

(** async checkStakedNFTsDirectly(walletAddress, stakingContractAddress) *)
Definition checkStakedNFTsDirectly (walletAddress stakingContractAddress : string)
  : stakingResult :=
  let failed (why : errorMessage) :=
    {| hasStakedNFTs := false; stakedCount := None; sr_stakedTokenIds := None;
       sr_error := Some why; sr_walletAddress := walletAddress;
       stakingContract := stakingContractAddress;
       sr_verificationMethod := "direct_contract_call_failed" |} in
  match eth_getCode net stakingContractAddress with
  | Rejected => failed RequestFailed
  | Resolved code =>
      match usable code with
      | None => failed ContractNotFound
      | Some _ =>
          let padded := paddedAddress walletAddress in
          let count :=
            trySignatures stakingContractAddress padded stakeSignatures (Num 0) in
          let ids :=
            if num_gt count (Num 0)
            then fetchTokenIds stakingContractAddress padded else [] in
          {| hasStakedNFTs := num_gt count (Num 0);
             stakedCount := Some count;
             sr_stakedTokenIds := Some ids;
             sr_error := None; sr_walletAddress := walletAddress;
             stakingContract := stakingContractAddress;
             sr_verificationMethod := "direct_contract_call" |}
      end
  end.

(** The accumulators of the loop over the staking contracts:
    [totalStakedCount], [allStakedTokenIds], [stakingResults]. *)
Record tally : Type := {
  totalStakedCount : number;
  allStakedTokenIds : list number;
  stakingResults : list stakingResult
}.

(** One turn of [for (const contractAddress of stakingContracts)]. *)
Definition addContract (walletAddress : string) (t : tally) (contractAddress : string)
  : tally :=
  let stakingResult := checkStakedNFTsDirectly walletAddress contractAddress in
  if hasStakedNFTs stakingResult then
    {| totalStakedCount :=
         num_add (totalStakedCount t) (default NaN (stakedCount stakingResult));
       allStakedTokenIds :=
         allStakedTokenIds t ++ default [] (sr_stakedTokenIds stakingResult);
       stakingResults := stakingResults t ++ [stakingResult] |}
  else
    {| totalStakedCount := totalStakedCount t;
       allStakedTokenIds := allStakedTokenIds t;
       stakingResults := stakingResults t ++ [stakingResult] |}.

Definition checkAll (walletAddress : string) (stakingContracts : list string) : tally :=
  fold_left (addContract walletAddress) stakingContracts
    {| totalStakedCount := Num 0; allStakedTokenIds := []; stakingResults := [] |}.

Variable cfg : config.
Variable env : stakingEnv.
Variable api : holdingsApi.
Variable now : string.

(** The [try] block of [verifyNFTOwnershipWithStaking]. *)
Definition withStaking_body (walletAddress : string)
  : completion verificationResult :=
  let standardResult := verifyNFTOwnership cfg api now walletAddress in
  let tagged (r : verificationResult) (method : string) (checked : option number)
             (d : option details) :=
    {| verified := verified r; error := error r; network := network r;
       walletAddress := Ownership.walletAddress r; totalNFTs := totalNFTs r;
       ownedNFTs := ownedNFTs r; requiredCollection := requiredCollection r;
       minRequired := minRequired r; collectionNFTs := collectionNFTs r;
       result_details := d; timestamp := timestamp r;
       verificationMethod := Some method;
       stakedNFTCount := stakedNFTCount r; stakedTokenIds := stakedTokenIds r;
       totalStakedTokenIds := totalStakedTokenIds r;
       stakingContracts := stakingContracts r;
       stakingContractsChecked := checked |} in
  if verified standardResult then
    Returned (tagged standardResult "direct_ownership"
                (stakingContractsChecked standardResult)
                (result_details standardResult))
  else
    let stakingContracts := getStakingContracts env in
    let t := checkAll walletAddress stakingContracts in
    let total := totalStakedCount t in
    let staked (isVerified : bool) (method : string) (ids : option (list number))
               (idCount : option number) (contracts : option (list string))
               (msg : messageText) :=
      {| verified := isVerified; error := None; network := "monad_testnet";
         walletAddress := walletAddress; totalNFTs := Some total;
         ownedNFTs := None; requiredCollection := None;
         minRequired := Some (cfg_minNftCount cfg); collectionNFTs := None;
         result_details :=
           Some {| collectionName := None; collectionSymbol := None;
                   ownedTokens := None; message := Some msg;
                   stakingInfo := None;
                   stakingDetails := Some (stakingResults t) |};
         timestamp := now; verificationMethod := Some method;
         stakedNFTCount := Some total; stakedTokenIds := ids;
         totalStakedTokenIds := idCount; stakingContracts := contracts;
         stakingContractsChecked := Some (count stakingContracts) |} in
    if num_gt (count stakingContracts) (Num 0) && num_gt total (Num 0) then
      if num_ge total (cfg_minNftCount cfg) then
        Returned (staked true "staking_direct_query_multi"
                    (Some (firstn 10 (allStakedTokenIds t)))
                    (Some (count (allStakedTokenIds t)))
                    (Some stakingContracts)
                    (VerifiedThroughStaked total (count stakingContracts)
                       (cfg_minNftCount cfg)))
      else
        Returned (staked false "staking_insufficient_multi" None None None
                    (InsufficientStaked total (count stakingContracts)
                       (cfg_minNftCount cfg)))
    else
      (* "If both methods fail, return the standard result with
         additional info" *)
      if num_gt (count stakingContracts) (Num 0) then
        match result_details standardResult with
        | Some d =>
            Returned (tagged standardResult "failed_both"
                        (Some (count stakingContracts))
                        (Some {| collectionName := collectionName d;
                                 collectionSymbol := collectionSymbol d;
                                 ownedTokens := ownedTokens d;
                                 message := message d;
                                 stakingInfo := Some (count stakingContracts);
                                 stakingDetails := stakingDetails d |}))
        | None => Thrown     (* standardResult.details is undefined *)
        end
      else
        Returned (tagged standardResult "failed_both"
                    (Some (count stakingContracts))
                    (result_details standardResult))
  .

(** async verifyNFTOwnershipWithStaking(walletAddress) *)
Definition verifyNFTOwnershipWithStaking (walletAddress : string)
  : verificationResult :=
  match withStaking_body walletAddress with
  | Returned r => r
  | Thrown =>
      {| verified := false; error := Some CannotSetPropertiesOfUndefined;
         network := "monad_testnet"; walletAddress := walletAddress;
         totalNFTs := None; ownedNFTs := None; requiredCollection := None;
         minRequired := None; collectionNFTs := None; result_details := None;
         timestamp := now; verificationMethod := Some "error"%string;
         stakedNFTCount := None; stakedTokenIds := None;
         totalStakedTokenIds := None; stakingContracts := None;
         stakingContractsChecked := None |}
  end.

(** The count a contract check reports ([0] when the check failed). *)
Definition reportedCount (r : stakingResult) : number :=
  default (Num 0) (stakedCount r).

(** The sum of the counts the checks report, as an integer, when each is
    a natural number. *)
Fixpoint summedCounts (rs : list stakingResult) : option Z :=
  match rs with
  | [] => Some 0
  | r :: rest =>
      match reportedCount r, summedCounts rest with
      | Num z, Some total => if 0 <=? z then Some (z + total) else None
      | _, _ => None
      end
  end.

(** The sum of the staked counts over the configured staking contracts. *)
Definition stakedSum (walletAddress : string) : option Z :=
  summedCounts (map (checkStakedNFTsDirectly walletAddress) (getStakingContracts env)).

(** The tag the specification calls "staked", "insufficient-staked",
    "both-failed". *)
Definition tagStaked : string := "staking_direct_query_multi".
Definition tagInsufficient : string := "staking_insufficient_multi".
Definition tagBothFailed : string := "failed_both".

(** C3 as the specification states it, for a wallet whose staked counts
    sum to [sum]. *)
Definition staking_tag_as_stated (walletAddress : string) (sum : Z) : Prop :=
  verified (verifyNFTOwnership cfg api now walletAddress) = false ->
  getStakingContracts env <> [] ->
  stakedSum walletAddress = Some sum -> sum <= 2 ^ 53 ->
  let r := verifyNFTOwnershipWithStaking walletAddress in
  (verificationMethod r = Some tagStaked
   <-> num_ge (Num sum) (cfg_minNftCount cfg) = true)
  /\ (num_ge (Num sum) (cfg_minNftCount cfg) = false ->
      verificationMethod r = Some tagInsufficient
      /\ stakedNFTCount r = Some (Num sum)).

End Staking.

End MonadNFTVerifier.

(* ===================================================================== *)
(** * The rate limiter (middleware/rateLimiter.js)                        *)
(* ===================================================================== *)

Module RateLimiter.

(** An entry of [userLimits]: [{ count, resetTime }].  Counters and
    millisecond timestamps are integers far below 2^53, where Number
    arithmetic is integer arithmetic. *)
Record entry : Type := {
  count : Z;
  resetTime : Z
}.

(** A limit: [{ count, windowMs }]. *)
Record limit : Type := {
  limit_count : Z;
  windowMs : Z
}.

(** What [checkUserLimit] returns: [{ allowed, remaining, resetTime }]. *)
Record verdict : Type := {
  allowed : bool;
  remaining : Z;
  verdict_resetTime : Z
}.

Definition defaultLimits : gmap string limit :=
  {[ "verify"%string := {| limit_count := 5; windowMs := 60 * 1000 |};
     "submit"%string := {| limit_count := 3; windowMs := 5 * 60 * 1000 |};
     "status"%string := {| limit_count := 10; windowMs := 60 * 1000 |} ]}.

(** The names every plain object inherits from [Object.prototype].  The
    limit tables [limits] and [defaultLimits] are plain objects: for an
    action with one of these names [limits[action]] is the inherited
    member, an object without a [count] or a [windowMs], and the limiter
    then never refuses.  The tables are modelled as finite maps of their
    own properties, which is what the lookup reads for every other action
    (the bot's own are "verify", "submit", "status", "opensea_request"
    and "role_assignment"); what is proved of the limit in force is
    stated for actions that [inheritedName] rejects. *)
Definition inheritedNames : list string :=
  [ "constructor"; "__defineGetter__"; "__defineSetter__"; "hasOwnProperty";
    "__lookupGetter__"; "__lookupSetter__"; "isPrototypeOf";
    "propertyIsEnumerable"; "toString"; "valueOf"; "__proto__";
    "toLocaleString" ]%string.

Definition inheritedName (action : string) : bool :=
  existsb (String.eqb action) inheritedNames.

(** [limits[action] || defaultLimits[action] || defaultLimits.verify], for
    an action that is not an inherited name. *)
Definition effectiveLimit (limits : gmap string limit) (action : string) : limit :=
  match limits !! action with
  | Some l => l
  | None =>
      match defaultLimits !! action with
      | Some l => l
      | None => {| limit_count := 5; windowMs := 60 * 1000 |}
      end
  end.

(** [`${userId}:${action}`] *)
Definition userKey (userId action : string) : string :=
  (userId ++ ":" ++ action)%string.

(** checkUserLimit(userId, action, limits = {}), called at time [now] on
    the map [userLimits]; returns the verdict and the map it leaves. *)
Definition checkUserLimit (userLimits : gmap string entry)
    (userId action : string) (limits : gmap string limit) (now : Z)
  : verdict * gmap string entry :=
  let key := userKey userId action in
  let limit := effectiveLimit limits action in
  let fresh :=
    ({| allowed := true; remaining := limit_count limit - 1;
        verdict_resetTime := now + windowMs limit |},
     <[ key := {| count := 1; resetTime := now + windowMs limit |} ]> userLimits) in
  match userLimits !! key with
  | None => fresh
  | Some userLimit =>
      if resetTime userLimit <? now then fresh
      else if limit_count limit <=? count userLimit then
        ({| allowed := false; remaining := 0;
            verdict_resetTime := resetTime userLimit |},
         userLimits)
      else
        ({| allowed := true;
            remaining := limit_count limit - (count userLimit + 1);
            verdict_resetTime := resetTime userLimit |},
         <[ key := {| count := count userLimit + 1;
                      resetTime := resetTime userLimit |} ]> userLimits)
  end.

(** addPenalty(userId, action, penaltyMs) *)
Definition addPenalty (userLimits : gmap string entry)
    (userId action : string) (penaltyMs now : Z) : gmap string entry :=
  <[ (userKey userId action ++ ":penalty")%string :=
       {| count := 999; resetTime := now + penaltyMs |} ]> userLimits.

(** cleanup(), on the user map: entries whose window has passed are
    deleted. *)
Definition cleanup (userLimits : gmap string entry) (now : Z) : gmap string entry :=
  filter (fun kv => ~ (resetTime (snd kv) < now)) userLimits.

(** The map after a series of [checkUserLimit] calls of one user for one
    action, made at the given times. *)
Definition replay (userLimits : gmap string entry) (userId action : string)
    (limits : gmap string limit) (times : list Z) : gmap string entry :=
  fold_left (fun m now => snd (checkUserLimit m userId action limits now))
    times userLimits.

(** What [checkGlobalLimit] returns: [{ allowed, resetTime }], the second
    field being absent on the counting path. *)
Record globalVerdict : Type := {
  g_allowed : bool;
  g_resetTime : option Z
}.

Definition defaultGlobalLimits : gmap string limit :=
  {[ "opensea_request"%string := {| limit_count := 100; windowMs := 60 * 1000 |};
     "role_assignment"%string := {| limit_count := 50; windowMs := 60 * 1000 |} ]}.

(** [limits[action] || defaultLimits[action] || defaultLimits.opensea_request],
    for an action that is not an inherited name. *)
Definition effectiveGlobalLimit (limits : gmap string limit) (action : string)
  : limit :=
  match limits !! action with
  | Some l => l
  | None =>
      match defaultGlobalLimits !! action with
      | Some l => l
      | None => {| limit_count := 100; windowMs := 60 * 1000 |}
      end
  end.

(** checkGlobalLimit(action, limits = {}), on the map [globalLimits]. *)
Definition checkGlobalLimit (globalLimits : gmap string entry)
    (action : string) (limits : gmap string limit) (now : Z)
  : globalVerdict * gmap string entry :=
  let limit := effectiveGlobalLimit limits action in
  let fresh :=
    ({| g_allowed := true; g_resetTime := Some (now + windowMs limit) |},
     <[ action := {| count := 1; resetTime := now + windowMs limit |} ]> globalLimits) in
  match globalLimits !! action with
  | None => fresh
  | Some globalLimit =>
      if resetTime globalLimit <? now then fresh
      else if limit_count limit <=? count globalLimit then
        ({| g_allowed := false; g_resetTime := Some (resetTime globalLimit) |},
         globalLimits)
      else
        ({| g_allowed := true; g_resetTime := None |},
         <[ action := {| count := count globalLimit + 1;
                         resetTime := resetTime globalLimit |} ]> globalLimits)
  end.

(** [`${userId}:${action}:penalty`] *)
Definition penaltyKey (userId action : string) : string :=
  (userKey userId action ++ ":penalty")%string.

(** isPenalized(userId, action), called at time [now]: the answer and the
    map it leaves (a lapsed penalty is deleted). *)
Definition isPenalized (userLimits : gmap string entry)
    (userId action : string) (now : Z) : bool * gmap string entry :=
  let key := penaltyKey userId action in
  match userLimits !! key with
  | None => (false, userLimits)
  | Some penalty =>
      if resetTime penalty <? now then (false, delete key userLimits)
      else (true, userLimits)
  end.

(** [Math.ceil(a / b)] for integers [a] and [0 < b] (the quotients formed
    here are of time differences, far below 2^53 / 1000, for which the
    rounded quotient has the ceiling of the exact one). *)
Definition ceil_div (a b : Z) : Z := - ((- a) / b).

(** static formatTimeRemaining(resetTime), called at time [now]. *)
Definition formatTimeRemaining (resetTime now : Z) : string :=
  let remaining := ceil_div (resetTime - now) 1000 in
  if remaining <? 60 then
    (JS.Number_toString (JS.Num remaining) ++ " second"
     ++ (if (remaining =? 1)%Z then "" else "s"))%string
  else
    let minutes := ceil_div remaining 60 in
    (JS.Number_toString (JS.Num minutes) ++ " minute"
     ++ (if (minutes =? 1)%Z then "" else "s"))%string.

(** How the middleware ends: with one of its two notices, or by calling
    [next] with [interaction.rateLimitInfo] set. *)
Inductive outcome : Type :=
  | Restricted
  | TooOften (timeRemaining : string) (remainingUses : Z)
  | Proceed (remaining resetTime : Z).

(** The function [createRateLimitMiddleware(action, limits)] returns, run
    for the user [userId]; [penaltyNow], [limitNow] and [messageNow] are the
    readings of [Date.now()] in [isPenalized], [checkUserLimit] and
    [formatTimeRemaining]. *)
Definition createRateLimitMiddleware (action : string) (limits : gmap string limit)
    (userLimits : gmap string entry) (userId : string)
    (penaltyNow limitNow messageNow : Z) : outcome * gmap string entry :=
  let '(penalized, afterPenalty) := isPenalized userLimits userId action penaltyNow in
  (* Check for existing penalty *)
  if penalized then (Restricted, afterPenalty)
  else
    (* Check user rate limit *)
    let '(userLimit, afterLimit) :=
      checkUserLimit afterPenalty userId action limits limitNow in
    if negb (allowed userLimit) then
      (TooOften (formatTimeRemaining (verdict_resetTime userLimit) messageNow)
                (if remaining userLimit =? 0 then 0 else remaining userLimit),
       afterLimit)
    else
      (Proceed (remaining userLimit) (verdict_resetTime userLimit), afterLimit).

End RateLimiter.

(* ===================================================================== *)
(** * The verification store                                              *)
(* ===================================================================== *)

Module Store.

Import Ownership.

(** One entry of [verifications]. *)
Record networkVerification : Type := {
  nv_walletAddress : string;
  verifiedAt : string;
  nv_verificationResult : verificationResult;
  nv_network : string
}.

(** A user record; [lastUpdated] is absent until the first save
    completes.  The objects [data] and [verifications] are used as maps:
    user ids are Discord snowflakes and network names are chain names, none
    of which names a property of [Object.prototype]. *)
Record userRecord : Type := {
  userId : string;
  username : string;
  verifications : gmap string networkVerification;
  createdAt : string;
  lastUpdated : option string
}.

(** The three readings of the clock a save makes
    ([new Date().toISOString()]), in program order. *)
Record clock : Type := {
  at_creation : string;
  at_verification : string;
  at_update : string
}.

(** The body both JSON-backed saves share
    ([VerificationDatabase.saveVerification] on [this.data],
    [PostgreSQLDatabase.saveVerificationJSON] on [this.jsonData]). *)
Definition saveJSON (data : gmap string userRecord)
    (user name walletAddress : string) (verificationResult : verificationResult)
    (network : string) (t : clock)
  : networkVerification * gmap string userRecord :=
  (* Initialize user entry if doesn't exist *)
  let initial :=
    match data !! user with
    | Some r => r
    | None =>
        {| userId := user; username := name; verifications := ∅;
           createdAt := at_creation t; lastUpdated := None |}
    end in
  (* Save this network's verification *)
  let saved :=
    {| nv_walletAddress := walletAddress; verifiedAt := at_verification t;
       nv_verificationResult := verificationResult; nv_network := network |} in
  (* Update username in case it changed *)
  let updated :=
    {| userId := userId initial; username := name;
       verifications := <[ network := saved ]> (verifications initial);
       createdAt := createdAt initial; lastUpdated := Some (at_update t) |} in
  (saved, <[ user := updated ]> data).

(** What a save leaves of a user record: the identifier, the creation
    time and the entries of the other networks. *)
Definition framed (network : string) (before after : userRecord) : Prop :=
  userId after = userId before
  /\ createdAt after = createdAt before
  /\ forall n, n <> network -> verifications after !! n = verifications before !! n.

End Store.

(** ** VerificationDatabase (database/verification-db.js) *)

Module VerificationDatabase.

Import Ownership Store.

(** saveVerification(userId, username, walletAddress, verificationResult,
    network) *)
Definition saveVerification (data : gmap string userRecord)
    (user name walletAddress : string) (verificationResult : verificationResult)
    (network : string) (t : clock)
  : networkVerification * gmap string userRecord :=
  saveJSON data user name walletAddress verificationResult network t.

(** getVerifiedUser(userId) *)
Definition getVerifiedUser (data : gmap string userRecord) (user : string)
  : option userRecord :=
  data !! user.

(** removeVerification(userId) *)
Definition removeVerification (data : gmap string userRecord) (user : string)
  : bool * gmap string userRecord :=
  match data !! user with
  | Some _ => (true, delete user data)
  | None => (false, data)
  end.

(** saveMonadVerification(userId, username, walletAddress,
    verificationResult) *)
Definition saveMonadVerification (data : gmap string userRecord)
    (user name walletAddress : string) (verificationResult : verificationResult)
    (t : clock) : networkVerification * gmap string userRecord :=
  saveVerification data user name walletAddress verificationResult
    "monad_testnet" t.

(** hasMonadVerification(userId), as a condition. *)
Definition hasMonadVerification (data : gmap string userRecord) (user : string)
  : bool :=
  match getVerifiedUser data user with
  | Some r =>
      match verifications r !! "monad_testnet"%string with
      | Some v => verified (nv_verificationResult v)
      | None => false
      end
  | None => false
  end.

(** hasNetworkVerification(userId, network), as a condition. *)
Definition hasNetworkVerification (data : gmap string userRecord)
    (user network : string) : bool :=
  match getVerifiedUser data user with
  | Some r =>
      match verifications r !! network with
      | Some v => verified (nv_verificationResult v)
      | None => false
      end
  | None => false
  end.

(** getVerifiedWallet(userId) *)
Definition getVerifiedWallet (data : gmap string userRecord) (user : string)
  : option string :=
  match getVerifiedUser data user with
  | Some r =>
      match verifications r !! "monad_testnet"%string with
      | Some v =>
          if JS.truthy (Some (nv_walletAddress v))
          then Some (nv_walletAddress v) else None
      | None => None
      end
  | None => None
  end.

(** getNetworkWallet(userId, network) *)
Definition getNetworkWallet (data : gmap string userRecord)
    (user network : string) : option string :=
  match getVerifiedUser data user with
  | Some r =>
      match verifications r !! network with
      | Some v =>
          if JS.truthy (Some (nv_walletAddress v))
          then Some (nv_walletAddress v) else None
      | None => None
      end
  | None => None
  end.

(** getUserVerifications(userId) *)
Definition getUserVerifications (data : gmap string userRecord) (user : string)
  : gmap string networkVerification :=
  match getVerifiedUser data user with
  | Some r => verifications r
  | None => ∅
  end.

(** What [getStats] returns. *)
Record stats : Type := {
  totalUsers : Z;
  monadVerified : Z;
  arbitrumVerified : Z;
  beraVerified : Z;
  lastVerification : option JS.number
}.

Section Stats.

(** [new Date(text).getTime()] *)
Variable getTime : string -> JS.number.

(** [user.verifications[network]?.verificationResult?.verified], as a
    condition. *)
Definition verifiedOn (network : string) (user : userRecord) : bool :=
  match verifications user !! network with
  | Some v => verified (nv_verificationResult v)
  | None => false
  end.

(** One of the three counters of the [forEach] over the users. *)
Definition countVerified (network : string) (data : gmap string userRecord) : Z :=
  map_fold (fun _ user n => if verifiedOn network user then n + 1 else n) 0 data.

(** The inner [forEach]: "Find latest verification time". *)
Definition latest (vs : gmap string networkVerification) (last : JS.number)
  : JS.number :=
  map_fold
    (fun _ v lastVerificationTime =>
       let time := getTime (verifiedAt v) in
       if JS.num_gt time lastVerificationTime then time else lastVerificationTime)
    last vs.

(** getStats(); the four accumulators of the loop do not depend on one
    another and are computed one by one, and each is a count or a maximum,
    which does not depend on the order in which the users are
    enumerated. *)
Definition getStats (data : gmap string userRecord) : stats :=
  let lastVerificationTime :=
    map_fold (fun _ user last => latest (verifications user) last) (JS.Num 0) data in
  {| totalUsers := Z.of_nat (size data);
     monadVerified := countVerified "monad_testnet" data;
     arbitrumVerified := countVerified "arbitrum" data;
     beraVerified := countVerified "berachain" data;
     lastVerification :=
       if JS.num_gt lastVerificationTime (JS.Num 0)
       then Some lastVerificationTime else None |}.

End Stats.

End VerificationDatabase.

(** ** PostgreSQLDatabase (database/postgres-db.js) *)

Module PostgreSQLDatabase.

Import Ownership Store.

(** A row of [verified_users], keyed by [user_id]. *)
Record userRow : Type := {
  row_username : string;
  created_at : string;
  last_updated : string
}.

(** A row of [user_verifications].  The table is UNIQUE on
    [(user_id, network)], so it is a map from the user to a map from the
    network to the row; the serial [id] is never read. *)
Record verificationRow : Type := {
  wallet_address : string;
  verified_at : string;
  verification_result : verificationResult
}.

(** The object's state: the two tables, the [useJSON] flag and
    [this.jsonData], which is undefined ([None]) until
    [loadJSONDatabase] has run (the constructor and the failure path of
    [initializeDatabase] run it whenever they set [useJSON]). *)
Record database : Type := {
  useJSON : bool;
  verified_users : gmap string userRow;
  user_verifications : gmap string (gmap string verificationRow);
  jsonData : option (gmap string userRecord)
}.

(** saveVerificationJSON(...): throws when [this.jsonData] is undefined. *)
Definition saveVerificationJSON (db : database)
    (user name walletAddress : string) (verificationResult : verificationResult)
    (network : string) (t : clock)
  : completion networkVerification * database :=
  match jsonData db with
  | None => (Thrown, db)
  | Some data =>
      let '(saved, data') :=
        saveJSON data user name walletAddress verificationResult network t in
      (Returned saved,
       {| useJSON := useJSON db; verified_users := verified_users db;
          user_verifications := user_verifications db;
          jsonData := Some data' |})
  end.

(** INSERT INTO verified_users ... ON CONFLICT (user_id) DO UPDATE SET
    username = $2, last_updated = CURRENT_TIMESTAMP *)
Definition upsertUser (users : gmap string userRow) (user name now : string)
  : gmap string userRow :=
  match users !! user with
  | Some row =>
      <[ user := {| row_username := name; created_at := created_at row;
                    last_updated := now |} ]> users
  | None =>
      <[ user := {| row_username := name; created_at := now;
                    last_updated := now |} ]> users
  end.

(** The rows of one user. *)
Definition rowsOf (rows : gmap string (gmap string verificationRow))
    (user : string) : gmap string verificationRow :=
  default ∅ (rows !! user).

(** INSERT INTO user_verifications ... ON CONFLICT (user_id, network)
    DO UPDATE SET wallet_address = $3, verification_result = $4,
    verified_at = CURRENT_TIMESTAMP *)
Definition upsertVerification
    (rows : gmap string (gmap string verificationRow))
    (user network walletAddress : string) (verificationResult : verificationResult)
    (now : string) : gmap string (gmap string verificationRow) :=
  <[ user :=
       <[ network :=
            {| wallet_address := walletAddress; verified_at := now;
               verification_result := verificationResult |} ]>
         (rowsOf rows user) ]> rows.

(** async saveVerification(...).  [userQuery] and [verificationQuery] tell
    whether the two statements succeed; a failing statement sends the save
    to the JSON fallback.  [t] holds the database's CURRENT_TIMESTAMP of the
    two statements and the clock of the returned object. *)
Definition saveVerification (db : database)
    (user name walletAddress : string) (verificationResult : verificationResult)
    (network : string) (t : clock) (userQuery verificationQuery : bool)
  : completion networkVerification * database :=
  if useJSON db then
    saveVerificationJSON db user name walletAddress verificationResult network t
  else if negb userQuery then
    saveVerificationJSON db user name walletAddress verificationResult network t
  else
    let db1 :=
      {| useJSON := useJSON db;
         verified_users := upsertUser (verified_users db) user name (at_creation t);
         user_verifications := user_verifications db;
         jsonData := jsonData db |} in
    if negb verificationQuery then
      saveVerificationJSON db1 user name walletAddress verificationResult network t
    else
      (Returned {| nv_walletAddress := walletAddress;
                   verifiedAt := at_update t;
                   nv_verificationResult := verificationResult;
                   nv_network := network |},
       {| useJSON := useJSON db1; verified_users := verified_users db1;
          user_verifications :=
            upsertVerification (user_verifications db1) user network
              walletAddress verificationResult (at_verification t);
          jsonData := jsonData db1 |}).

(** async saveMonadVerification(...) *)
Definition saveMonadVerification (db : database)
    (user name walletAddress : string) (verificationResult : verificationResult)
    (t : clock) (userQuery verificationQuery : bool)
  : completion networkVerification * database :=
  saveVerification db user name walletAddress verificationResult
    "monad_testnet" t userQuery verificationQuery.

(** async getVerifiedUser(userId); [queries] tells whether the two SELECT
    statements succeed (a failure is caught and answered with [null]). *)
Definition getVerifiedUser (db : database) (user : string) (queries : bool)
  : option userRecord :=
  if useJSON db then
    match jsonData db with
    | Some data => data !! user
    | None => None
    end
  else if negb queries then None
  else
    match verified_users db !! user with
    | None => None
    | Some row =>
        Some {| userId := user; username := row_username row;
                verifications :=
                  map_imap
                    (fun network r =>
                       Some {| nv_walletAddress := wallet_address r;
                               verifiedAt := verified_at r;
                               nv_verificationResult := verification_result r;
                               nv_network := network |})
                    (rowsOf (user_verifications db) user);
                createdAt := created_at row;
                lastUpdated := Some (last_updated row) |}
    end.

(** [user && user.verifications?.monad_testnet?.verificationResult?.verified],
    as a condition. *)
Definition hasMonadVerification (user : option userRecord) : bool :=
  match user with
  | Some r =>
      match verifications r !! "monad_testnet"%string with
      | Some v => verified (nv_verificationResult v)
      | None => false
      end
  | None => false
  end.

(** [user?.verifications?.monad_testnet?.walletAddress || null] *)
Definition getVerifiedWallet (user : option userRecord) : option string :=
  match user with
  | Some r =>
      match verifications r !! "monad_testnet"%string with
      | Some v =>
          if JS.truthy (Some (nv_walletAddress v))
          then Some (nv_walletAddress v) else None
      | None => None
      end
  | None => None
  end.

(** async removeVerification(userId); the DELETE cascades to the user's
    verification rows. *)
Definition removeVerification (db : database) (user : string) (query : bool)
  : bool * database :=
  if useJSON db then
    match jsonData db with
    | Some data =>
        match data !! user with
        | Some _ =>
            (true,
             {| useJSON := useJSON db; verified_users := verified_users db;
                user_verifications := user_verifications db;
                jsonData := Some (delete user data) |})
        | None => (false, db)
        end
    | None => (false, db)
    end
  else if negb query then (false, db)
  else
    (bool_decide (is_Some (verified_users db !! user)),
     {| useJSON := useJSON db;
        verified_users := delete user (verified_users db);
        user_verifications := delete user (user_verifications db);
        jsonData := jsonData db |}).

(** [user && user.verifications?.[network]?.verificationResult?.verified],
    as a condition (hasNetworkVerification, on the record
    [getVerifiedUser] returned). *)
Definition hasNetworkVerification (user : option userRecord) (network : string)
  : bool :=
  match user with
  | Some r =>
      match verifications r !! network with
      | Some v => verified (nv_verificationResult v)
      | None => false
      end
  | None => false
  end.

(** [user?.verifications?.[network]?.walletAddress || null]
    (getNetworkWallet) *)
Definition getNetworkWallet (user : option userRecord) (network : string)
  : option string :=
  match user with
  | Some r =>
      match verifications r !! network with
      | Some v =>
          if JS.truthy (Some (nv_walletAddress v))
          then Some (nv_walletAddress v) else None
      | None => None
      end
  | None => None
  end.

(** [user?.verifications || {}] (getUserVerifications) *)
Definition getUserVerifications (user : option userRecord)
  : gmap string networkVerification :=
  match user with
  | Some r => verifications r
  | None => ∅
  end.

End PostgreSQLDatabase.

(* ===================================================================== *)
(** * The interaction handlers (monad-bot.js)                             *)
(* ===================================================================== *)

Module Bot.

Import JS Amount Ownership Store.

(** A record of [verificationCodes]; a field that records written by an
    older version of the bot lack is [None]. *)
Record verificationCode : Type := {
  code_userId : string;
  code_username : string;
  code_walletAddress : option string;
  code_amount : option double;
  code_amountWei : option string;
  code_timestamp : option Z;
  code_verified : bool;
  code_verifiedAt : option Z;
  nftVerificationResult : option verificationResult
}.

(** [verificationCodes]: an object used as a map from the verification id
    to its record, listed in the order [Object.entries] enumerates it.  Ids
    are millisecond timestamps in decimal, which JavaScript enumerates in
    insertion order. *)
Definition codes : Type := list (string * verificationCode).

(** [Object.entries(verificationCodes).find(([id, data]) =>
    data.userId === userId)] *)
Definition findCode (cs : codes) (user : string)
  : option (string * verificationCode) :=
  List.find (fun entry => String.eqb (code_userId (snd entry)) user) cs.

(** [verificationCodes[id] = record] *)
Fixpoint assign (cs : codes) (id : string) (record : verificationCode) : codes :=
  match cs with
  | [] => [(id, record)]
  | (k, v) :: rest =>
      if String.eqb k id then (id, record) :: rest
      else (k, v) :: assign rest id record
  end.

(** [delete verificationCodes[id]] *)
Definition remove (cs : codes) (id : string) : codes :=
  List.filter (fun entry => negb (String.eqb (fst entry) id)) cs.

(** [s.trim()] on ASCII text: of the characters [trim] strips, the six
    ASCII ones (tab, line feed, vertical tab, form feed, carriage return
    and space); the no-break space, the byte order mark and the other
    Unicode spaces lie outside ASCII. *)
Definition trim (s : string) : string :=
  String.rev (trimStart (String.rev (trimStart s))).

(** function isValidEthereumAddress(address):
    [/^0x[a-fA-F0-9]{40}$/.test(address)] *)
Definition isValidEthereumAddress (address : string) : bool :=
  match address with
  | String "0" (String "x" rest) =>
      Nat.eqb (String.length rest) 40
      && forallb (fun c => bool_decide (is_Some (hexDigit c)))
           (String.list_ascii_of_string rest)
  | _ => false
  end.

(** The embeds the handlers answer with, by their title, with the values
    they interpolate. *)
Inductive embed : Type :=
  | InvalidWalletAddress
  | AlreadyVerified
  | TransactionRequired (amountToSend : double) (botWallet : option string)
  | MonadVerification
  | ReadyToVerify (chain : string) (verifiedWallet : option string)
  | RequiresMonadFirst (chain : string)
  | NoVerificationRequest
  | NoWalletAddress
  | TransactionNotFound (amount : option double) (fromWallet : string)
  | VerificationOutcome (result : verificationResult)
  | VerificationError (network : option string)
  | NoVerifiedWallet
  | VerificationReset
  | NothingToReset.

(** What a handler does to the outside, in order. *)
Inductive action : Type :=
  | Reply (e : embed) (button : option string)
  | ShowModal (customId : string)
  | CheckTransaction (fromAddress : string) (toAddress amountWei : option string)
  | CheckOwnership (network walletAddress : string)
  | GrantRole (network : string)
  | RevokeRoles.

(** ** handleModalSubmit: create or resume a challenge *)

(** [fresh] is what [generateVerificationAmount()] returns if it is called;
    [idNow] and [stampNow] are the two readings of [Date.now()]. *)
Definition handleModalSubmit (cs : codes) (botWallet : option string)
    (input user name : string) (fresh : double) (idNow stampNow : Z)
  : embed * codes :=
  let walletAddress := trim input in
  if negb (isValidEthereumAddress walletAddress) then (InvalidWalletAddress, cs)
  else
    match findCode cs user with
    | Some (verificationId, existing) =>
        if code_verified existing then (AlreadyVerified, cs)
        else
          (* Use existing amount if it exists, otherwise generate new one *)
          let verificationAmount :=
            if amount_truthy (code_amount existing)
            then default fresh (code_amount existing) else fresh in
          let hasAmount := amount_truthy (code_amount existing) in
          let updated :=
            {| code_userId := code_userId existing;
               code_username := code_username existing;
               code_walletAddress := Some walletAddress;
               code_amount :=
                 if hasAmount then code_amount existing
                 else Some verificationAmount;
               code_amountWei :=
                 if hasAmount then code_amountWei existing
                 else Some (ethToWei verificationAmount);
               code_timestamp := code_timestamp existing;
               code_verified := code_verified existing;
               code_verifiedAt := code_verifiedAt existing;
               nftVerificationResult := nftVerificationResult existing |} in
          (TransactionRequired verificationAmount botWallet,
           assign cs verificationId updated)
    | None =>
        let verificationAmount := fresh in
        let verificationId := decimal idNow in
        (TransactionRequired verificationAmount botWallet,
         assign cs verificationId
           {| code_userId := user; code_username := name;
              code_walletAddress := Some walletAddress;
              code_amount := Some verificationAmount;
              code_amountWei := Some (ethToWei verificationAmount);
              code_timestamp := Some stampNow;
              code_verified := false;
              code_verifiedAt := None;
              nftVerificationResult := None |})
    end.

(** The ids of the records, in order; they are distinct in the list of an
    object's entries. *)
Definition ids (cs : codes) : list string := map fst cs.

(** The amount a submission of [user] works with. *)
Definition effectiveAmount (cs : codes) (user : string) (fresh : double) : double :=
  match findCode cs user with
  | Some (_, existing) =>
      if amount_truthy (code_amount existing)
      then default fresh (code_amount existing) else fresh
  | None => fresh
  end.

(** The last clause of C5 as the specification states it: while an
    unverified record of the user exists, no fresh amount is generated (the
    submission does not depend on what the generator would return). *)
Definition fresh_only_without_record (cs : codes) (user : string) : Prop :=
  (exists id existing,
     findCode cs user = Some (id, existing) /\ code_verified existing = false) ->
  forall (botWallet : option string) (input name : string)
         (fresh fresh' : double) (idNow stampNow : Z),
    handleModalSubmit cs botWallet input user name fresh idNow stampNow
    = handleModalSubmit cs botWallet input user name fresh' idNow stampNow.

(** ** The handlers that read and write the verification store *)

Section Handlers.

Import PostgreSQLDatabase.

(** The verifiers, as the handlers call them. *)
Variable checkVerificationTransaction :
  string -> option string -> option string -> bool.
Variable verifyNFTOwnershipWithStaking : string -> verificationResult.
Variable arbitrumVerifier beraVerifier : string -> verificationResult.

(** The bot's state. *)
Record state : Type := {
  verificationCodes : codes;
  verificationDB : database
}.

(** What the surroundings decide during one interaction: whether the
    store's statements succeed, the clock, and whether the member and the
    role to grant are found. *)
Record world : Type := {
  readQuery : bool;
  secondReadQuery : bool;
  userQuery : bool;
  verificationQuery : bool;
  deleteQuery : bool;
  saveClock : clock;
  verifiedAtNow : Z;
  roleFound : bool
}.

(** handleSelectMenuInteraction, for [customId ===
    'select_verification_chain'] and the chosen value [selectedChain]. *)
Definition handleSelectMenuInteraction (st : state) (w : world)
    (selectedChain user : string) : list action :=
  if String.eqb selectedChain "monad_testnet" then
    [Reply MonadVerification (Some "request_monad_wallet"%string)]
  else if String.eqb selectedChain "arbitrum" || String.eqb selectedChain "bera" then
    (* Check if user has Monad verification first *)
    if hasMonadVerification (getVerifiedUser (verificationDB st) user (readQuery w))
    then
      (* Use Monad-verified address only *)
      let verifiedWallet :=
        getVerifiedWallet
          (getVerifiedUser (verificationDB st) user (secondReadQuery w)) in
      [Reply (ReadyToVerify selectedChain verifiedWallet)
             (Some ("use_verified_wallet_" ++ selectedChain)%string)]
    else
      (* No Monad verification - require it first *)
      [Reply (RequiresMonadFirst selectedChain) (Some "request_monad_wallet"%string)]
  else [].

(** [customId.replace('use_verified_wallet_', '')], for a [customId] that
    starts with that prefix. *)
Definition networkOf (customId : string) : string :=
  String.substring 20 (String.length customId - 20) customId.

(** The branch [customId.startsWith('use_verified_wallet_')] of
    handleButtonInteraction.  Its [catch] names [networkName], which is
    declared inside the [try]: on the two paths that reach it the title
    cannot be built, and the error message the user receives is the one
    of the [interactionCreate] handler.  [VerificationError] stands for
    that message on these two paths; nothing else is done on them. *)
Definition useVerifiedWallet (st : state) (w : world)
    (customId user name : string) : list action * state :=
  let network := networkOf customId in
  match getVerifiedWallet
          (getVerifiedUser (verificationDB st) user (readQuery w)) with
  | None => ([Reply NoVerifiedWallet None], st)
  | Some verifiedWallet =>
      let verifier :=
        if String.eqb network "arbitrum" then Some arbitrumVerifier
        else if String.eqb network "bera" then Some beraVerifier
        else None in
      match verifier with
      | None => ([Reply (VerificationError None) None], st)   (* Invalid network *)
      | Some verify =>
          let nftResult := verify verifiedWallet in
          if verified nftResult then
            (* Save verification to database *)
            let '(outcome, db') :=
              saveVerification (verificationDB st) user name verifiedWallet
                nftResult network (saveClock w) (userQuery w)
                (verificationQuery w) in
            let st' := {| verificationCodes := verificationCodes st;
                          verificationDB := db' |} in
            match outcome with
            | Thrown =>
                ([CheckOwnership network verifiedWallet;
                  Reply (VerificationError (Some network)) None], st')
            | Returned _ =>
                ([CheckOwnership network verifiedWallet]
                 ++ (if roleFound w then [GrantRole network] else [])
                 ++ [Reply (VerificationOutcome nftResult) None], st')
            end
          else
            ([CheckOwnership network verifiedWallet;
              Reply (VerificationOutcome nftResult) None], st)
      end
  end.

(** The branch [customId === 'confirm_monad_transaction'] of
    handleButtonInteraction. *)
Definition confirmMonadTransaction (st : state) (w : world)
    (botWallet : option string) (user name : string) : list action * state :=
  match findCode (verificationCodes st) user with
  | None => ([Reply NoVerificationRequest None], st)
  | Some (verificationId, verificationData) =>
      if negb (truthy (code_walletAddress verificationData)) then
        ([Reply NoWalletAddress None], st)
      else
        let walletAddress := default ""%string (code_walletAddress verificationData) in
        let asked :=
          CheckTransaction walletAddress botWallet (code_amountWei verificationData) in
        (* Step 1: Check for verification transaction *)
        if negb (checkVerificationTransaction walletAddress botWallet
                   (code_amountWei verificationData)) then
          ([asked;
            Reply (TransactionNotFound (code_amount verificationData) walletAddress)
                  None], st)
        else
          (* Step 2: Verify NFT ownership on Monad (with staking support) *)
          let nftResult := verifyNFTOwnershipWithStaking walletAddress in
          let checked := CheckOwnership "monad_testnet" walletAddress in
          if verified nftResult then
            let '(outcome, db') :=
              saveMonadVerification (verificationDB st) user name walletAddress
                nftResult (saveClock w) (userQuery w) (verificationQuery w) in
            match outcome with
            | Thrown =>
                ([asked; checked; Reply (VerificationError (Some "monad_testnet"%string)) None],
                 {| verificationCodes := verificationCodes st;
                    verificationDB := db' |})
            | Returned _ =>
                (* Update legacy verification codes *)
                let updated :=
                  {| code_userId := code_userId verificationData;
                     code_username := code_username verificationData;
                     code_walletAddress := code_walletAddress verificationData;
                     code_amount := code_amount verificationData;
                     code_amountWei := code_amountWei verificationData;
                     code_timestamp := code_timestamp verificationData;
                     code_verified := true;
                     code_verifiedAt := Some (verifiedAtNow w);
                     nftVerificationResult := Some nftResult |} in
                ([asked; checked]
                 ++ (if roleFound w then [GrantRole "monad_testnet"%string] else [])
                 ++ [Reply (VerificationOutcome nftResult) None],
                 {| verificationCodes :=
                      assign (verificationCodes st) verificationId updated;
                    verificationDB := db' |})
            end
          else
            ([asked; checked; Reply (VerificationOutcome nftResult) None], st)
  end.

(** async function handleButtonInteraction(interaction) *)
Definition handleButtonInteraction (st : state) (w : world)
    (botWallet : option string) (customId user name : string)
  : list action * state :=
  if String.eqb customId "request_monad_wallet" then
    ([ShowModal "monad_wallet_input_modal"%string], st)
  else if String.eqb customId "confirm_monad_transaction" then
    confirmMonadTransaction st w botWallet user name
  else if String.prefix "use_verified_wallet_" customId then
    useVerifiedWallet st w customId user name
  else ([], st).

(** The [reset-verification] command of handleSlashCommand. *)
Definition resetVerification (st : state) (w : world) (user : string)
  : list action * state :=
  let '(removed, db') :=
    removeVerification (verificationDB st) user (deleteQuery w) in
  match findCode (verificationCodes st) user with
  | Some (code, _) =>
      ([RevokeRoles; Reply VerificationReset None],
       {| verificationCodes := remove (verificationCodes st) code;
          verificationDB := db' |})
  | None =>
      if removed then
        ([RevokeRoles; Reply VerificationReset None],
         {| verificationCodes := verificationCodes st; verificationDB := db' |})
      else
        ([Reply NothingToReset None],
         {| verificationCodes := verificationCodes st; verificationDB := db' |})
  end.

(** The interactions that reach the store, and the bot's step on each. *)
Inductive interaction : Type :=
  | SelectChain (selectedChain user : string)
  | Button (customId user name : string)
  | ModalSubmit (input user name : string) (fresh : double) (idNow stampNow : Z)
  | ResetCommand (user : string).

Definition step (botWallet : option string) (st : state) (w : world)
    (i : interaction) : list action * state :=
  match i with
  | SelectChain chain user => (handleSelectMenuInteraction st w chain user, st)
  | Button customId user name =>
      handleButtonInteraction st w botWallet customId user name
  | ModalSubmit input user name fresh idNow stampNow =>
      let '(e, cs) :=
        handleModalSubmit (verificationCodes st) botWallet input user name
          fresh idNow stampNow in
      ([Reply e (match e with
                 | TransactionRequired _ _ => Some "confirm_monad_transaction"%string
                 | _ => None
                 end)],
       {| verificationCodes := cs; verificationDB := verificationDB st |})
  | ResetCommand user => resetVerification st w user
  end.

(** The bot's state after a sequence of interactions. *)
Fixpoint run (botWallet : option string) (st : state)
    (events : list (world * interaction)) : state :=
  match events with
  | [] => st
  | (w, i) :: rest => run botWallet (snd (step botWallet st w i)) rest
  end.


End Handlers.

(** ** The store's invariant

    Every entry the store holds was saved after a successful check, for a
    non-empty wallet: the handlers save in no other case. *)

Definition entry_ok (v : networkVerification) : Prop :=
  verified (nv_verificationResult v) = true
  /\ truthy (Some (nv_walletAddress v)) = true.

Definition store_ok (db : PostgreSQLDatabase.database) : Prop :=
  (forall data user r n v,
     PostgreSQLDatabase.jsonData db = Some data ->
     data !! user = Some r -> verifications r !! n = Some v -> entry_ok v)
  /\ (forall user n row,
        PostgreSQLDatabase.rowsOf (PostgreSQLDatabase.user_verifications db) user !! n
        = Some row ->
        verified (PostgreSQLDatabase.verification_result row) = true
        /\ truthy (Some (PostgreSQLDatabase.wallet_address row)) = true).

(** The store of a bot that starts without records. *)
Definition emptyStore (json : bool) : PostgreSQLDatabase.database :=
  {| PostgreSQLDatabase.useJSON := json;
     PostgreSQLDatabase.verified_users := ∅;
     PostgreSQLDatabase.user_verifications := ∅;
     PostgreSQLDatabase.jsonData := if json then Some ∅ else None |}.

(** ** The [verification-status] command of handleSlashCommand *)

(** The networks the status embed names. *)
Inductive chainLabel : Type :=
  | MonadTestnet
  | Arbitrum
  | Berachain.

(** The fields of the status embed: one per verified network, with the
    wallet and the date it shows, and the list "Available to Verify". *)
Inductive statusField : Type :=
  | VerifiedOn (chain : chainLabel) (walletAddress verifiedAt : string)
  | AvailableToVerify (chains : list chainLabel).

Inductive statusEmbed : Type :=
  | NoVerificationsYet
  | VerificationStatus (fields : list statusField).

(** [userVerifications[key]?.verificationResult?.verified], as a
    condition. *)
Definition verifiedUnder (userVerifications : gmap string networkVerification)
    (key : string) : bool :=
  match userVerifications !! key with
  | Some v => verified (nv_verificationResult v)
  | None => false
  end.

Definition verificationStatus (st : state) (w : world) (user : string)
  : statusEmbed :=
  let userVerifications :=
    PostgreSQLDatabase.getUserVerifications
      (PostgreSQLDatabase.getVerifiedUser (verificationDB st) user (readQuery w)) in
  (* Object.keys(userVerifications).length === 0 *)
  if Nat.eqb (size userVerifications) 0 then NoVerificationsYet
  else
    let verifiedField (key : string) (chain : chainLabel) :=
      match userVerifications !! key with
      | Some v =>
          if verified (nv_verificationResult v)
          then [VerifiedOn chain (nv_walletAddress v) (verifiedAt v)] else []
      | None => []
      end in
    let available (key : string) (chain : chainLabel) :=
      if verifiedUnder userVerifications key then [] else [chain] in
    (* Add available networks to verify *)
    let availableNetworks :=
      available "monad_testnet"%string MonadTestnet
      ++ available "arbitrum"%string Arbitrum
      ++ available "berachain"%string Berachain in
    VerificationStatus
      (verifiedField "monad_testnet"%string MonadTestnet
       ++ verifiedField "arbitrum"%string Arbitrum
       ++ verifiedField "berachain"%string Berachain
       ++ match availableNetworks with
          | [] => []
          | _ => [AvailableToVerify availableNetworks]
          end).

(** ** Further invariants of the bot's state *)

(** The network keys the handlers save under: ['monad_testnet'] (the
    confirmation button) and the suffix of a [use_verified_wallet_...]
    button that has a verifier, ['arbitrum'] or ['bera']. *)
Definition savedNetwork (n : string) : Prop :=
  n = "monad_testnet"%string \/ n = "arbitrum"%string \/ n = "bera"%string.

(** Every entry of the store sits under one of those keys. *)
Definition networks_ok (db : PostgreSQLDatabase.database) : Prop :=
  (forall data user r n v,
     PostgreSQLDatabase.jsonData db = Some data ->
     data !! user = Some r -> verifications r !! n = Some v -> savedNetwork n)
  /\ (forall user n row,
        PostgreSQLDatabase.rowsOf (PostgreSQLDatabase.user_verifications db) user !! n
        = Some row ->
        savedNetwork n).

(** No two challenge records belong to the same user. *)
Definition unique_users (cs : codes) : Prop :=
  List.NoDup (map (fun entry => code_userId (snd entry)) cs).

(** The state of a bot that starts without records, with the JSON store
    ([json], no database URL is configured) or with PostgreSQL. *)
Definition initialState (json : bool) : state :=
  {| verificationCodes := []; verificationDB := emptyStore json |}.

(** What holds of every state the bot reaches from [initialState json]:
    the store keeps its mode, the fallback data is loaded exactly in the
    JSON mode (the constructor loads it when it sets [useJSON], and
    nothing else does while the tables can be created), entries sit under
    the keys the handlers save under, and the challenge records have
    distinct ids and distinct users. *)
Definition state_ok (json : bool) (st : state) : Prop :=
  PostgreSQLDatabase.useJSON (verificationDB st) = json
  /\ (if json then is_Some (PostgreSQLDatabase.jsonData (verificationDB st))
      else PostgreSQLDatabase.jsonData (verificationDB st) = None)
  /\ networks_ok (verificationDB st)
  /\ List.NoDup (ids (verificationCodes st))
  /\ unique_users (verificationCodes st).

(** The store [db'] is in the mode of [db]. *)
Definition keeps_mode (db db' : PostgreSQLDatabase.database) : Prop :=
  PostgreSQLDatabase.useJSON db' = PostgreSQLDatabase.useJSON db
  /\ (is_Some (PostgreSQLDatabase.jsonData db) ->
      is_Some (PostgreSQLDatabase.jsonData db'))
  /\ (PostgreSQLDatabase.jsonData db = None ->
      PostgreSQLDatabase.jsonData db' = None).

End Bot.

(* ===================================================================== *)
(** * Input validation (utils/validation.js)                              *)
(* ===================================================================== *)

Module Validation.

Import JS.

Local Open Scope string_scope.

(** An argument that is not a string ([typeof x !== 'string']) is [None]. *)

(** function isValidEthereumAddress(address) *)
Definition isValidEthereumAddress (address : option string) : bool :=
  match address with
  | Some s => Bot.isValidEthereumAddress s
  | None => false
  end.

(** function isValidDiscordId(id): [/^\d{17,19}$/.test(id)] *)
Definition isValidDiscordId (id : option string) : bool :=
  match id with
  | Some s =>
      all_digits s
      && Nat.leb 17 (String.length s) && Nat.leb (String.length s) 19
  | None => false
  end.

(** The character class of the [replace]: the two angle brackets, the
    double quote and the apostrophe. *)
Definition dangerous (c : ascii) : bool :=
  let n := nat_of_ascii c in
  (Nat.eqb n 60 || Nat.eqb n 62 || Nat.eqb n 34 || Nat.eqb n 39)%bool.

(** [s.replace(/.../g, '')] with that class: every such character is
    removed. *)
Fixpoint removeDangerous (s : string) : string :=
  match s with
  | EmptyString => EmptyString
  | String c s' =>
      if dangerous c then removeDangerous s' else String c (removeDangerous s')
  end.

(** function sanitizeInput(input) *)
Definition sanitizeInput (input : option string) : string :=
  match input with
  | Some s => String.substring 0 100 (removeDangerous (Bot.trim s))
  | None => ""
  end.

(** The configuration object [validateConfig] reads. *)
Record config : Type := {
  DISCORD_TOKEN : option string;
  CLIENT_ID : option string;
  GUILD_ID : option string;
  VERIFIED_ROLE_ID : option string
}.

Record validation : Type := {
  isValid : bool;
  errors : list string
}.

(** The check the three identifiers get:
    [if (!value) ... else if (!isValidDiscordId(value)) ...]. *)
Definition idErrors (name : string) (value : option string) : list string :=
  if negb (truthy value) then [name ++ " is required"]
  else if negb (isValidDiscordId value)
       then [name ++ " must be a valid Discord ID"]
       else [].

(** function validateConfig(config) *)
Definition validateConfig (c : config) : validation :=
  let errors :=
    ((if negb (truthy (DISCORD_TOKEN c)) then ["DISCORD_TOKEN is required"] else [])
     ++ idErrors "CLIENT_ID" (CLIENT_ID c)
     ++ idErrors "GUILD_ID" (GUILD_ID c)
     ++ idErrors "VERIFIED_ROLE_ID" (VERIFIED_ROLE_ID c))%list in
  {| isValid := Nat.eqb (List.length errors) 0; errors := errors |}.

End Validation.

(* ===================================================================== *)
(** * Example inputs                                                      *)
(* ===================================================================== *)

Module Examples.

Import JS Scanner.

Definition userWallet : string := "0xAbCdEF0123456789abcdef0123456789ABCDEF01".
Definition botWallet : string := "0x00000000000000000000000000000000000B07b0".

(** A transfer from the user's wallet to the bot's wallet. *)
Definition transferOf (value : string) : transaction :=
  {| tx_to := Some "0x00000000000000000000000000000000000b07B0"%string;
     tx_from := Some "0xabcdef0123456789abcdef0123456789abcdef01"%string;
     tx_value := Some value;
     tx_hash := Some "0x01"%string |}.

(** A chain whose head is [head] and whose only non-empty block is [at],
    holding the transactions [txs]. *)
Definition chain (head : string) (at_block : Z) (txs : list transaction) : rpc :=
  {| eth_blockNumber := Resolved (Some head);
     eth_getBlockByNumber := fun n =>
       if number_eqb n (Num at_block)
       then Resolved (Some {| transactions := Some txs |})
       else Resolved (Some {| transactions := Some [] |}) |}.


(** A holdings API that reports no NFT for any wallet. *)
Definition noHoldings : Ownership.holdingsApi :=
  fun _ => Resolved {| Ownership.ownedNfts := Some [];
                       Ownership.totalCount := Some (Num 0) |}.

Definition collectionAddress : string := "0x1111111111111111111111111111111111111111".
Definition stakingAddress : string := "0x2222222222222222222222222222222222222222".

(** A verifier configured with a required collection and a minimum. *)
Definition requiring (minimum : Z) : Ownership.config :=
  {| Ownership.cfg_requiredCollection := Some collectionAddress;
     Ownership.cfg_minNftCount := Num minimum |}.

Definition oneStakingContract : MonadNFTVerifier.stakingEnv :=
  {| MonadNFTVerifier.STAKING_CONTRACT_ADDRESS := Some stakingAddress;
     MonadNFTVerifier.STAKING_CONTRACT_ADDRESS_2 := None |}.

(** A staking contract that answers every call with the 32-byte word
    [word]. *)
Definition stakingContractAnswering (word : string) : MonadNFTVerifier.contractRpc :=
  {| MonadNFTVerifier.eth_getCode := fun _ =>
       Resolved (Some {| MonadNFTVerifier.rpc_result := Some "0x6080"%string;
                         MonadNFTVerifier.rpc_error := false |});
     MonadNFTVerifier.eth_call := fun _ _ =>
       Resolved (Some {| MonadNFTVerifier.rpc_result := Some word;
                         MonadNFTVerifier.rpc_error := false |}) |}.

Definition wordZero : string :=
  "0x0000000000000000000000000000000000000000000000000000000000000000".
Definition wordThree : string :=
  "0x0000000000000000000000000000000000000000000000000000000000000003".

(** The limiter's map after five allowed "verify" calls of user 42 within
    one window. *)
Definition exhausted : gmap string RateLimiter.entry :=
  fold_left
    (fun m now => snd (RateLimiter.checkUserLimit m "42" "verify" ∅ now))
    [1000; 2000; 3000; 4000; 5000] ∅.

Definition sampleClock : Store.clock :=
  {| Store.at_creation := "2025-01-01T00:00:00.000Z";
     Store.at_verification := "2025-01-01T00:00:00.001Z";
     Store.at_update := "2025-01-01T00:00:00.002Z" |}.

Definition laterClock : Store.clock :=
  {| Store.at_creation := "2025-02-01T00:00:00.000Z";
     Store.at_verification := "2025-02-01T00:00:00.001Z";
     Store.at_update := "2025-02-01T00:00:00.002Z" |}.

(** A verified result of a direct check. *)
Definition verifiedResult (net wallet : string) : Ownership.verificationResult :=
  Ownership.directResult net wallet "2025-01-01T00:00:00.000Z" (requiring 1)
    {| Ownership.ownedNfts := Some []; Ownership.totalCount := Some (Num 2) |}
    true (Some (Num 2))
    {| Ownership.collectionName := Some "S.Y.B.I.L Pass"%string;
       Ownership.collectionSymbol := Some "SYBIL"%string;
       Ownership.ownedTokens := Some [];
       Ownership.message := Some (Ownership.OwnsFromRequired (Num 2));
       Ownership.stakingInfo := None; Ownership.stakingDetails := None |}.

(** A JSON store in which user 42 is verified on Monad. *)
Definition monadVerified : gmap string Store.userRecord :=
  snd (VerificationDatabase.saveVerification ∅ "42" "alice" userWallet
         (verifiedResult "monad_testnet" userWallet) "monad_testnet" sampleClock).

(** A PostgreSQL-backed store in which user 42 is verified on Monad. *)
Definition monadVerifiedPG : PostgreSQLDatabase.database :=
  snd (PostgreSQLDatabase.saveMonadVerification
         {| PostgreSQLDatabase.useJSON := false;
            PostgreSQLDatabase.verified_users := ∅;
            PostgreSQLDatabase.user_verifications := ∅;
            PostgreSQLDatabase.jsonData := None |}
         "42" "alice" userWallet (verifiedResult "monad_testnet" userWallet)
         sampleClock true true).

(** A record as an older version of the bot stored it: a text code, no
    amount. *)
Definition legacyCodes : Bot.codes :=
  [ ("Schizo-XYZV45U9483"%string,
     {| Bot.code_userId := "42"; Bot.code_username := "alice";
        Bot.code_walletAddress := None; Bot.code_amount := None;
        Bot.code_amountWei := None; Bot.code_timestamp := Some 1700000000000;
        Bot.code_verified := false; Bot.code_verifiedAt := None;
        Bot.nftVerificationResult := None |}) ].


Definition calmWorld : Bot.world :=
  {| Bot.readQuery := true; Bot.secondReadQuery := true;
     Bot.userQuery := true; Bot.verificationQuery := true;
     Bot.deleteQuery := true; Bot.saveClock := laterClock;
     Bot.verifiedAtNow := 1738368000000; Bot.roleFound := true |}.

(** C2 as the specification states it, for a chain head of any height:
    when no request fails, a confirming transfer in exactly the block
    [head - 1000] is found, that is, the function returns true within
    some number of turns of its loop. *)
Definition window_as_stated (fromAddress toAddress exactAmount : string)
    (net : rpc) (head : Z) : Prop :=
  (exists hex, eth_blockNumber net = Resolved hex
               /\ parseInt16_opt hex = Num head) ->
  0 <= head ->
  (forall n, eth_getBlockByNumber net n <> Rejected) ->
  confirms_at fromAddress toAddress exactAmount net (Z.max 0 (head - 1000)) ->
  exists fuel,
    checkVerificationTransaction fromAddress toAddress exactAmount net fuel
    = Some true.

(** A holdings API that reports one NFT of the required collection, and
    one whose request fails. *)
Definition oneHolding : Ownership.holdingsApi :=
  fun _ =>
    Resolved
      {| Ownership.ownedNfts :=
           Some [ {| Ownership.contract :=
                       {| Ownership.address := collectionAddress;
                          Ownership.contract_name := Some "S.Y.B.I.L Pass"%string;
                          Ownership.contract_symbol := Some "SYBIL"%string |};
                     Ownership.tokenId := "7";
                     Ownership.nft_name := None;
                     Ownership.image := None |} ];
         Ownership.totalCount := Some (Num 1) |}.

Definition failingApi : Ownership.holdingsApi := fun _ => Rejected.

(** A staking contract that reports three staked NFTs and answers
    [getStakedTokenIds] with the ABI encoding of the array [5; 9]. *)
Definition stakingContractHolding : MonadNFTVerifier.contractRpc :=
  {| MonadNFTVerifier.eth_getCode := fun _ =>
       Resolved (Some {| MonadNFTVerifier.rpc_result := Some "0x6080"%string;
                         MonadNFTVerifier.rpc_error := false |});
     MonadNFTVerifier.eth_call := fun _ data =>
       Resolved
         (Some {| MonadNFTVerifier.rpc_result :=
                    Some (if String.prefix "0x7047bc52" data
                          then ("0x"
                                ++ "0000000000000000000000000000000000000000000000000000000000000020"
                                ++ "0000000000000000000000000000000000000000000000000000000000000002"
                                ++ "0000000000000000000000000000000000000000000000000000000000000005"
                                ++ "0000000000000000000000000000000000000000000000000000000000000009")%string
                          else wordThree);
                  MonadNFTVerifier.rpc_error := false |}) |}.

(** Both environment variables name the same staking contract. *)
Definition sameContractTwice : MonadNFTVerifier.stakingEnv :=
  {| MonadNFTVerifier.STAKING_CONTRACT_ADDRESS := Some stakingAddress;
     MonadNFTVerifier.STAKING_CONTRACT_ADDRESS_2 := Some stakingAddress |}.

(** An interaction during which the second statement of a save fails. *)
Definition stormWorld : Bot.world :=
  {| Bot.readQuery := true; Bot.secondReadQuery := true;
     Bot.userQuery := true; Bot.verificationQuery := false;
     Bot.deleteQuery := true; Bot.saveClock := laterClock;
     Bot.verifiedAtNow := 1738368000000; Bot.roleFound := true |}.

(** The pending challenge of user 7, issued at the millisecond
    1700000000000. *)
Definition pendingCodes : Bot.codes :=
  [ ("1700000000000"%string,
     {| Bot.code_userId := "7"; Bot.code_username := "bob";
        Bot.code_walletAddress := Some botWallet;
        Bot.code_amount := Some (Amount.Number_of_fixed10 200);
        Bot.code_amountWei := Some (Amount.ethToWei (Amount.Number_of_fixed10 200));
        Bot.code_timestamp := Some 1700000000000;
        Bot.code_verified := false; Bot.code_verifiedAt := None;
        Bot.nftVerificationResult := None |}) ].

(** C1 as the specification states it: the comparison is exact for a
    challenge amount [c] of any magnitude. *)
Definition exact_amount_as_stated (fromAddress toAddress : string) (net : rpc)
    (c head : Z) (fuel : nat) : Prop :=
  0 <= c ->
  head_is net head -> (1001 < fuel)%nat ->
  (exists b, in_window head b
             /\ (transfer_at fromAddress toAddress net (c + 1) b
                 \/ transfer_at fromAddress toAddress net (c - 1) b)) ->
  (forall b, in_window head b -> ~ transfer_at fromAddress toAddress net c b) ->
  checkVerificationTransaction fromAddress toAddress (decimal c) net fuel
  = Some false.

End Examples.

(* ===================================================================== *)
(** * Facts about the JavaScript primitives                               *)
(* ===================================================================== *)

Module JSFacts.

Import JS.

Lemma round53_small (z : Z) : 0 <= z <= 2 ^ 53 -> round53 z = z.
Proof.
  intros [H0 H1]. unfold round53.
  destruct (Z.eq_dec z (2 ^ 53)) as [-> | Hne]; [reflexivity |].
  destruct (Z.eq_dec z 0) as [-> | Hz]; [reflexivity |].
  assert (Z.log2 z < 53) by (apply Z.log2_lt_pow2; lia).
  destruct (Z.leb_spec (Z.log2 z + 1 - 53) 0); [reflexivity | lia].
Qed.

Lemma round53_large (z : Z) : 2 ^ 53 <= z -> 2 ^ 53 <= round53 z.
Proof.
  intros H. unfold round53.
  assert (Hlog : 53 <= Z.log2 z) by (apply Z.log2_le_pow2; lia).
  set (sh := Z.log2 z + 1 - 53).
  assert (Hsh : 1 <= sh) by (unfold sh; lia).
  destruct (Z.leb_spec sh 0); [lia |].
  cbv zeta.
  set (q := Z.shiftr z sh).
  assert (Hq : 2 ^ 52 <= q).
  { unfold q. rewrite Z.shiftr_div_pow2 by lia.
    apply Z.div_le_lower_bound; [apply Z.pow_pos_nonneg; lia |].
    rewrite <- Z.pow_add_r by lia.
    replace (sh + 52) with (Z.log2 z) by (unfold sh; lia).
    apply Z.log2_spec. lia. }
  match goal with |- _ <= Z.shiftl ?q' sh => assert (Hq' : 2 ^ 52 <= q') end.
  { destruct (_ || _); lia. }
  rewrite Z.shiftl_mul_pow2 by lia.
  assert (2 ^ 1 <= 2 ^ sh) by (apply Z.pow_le_mono_r; lia).
  change (2 ^ 53) with (2 ^ 52 * 2 ^ 1).
  apply Z.mul_le_mono_nonneg; lia.
Qed.

Lemma round53_below (z : Z) : 0 <= z -> round53 z < 2 ^ 53 -> round53 z = z.
Proof.
  intros H0 H. destruct (Z.le_gt_cases (2 ^ 53) z) as [Hge | Hlt].
  - apply round53_large in Hge. lia.
  - apply round53_small. lia.
Qed.

Lemma number_of_Z_small (z : Z) : 0 <= z <= 2 ^ 53 -> number_of_Z z = Num z.
Proof.
  intros H. unfold number_of_Z.
  rewrite Z.abs_eq by lia. rewrite round53_small by lia.
  destruct (Z.leb_spec (2 ^ 1024) z) as [Hbig | _].
  - assert (2 ^ 53 < 2 ^ 1024) by (apply Z.pow_lt_mono_r; lia). lia.
  - f_equal. destruct (Z.eq_dec z 0) as [-> | ?]; [reflexivity |].
    rewrite Z.sgn_pos by lia. lia.
Qed.

(** What [number_of_Z] can be when it is [Num v] with [v] positive. *)
Lemma number_of_Z_pos (p v : Z) :
  0 <= p -> 0 < v -> number_of_Z p = Num v -> 0 < p /\ round53 p = v.
Proof.
  intros Hp Hv. unfold number_of_Z. rewrite Z.abs_eq by lia.
  destruct (2 ^ 1024 <=? round53 p); [discriminate |].
  intros [= Heq].
  destruct (Z.eq_dec p 0) as [-> | ?]; [simpl in Heq; lia |].
  rewrite Z.sgn_pos in Heq by lia. lia.
Qed.

(** ** Decimal texts *)

Lemma all_digits_uint (d : Decimal.uint) :
  all_digits (NilEmpty.string_of_uint d) = true.
Proof. induction d; simpl; auto. Qed.

Lemma decimal_all_digits (z : Z) : all_digits (decimal z) = true.
Proof.
  unfold decimal, NilZero.string_of_uint.
  destruct (N.to_uint (Z.to_N z)) eqn:E; try reflexivity;
    rewrite <- E; apply all_digits_uint.
Qed.

Lemma to_uint_not_Nil (n : N) : N.to_uint n <> Decimal.Nil.
Proof.
  intros H. pose proof (DecimalN.Unsigned.of_to n) as Hn.
  rewrite H in Hn. simpl in Hn. subst n. discriminate H.
Qed.

Lemma decimal_inj (x y : Z) : 0 <= x -> 0 <= y -> decimal x = decimal y -> x = y.
Proof.
  intros Hx Hy H. unfold decimal in H.
  assert (E : N.to_uint (Z.to_N x) = N.to_uint (Z.to_N y)).
  { pose proof (NilZero.usu _ (to_uint_not_Nil (Z.to_N x))) as Hx'.
    pose proof (NilZero.usu _ (to_uint_not_Nil (Z.to_N y))) as Hy'.
    rewrite H in Hx'. congruence. }
  apply DecimalN.Unsigned.to_uint_inj in E. lia.
Qed.

Lemma not_decimal (s : string) (z : Z) : all_digits s = false -> s <> decimal z.
Proof. intros H ->. rewrite decimal_all_digits in H. discriminate. Qed.

Lemma decimal_nonempty (z : Z) : decimal z <> EmptyString.
Proof.
  unfold decimal, NilZero.string_of_uint.
  pose proof (to_uint_not_Nil (Z.to_N z)).
  destruct (N.to_uint (Z.to_N z)); simpl; congruence.
Qed.

(** ** [toString] *)

Lemma ndigits_from_le (fuel : nat) (v start bound : Z) :
  0 <= start <= bound -> v < 10 ^ bound -> ndigits_from fuel v start <= bound.
Proof.
  revert start. induction fuel as [| f IH]; intros start Hs Hv; simpl; [lia |].
  destruct (Z.ltb_spec v (10 ^ start)); [lia |].
  apply IH; [| assumption].
  assert (start < bound); [| lia].
  destruct (Z.lt_ge_cases start bound); [assumption |].
  assert (10 ^ bound <= 10 ^ start) by (apply Z.pow_le_mono_r; lia). lia.
Qed.

Lemma pick_ok (v n k s : Z) :
  pick v n k = Some s -> digits_ok v (10 ^ (n - k)) k s = true.
Proof.
  unfold pick.
  destruct (digits_ok v (10 ^ (n - k)) k (v / 10 ^ (n - k))) eqn:Elo;
  destruct (digits_ok v (10 ^ (n - k)) k (v / 10 ^ (n - k) + 1)) eqn:Ehi;
    intros [= <-]; try assumption.
  repeat match goal with |- context [if ?b then _ else _] => destruct b end;
    assumption.
Qed.

Lemma shortest_spec (fuel : nat) (v n k s k' : Z) :
  shortest fuel v n k = (s, k') ->
  (s = v /\ k' = n) \/ digits_ok v (10 ^ (n - k')) k' s = true.
Proof.
  revert k. induction fuel as [| f IH]; intros k; simpl.
  - intros [= <- <-]. left. split; reflexivity.
  - destruct (pick v n k) as [s0 |] eqn:E.
    + intros [= <- <-]. right. apply pick_ok. assumption.
    + apply IH.
Qed.

(** The number whose digits [toString] prints converts back to [v]. *)
Lemma shortest_value (fuel : nat) (v n k s k' : Z) :
  0 < v -> shortest fuel v n k = (s, k') ->
  s * 10 ^ (n - k') = v
  \/ (0 < s * 10 ^ (n - k') /\ round53 (s * 10 ^ (n - k')) = v).
Proof.
  intros Hv H. apply shortest_spec in H. destruct H as [[-> ->] | H].
  - left. rewrite Z.sub_diag. simpl. lia.
  - right. unfold digits_ok in H.
    apply andb_prop in H. destruct H as [H Hnum].
    apply andb_prop in H. destruct H as [Hlo _].
    apply Z.leb_le in Hlo.
    assert (0 <= 10 ^ (k' - 1)) by (apply Z.pow_nonneg; lia).
    assert (0 <= 10 ^ (n - k')) by (apply Z.pow_nonneg; lia).
    destruct (number_of_Z (s * 10 ^ (n - k'))) as [| | z] eqn:E;
      simpl in Hnum; try discriminate.
    apply Z.eqb_eq in Hnum. subst z.
    apply number_of_Z_pos in E; [assumption | nia | assumption].
Qed.

Lemma toString_pos_small (v : Z) : 0 < v < 2 ^ 53 -> toString_pos v = decimal v.
Proof.
  intros [H0 H1]. unfold toString_pos.
  destruct (shortest (Z.to_nat (ndigits v)) v (ndigits v) 1) as [s k] eqn:E.
  assert (Hn : ndigits v <= 16).
  { apply ndigits_from_le; [lia |].
    assert (2 ^ 53 < 10 ^ 16) by reflexivity. lia. }
  destruct (Z.leb_spec (ndigits v) 21); [| lia].
  f_equal. apply shortest_value in E; [| assumption].
  destruct E as [E | [Hp E]]; [assumption |].
  rewrite <- E at 2. symmetry. apply round53_below; lia.
Qed.

Lemma toString_pos_large (v c : Z) :
  2 ^ 53 <= v -> 0 <= c < 2 ^ 53 -> toString_pos v <> decimal c.
Proof.
  intros Hv Hc. unfold toString_pos.
  destruct (shortest (Z.to_nat (ndigits v)) v (ndigits v) 1) as [s k] eqn:E.
  assert (0 < v) by (assert (0 < 2 ^ 53) by reflexivity; lia).
  apply shortest_value in E; [| assumption].
  destruct (ndigits v <=? 21).
  - intros Heq. apply decimal_inj in Heq; [| | lia].
    + destruct E as [E | [Hp E]]; [lia |].
      destruct (Z.le_gt_cases (2 ^ 53) (s * 10 ^ (ndigits v - k))) as [Hge | Hlt];
        [lia |].
      rewrite round53_small in E by lia. lia.
    + destruct E as [E | [Hp E]]; lia.
  - destruct (decimal s) as [| a [| b rest]] eqn:Es.
    + exfalso. exact (decimal_nonempty s Es).
    + apply not_decimal. simpl. apply andb_false_r.
    + apply not_decimal. simpl. apply andb_false_r.
Qed.

(** The conversion of a value to text, [parseInt(value, 16).toString()],
    equals the decimal text of a challenge amount below 2^53 exactly when
    the value is that amount. *)
Lemma Number_toString_exact (V c : Z) :
  0 <= c < 2 ^ 53 ->
  Number_toString (number_of_Z V) = decimal c <-> V = c.
Proof.
  intros Hc. split.
  - unfold number_of_Z.
    destruct (Z.leb_spec (2 ^ 1024) (round53 (Z.abs V))) as [Hinf | Hfin].
    + destruct (V <? 0); simpl; intros Habs; exfalso;
        revert Habs; apply not_decimal; reflexivity.
    + destruct (Z.lt_trichotomy V 0) as [Hneg | [-> | Hpos]].
      * (* a negative value prints with a sign *)
        rewrite Z.sgn_neg by lia. simpl Number_toString.
        assert (Hr : 0 < round53 (Z.abs V)).
        { destruct (Z.le_gt_cases (2 ^ 53) (Z.abs V)) as [Hge | Hlt].
          - apply round53_large in Hge. assert (0 < 2 ^ 53) by reflexivity. lia.
          - rewrite round53_small by lia. lia. }
        destruct (Z.eqb_spec (-1 * round53 (Z.abs V)) 0); [lia |].
        destruct (Z.ltb_spec (-1 * round53 (Z.abs V)) 0); [| lia].
        intros Habs; exfalso; revert Habs; apply not_decimal; reflexivity.
      * simpl. change "0"%string with (decimal 0).
        intros Heq. apply decimal_inj in Heq; lia.
      * rewrite Z.sgn_pos by lia. rewrite Z.abs_eq by lia.
        rewrite Z.mul_1_l. simpl Number_toString.
        destruct (Z.le_gt_cases (2 ^ 53) V) as [Hge | Hlt].
        -- pose proof (round53_large V Hge) as Hr.
           assert (0 < 2 ^ 53) by reflexivity.
           destruct (Z.eqb_spec (round53 V) 0); [lia |].
           destruct (Z.ltb_spec (round53 V) 0); [lia |].
           intros Habs. exfalso. revert Habs. apply toString_pos_large; assumption.
        -- rewrite round53_small by lia.
           destruct (Z.eqb_spec V 0); [lia |].
           destruct (Z.ltb_spec V 0); [lia |].
           rewrite toString_pos_small by lia.
           intros Heq. apply decimal_inj in Heq; lia.
  - intros ->. rewrite number_of_Z_small by lia. simpl.
    destruct (Z.eqb_spec c 0) as [-> | ?]; [reflexivity |].
    destruct (Z.ltb_spec c 0); [lia |].
    apply toString_pos_small. lia.
Qed.

End JSFacts.

(* ===================================================================== *)
(** * Facts about the transaction scanner                                 *)
(* ===================================================================== *)

Module ScannerFacts.

Import JS JSFacts Scanner.

Lemma number_of_Z_safe (z : Z) : - 2 ^ 53 <= z <= 2 ^ 53 -> number_of_Z z = Num z.
Proof.
  intros H. destruct (Z.le_gt_cases 0 z) as [Hpos | Hneg].
  - apply number_of_Z_small. lia.
  - unfold number_of_Z. rewrite Z.abs_neq by lia.
    rewrite round53_small by lia.
    destruct (Z.leb_spec (2 ^ 1024) (- z)) as [Hbig | _].
    + assert (2 ^ 53 < 2 ^ 1024) by (apply Z.pow_lt_mono_r; lia). lia.
    + f_equal. rewrite Z.sgn_neg by lia. lia.
Qed.

Section Scan.

Variables fromAddress toAddress exactAmount : string.
Variable net : rpc.

Local Abbreviation scan := (scan fromAddress toAddress exactAmount net).
Local Abbreviation scan_range := (scan_range fromAddress toAddress exactAmount net).
Local Abbreviation scan_body := (scan_body fromAddress toAddress exactAmount net).
Local Abbreviation check := (checkVerificationTransaction fromAddress toAddress exactAmount net).
Local Abbreviation confirms_at := (confirms_at fromAddress toAddress exactAmount net).
Local Abbreviation block_confirms := (block_confirms fromAddress toAddress exactAmount).

(** While block numbers are below 2^53 the loop of the source is the
    integer loop, and ends within its number of blocks. *)
Lemma scan_exact (n : nat) : forall (b lo : Z) (fuel : nat),
  0 <= lo -> b <= 2 ^ 53 -> lo <= b + 1 ->
  n = Z.to_nat (b - lo + 1) -> (n < fuel)%nat ->
  scan fuel (Num b) (Num lo) = Some (scan_range n b).
Proof.
  induction n as [| n IH]; intros b lo fuel Hlo Hb Hle Hn Hfuel.
  - destruct fuel as [| f]; [lia |]. simpl.
    unfold num_ge. simpl.
    destruct (Z.leb_spec lo b); [lia | reflexivity].
  - destruct fuel as [| f]; [lia |]. simpl.
    unfold num_ge. simpl.
    destruct (Z.leb_spec lo b); [| lia].
    destruct (eth_getBlockByNumber net (Num b)) as [| blk]; [reflexivity |].
    destruct (block_confirms blk); [reflexivity |].
    unfold num_sub. simpl num_add.
    assert (0 < 2 ^ 53) by reflexivity.
    rewrite number_of_Z_safe by lia. rewrite Z.add_opp_r.
    apply IH; lia.
Qed.

Lemma scan_range_found (n : nat) : forall (b target : Z),
  b - Z.of_nat n < target <= b ->
  (forall b', target < b' <= b -> eth_getBlockByNumber net (Num b') <> Rejected) ->
  confirms_at target ->
  scan_range n b = Returned true.
Proof.
  induction n as [| n IH]; intros b target Hrange Hok Hconf; [lia |].
  simpl. destruct (Z.eq_dec target b) as [-> | Hne].
  - destruct Hconf as (blk & -> & ->). reflexivity.
  - destruct (eth_getBlockByNumber net (Num b)) as [| blk] eqn:E.
    + exfalso. apply (Hok b); [lia | assumption].
    + destruct (block_confirms blk); [reflexivity |].
      apply (IH (b - 1) target); [lia | | assumption].
      intros b' Hb'. apply Hok. lia.
Qed.

Lemma scan_range_none (n : nat) : forall (b : Z),
  (forall b', b - Z.of_nat n < b' <= b -> ~ confirms_at b') ->
  scan_range n b <> Returned true.
Proof.
  induction n as [| n IH]; intros b Hnone; simpl; [discriminate |].
  destruct (eth_getBlockByNumber net (Num b)) as [| blk] eqn:E; [discriminate |].
  destruct (block_confirms blk) eqn:Eb.
  - exfalso. apply (Hnone b); [lia |]. exists blk. split; assumption.
  - apply IH. intros b' Hb'. apply Hnone. lia.
Qed.


(** Two endpoints that agree on the blocks visited give the same scan. *)
Lemma scan_range_ext (net' : rpc) (n : nat) : forall (b : Z),
  (forall b', b - Z.of_nat n < b' <= b ->
     eth_getBlockByNumber net' (Num b') = eth_getBlockByNumber net (Num b')) ->
  Scanner.scan_range fromAddress toAddress exactAmount net' n b = scan_range n b.
Proof.
  induction n as [| n IH]; intros b Hagree; simpl; [reflexivity |].
  rewrite Hagree by lia.
  destruct (eth_getBlockByNumber net (Num b)) as [| blk]; [reflexivity |].
  destruct (block_confirms blk); [reflexivity |].
  apply IH. intros b' Hb'. apply Hagree. lia.
Qed.

(** From a head below 2^53 the function returns what the integer loop
    over the window computes. *)
Lemma check_window (head : Z) (fuel : nat) :
  head_is net head -> (1001 < fuel)%nat ->
  scan_body fuel
  = Some (scan_range (Z.to_nat (head - Z.max 0 (head - 1000) + 1)) head).
Proof.
  intros (hex & Hhead & Hparse & H0 & H1) Hfuel.
  unfold Scanner.scan_body. rewrite Hhead, Hparse. cbv zeta.
  unfold num_sub. simpl num_add.
  assert (0 < 2 ^ 53) by reflexivity.
  rewrite number_of_Z_safe by lia. rewrite Z.add_opp_r.
  assert (Hmax : Math_max (Num 0) (Num (head - 1000)) = Num (Z.max 0 (head - 1000))).
  { unfold Math_max, num_le.
    destruct (Z.leb_spec 0 (head - 1000)); f_equal; lia. }
  rewrite Hmax. apply scan_exact; lia.
Qed.

(** At a block number that absorbs the decrement the loop makes no
    progress: it asks for the same block in every turn. *)
Lemma scan_stalls (head : Z) (startBlock : number) (b : option block) (fuel : nat) :
  number_of_Z (head - 1) = Num head ->
  num_ge (Num head) startBlock = true ->
  eth_getBlockByNumber net (Num head) = Resolved b ->
  block_confirms b = false ->
  scan fuel (Num head) startBlock = None.
Proof.
  intros Habsorbed Hge Hblk Hconf.
  induction fuel as [| fuel IH]; simpl; [reflexivity |].
  rewrite Hge, Hblk, Hconf.
  unfold num_sub. simpl num_add. rewrite Z.add_opp_r, Habsorbed. exact IH.
Qed.

End Scan.

End ScannerFacts.

(** Closed comparisons of large numerals. *)
Ltac by_computation :=
  first [ apply Z.leb_le | apply Z.ltb_lt | idtac ]; vm_compute; reflexivity.

(* ===================================================================== *)
(** * The scanner's claims                                                *)
(* ===================================================================== *)

Module ScannerClaims.

Import JS JSFacts Scanner ScannerFacts Examples.

Section Matching.

Variables fromAddress toAddress : string.
Variable net : rpc.

Lemma txValue_exact (c : Z) (tx : transaction) :
  0 <= c < 2 ^ 53 ->
  txValue tx = decimal c <-> wei_value tx = Some c.
Proof.
  intros Hc. unfold txValue, wei_value.
  destruct (truthy (tx_value tx)) eqn:Et.
  - destruct (tx_value tx) as [v |]; [| discriminate Et]. simpl.
    unfold parseInt16. destruct (mathInt16 v) as [z |].
    + rewrite Number_toString_exact by assumption.
      split; [intros -> | intros [= ->]]; reflexivity.
    + split; [| discriminate].
      intros H. exfalso. revert H. apply not_decimal. reflexivity.
  - change "0"%string with (decimal 0). split.
    + intros H. apply decimal_inj in H; [| lia | lia]. subst c. reflexivity.
    + intros [= <-]. reflexivity.
Qed.

Lemma tx_confirms_exact (c : Z) (tx : transaction) :
  0 <= c < 2 ^ 53 ->
  tx_confirms fromAddress toAddress (decimal c) tx = true
  <-> addresses_match fromAddress toAddress tx = true /\ wei_value tx = Some c.
Proof.
  intros Hc. unfold tx_confirms.
  destruct (addresses_match fromAddress toAddress tx).
  - rewrite String.eqb_eq. rewrite txValue_exact by assumption. tauto.
  - split; [discriminate | intros [H _]; discriminate H].
Qed.

Lemma confirms_at_transfer (c b : Z) :
  0 <= c < 2 ^ 53 ->
  confirms_at fromAddress toAddress (decimal c) net b
  <-> transfer_at fromAddress toAddress net c b.
Proof.
  intros Hc. unfold confirms_at, transfer_at, transactions_at, block_confirms.
  split.
  - intros (blk & -> & H).
    destruct blk as [blk |]; [| discriminate H].
    destruct (transactions blk) as [txs |]; [| discriminate H].
    apply existsb_exists in H. destruct H as (tx & Hin & Htx).
    apply tx_confirms_exact in Htx; [| assumption].
    exists tx. simpl. tauto.
  - intros (tx & Hin & Haddr & Hwei).
    destruct (eth_getBlockByNumber net (Num b)) as [| [blk |]]; try contradiction.
    exists (Some blk). split; [reflexivity |].
    destruct (transactions blk) as [txs |]; [| contradiction].
    apply existsb_exists. exists tx. split; [assumption |].
    apply tx_confirms_exact; tauto.
Qed.

End Matching.

(** C1 (as amended).  For a challenge amount [c] below 2^53 base units
    and a chain head up to 2^53 (the heights at which the block counter of
    the loop is exact): a scan whose window holds a transfer between the
    two addresses of [c + 1] or [c - 1] base units, and none of exactly
    [c], returns false; and a candidate transaction confirms exactly when
    its Wei value, of any magnitude, is the integer [c]. *)
Theorem exact_amount_only (fromAddress toAddress : string) (net : rpc)
    (c head : Z) (fuel : nat) :
  0 <= c < 2 ^ 53 ->
  head_is net head -> (1001 < fuel)%nat ->
  (exists b, in_window head b
             /\ (transfer_at fromAddress toAddress net (c + 1) b
                 \/ transfer_at fromAddress toAddress net (c - 1) b)) ->
  (forall b, in_window head b -> ~ transfer_at fromAddress toAddress net c b) ->
  checkVerificationTransaction fromAddress toAddress (decimal c) net fuel
  = Some false
  /\ (forall tx, addresses_match fromAddress toAddress tx = true ->
        (tx_confirms fromAddress toAddress (decimal c) tx = true
         <-> wei_value tx = Some c)).
Proof.
  intros Hc Hhead Hfuel _ Hnone. split.
  - unfold checkVerificationTransaction.
    rewrite (check_window _ _ _ _ head fuel Hhead Hfuel).
    pose proof (scan_range_none fromAddress toAddress (decimal c) net
                  (Z.to_nat (head - Z.max 0 (head - 1000) + 1)) head) as Hno.
    destruct (scan_range _ _ _ _ _ _) as [[|] |]; try reflexivity.
    exfalso. apply Hno; [| reflexivity].
    intros b' Hb' Hconf. apply confirms_at_transfer in Hconf; [| assumption].
    apply (Hnone b'); [| assumption].
    unfold in_window. lia.
  - intros tx Haddr. rewrite tx_confirms_exact by assumption. tauto.
Qed.

Ltac head_at hex :=
  exists (Some hex); split; [reflexivity |];
  split; [vm_compute; reflexivity |]; split; by_computation.

(** Block [b] of an example chain holds what the chain was built with. *)
Lemma chain_transactions (head : string) (at_block b : Z) (txs : list transaction) :
  transactions_at (chain head at_block txs) b = if b =? at_block then txs else [].
Proof.
  unfold transactions_at, chain. simpl. destruct (b =? at_block); reflexivity.
Qed.

Lemma exact_amount_only_witness :
  checkVerificationTransaction userWallet botWallet (decimal 73400000000)
    (chain "0x5" 3 [transferOf "0x1116fb1e01"]) 2000 = Some false
  /\ (forall tx, addresses_match userWallet botWallet tx = true ->
        (tx_confirms userWallet botWallet (decimal 73400000000) tx = true
         <-> wei_value tx = Some 73400000000)).
Proof.
  apply (exact_amount_only userWallet botWallet
           (chain "0x5" 3 [transferOf "0x1116fb1e01"]) 73400000000 5 2000).
  - split; by_computation.
  - head_at "0x5"%string.
  - lia.
  - exists 3. split; [unfold in_window; lia |]. left.
    exists (transferOf "0x1116fb1e01"). rewrite chain_transactions. simpl.
    split; [left; reflexivity |]. split; reflexivity.
  - intros b _ (tx & Hin & _ & Hwei). rewrite chain_transactions in Hin.
    destruct (b =? 3); [| contradiction].
    destruct Hin as [<- | []]. vm_compute in Hwei. discriminate Hwei.
Defined.

(** C1, counterexample.  The challenge amount 2^53 = 9007199254740992 and a
    transfer of 2^53 + 1 base units: [parseInt] rounds the value to 2^53,
    the texts are equal, and the scan confirms. *)
Lemma exact_amount_lossy_from_2_53 :
  ~ exact_amount_as_stated userWallet botWallet
      (chain "0x5" 3 [transferOf "0x20000000000001"]) (2 ^ 53) 5 2000.
Proof.
  intros H.
  assert (Hfalse :
    checkVerificationTransaction userWallet botWallet (decimal (2 ^ 53))
      (chain "0x5" 3 [transferOf "0x20000000000001"]) 2000 = Some false).
  { apply (H ltac:(by_computation)).
    - head_at "0x5"%string.
    - lia.
    - exists 3. split; [unfold in_window; lia |]. left.
      exists (transferOf "0x20000000000001"). rewrite chain_transactions. simpl.
      split; [left; reflexivity |]. split; reflexivity.
    - intros b _ (tx & Hin & _ & Hwei). rewrite chain_transactions in Hin.
      destruct (b =? 3); [| contradiction].
      destruct Hin as [<- | []]. vm_compute in Hwei. discriminate Hwei. }
  vm_compute in Hfalse. discriminate Hfalse.
Qed.

(** C2 (as amended).  From a chain head [head] up to 2^53 the scan reads
    the blocks [head] down to [head - 1000] (down to 0 when [head < 1000])
    and no other.  A confirming transfer in any block of that window, the
    last one [head - 1000] included, makes it return true when the
    requests for the blocks above it succeed; when no block of the window
    confirms it returns false, whatever block [head - 1001] or any other
    block outside the window holds; and two endpoints that differ outside
    the window give the same answer. *)
Theorem window_boundary (fromAddress toAddress exactAmount : string) (net : rpc)
    (head : Z) (fuel : nat) :
  head_is net head -> (1001 < fuel)%nat ->
  (forall b, in_window head b ->
     confirms_at fromAddress toAddress exactAmount net b ->
     (forall b', b < b' <= head -> eth_getBlockByNumber net (Num b') <> Rejected) ->
     checkVerificationTransaction fromAddress toAddress exactAmount net fuel
     = Some true)
  /\ ((forall b, in_window head b ->
                 ~ confirms_at fromAddress toAddress exactAmount net b) ->
      checkVerificationTransaction fromAddress toAddress exactAmount net fuel
      = Some false)
  /\ (forall net' : rpc,
        eth_blockNumber net' = eth_blockNumber net ->
        (forall b, in_window head b ->
           eth_getBlockByNumber net' (Num b) = eth_getBlockByNumber net (Num b)) ->
        checkVerificationTransaction fromAddress toAddress exactAmount net' fuel
        = checkVerificationTransaction fromAddress toAddress exactAmount net fuel).
Proof.
  intros Hhead Hfuel.
  pose proof (check_window fromAddress toAddress exactAmount net head fuel
                Hhead Hfuel) as Hscan.
  destruct Hhead as (hex & Hhex & Hparse & H0 & H1).
  unfold checkVerificationTransaction. rewrite Hscan.
  split; [| split].
  - intros b Hwin Hconf Hok. unfold in_window in Hwin.
    rewrite (scan_range_found _ _ _ _ _ head b); try reflexivity.
    + lia.
    + exact Hok.
    + exact Hconf.
  - intros Hnone.
    pose proof (scan_range_none fromAddress toAddress exactAmount net
                  (Z.to_nat (head - Z.max 0 (head - 1000) + 1)) head) as Hno.
    destruct (scan_range _ _ _ _ _ _) as [[|] |]; try reflexivity.
    exfalso. apply Hno; [| reflexivity].
    intros b' Hb'. apply Hnone. unfold in_window. lia.
  - intros net' Hsame Hagree.
    assert (Hhead' : head_is net' head).
    { exists hex. rewrite Hsame. auto. }
    rewrite (check_window fromAddress toAddress exactAmount net' head fuel
               Hhead' Hfuel).
    rewrite (scan_range_ext fromAddress toAddress exactAmount net net'); [reflexivity |].
    intros b' Hb'. apply Hagree. unfold in_window. lia.
Qed.

Lemma window_boundary_witness :
  checkVerificationTransaction userWallet botWallet "73400000000"
    (chain "0x7d0" 1000 [transferOf "0x1116fb1e00"]) 2000 = Some true
  /\ checkVerificationTransaction userWallet botWallet "73400000000"
       (chain "0x7d0" 999 [transferOf "0x1116fb1e00"]) 2000 = Some false.
Proof.
  split.
  - refine (proj1 (window_boundary userWallet botWallet "73400000000"
                     (chain "0x7d0" 1000 [transferOf "0x1116fb1e00"]) 2000 2000
                     _ _) 1000 _ _ _).
    + head_at "0x7d0"%string.
    + lia.
    + unfold in_window. lia.
    + eexists. split; reflexivity.
    + intros b _. simpl. destruct (b =? 1000); discriminate.
  - refine (proj1 (proj2 (window_boundary userWallet botWallet "73400000000"
                            (chain "0x7d0" 999 [transferOf "0x1116fb1e00"])
                            2000 2000 _ _)) _).
    + head_at "0x7d0"%string.
    + lia.
    + intros b Hb (blk & Hblk & Hconf). unfold in_window in Hb.
      simpl in Hblk. destruct (Z.eqb_spec b 999) as [-> | _]; [lia |].
      injection Hblk as <-. discriminate Hconf.
Defined.

(** C2, counterexample.  A chain whose head is 2^54 and whose block
    2^54 - 1000 holds the confirming transfer: the decrement of the block
    counter is absorbed at 2^54, the loop asks for block 2^54 in every
    turn, and the function returns within no number of turns. *)
Lemma window_not_scanned_from_2_54 :
  ~ window_as_stated userWallet botWallet "73400000000"
      (chain "0x40000000000000" (2 ^ 54 - 1000) [transferOf "0x1116fb1e00"])
      (2 ^ 54).
Proof.
  intros H.
  destruct H as [fuel Hfuel].
  - exists (Some "0x40000000000000"%string). split; [reflexivity |].
    vm_compute. reflexivity.
  - by_computation.
  - intros n. simpl. destruct (number_eqb n _); discriminate.
  - eexists. split; [vm_compute; reflexivity |]. vm_compute. reflexivity.
  - pose proof (scan_stalls userWallet botWallet "73400000000"
                  (chain "0x40000000000000" (2 ^ 54 - 1000)
                     [transferOf "0x1116fb1e00"])
                  (2 ^ 54)
                  (Math_max (Num 0) (num_sub (Num (2 ^ 54)) (Num 1000)))
                  (Some {| transactions := Some [] |}) fuel) as Hstall.
    assert (Hnone : checkVerificationTransaction userWallet botWallet
                      "73400000000"
                      (chain "0x40000000000000" (2 ^ 54 - 1000)
                         [transferOf "0x1116fb1e00"]) fuel = None).
    { unfold checkVerificationTransaction, Scanner.checkVerificationTransaction,
        Scanner.scan_body.
      simpl eth_blockNumber. cbv beta iota zeta.
      replace (parseInt16_opt (Some "0x40000000000000"%string))
        with (Num (2 ^ 54)) by (vm_compute; reflexivity).
      rewrite Hstall; [reflexivity | | | |]; vm_compute; reflexivity. }
    rewrite Hnone in Hfuel. discriminate Hfuel.
Qed.



End ScannerClaims.

(* ===================================================================== *)
(** * The ownership verifiers' claims                                     *)
(* ===================================================================== *)

Module OwnershipClaims.

Import JS JSFacts Ownership Examples.

(** C9, on the code.  For a wallet that owns no NFT of the configured
    collection, the Arbitrum and Berachain results name the collection and
    the Monad result carries no collection name. *)
Theorem collection_name_of_empty_wallet (cfg : config) (api : holdingsApi)
    (now wallet required : string) (data : nftData) :
  api wallet = Resolved data ->
  cfg_requiredCollection cfg = Some required -> truthy (Some required) = true ->
  fromCollection required (default [] (ownedNfts data)) = [] ->
  nameIn (ArbitrumNFTVerifier.verifyNFTOwnership cfg api now wallet)
  = Some "Schizo Sybils (Gen 1)"%string
  /\ nameIn (BeraVerifier.verifyNFTOwnership cfg api now wallet)
     = Some "Super Schizos (Gen 2)"%string
  /\ nameIn (MonadNFTVerifier.verifyNFTOwnership cfg api now wallet) = None.
Proof.
  intros Hapi Hcfg Htruthy Hempty.
  unfold ArbitrumNFTVerifier.verifyNFTOwnership, BeraVerifier.verifyNFTOwnership,
    MonadNFTVerifier.verifyNFTOwnership.
  rewrite Hapi, Hcfg, Htruthy. simpl negb. cbv iota.
  change (default ""%string (Some required)) with required.
  rewrite !Hempty. repeat split.
Qed.

Lemma collection_name_of_empty_wallet_witness :
  nameIn (ArbitrumNFTVerifier.verifyNFTOwnership (requiring 1) noHoldings
            "2025-01-01T00:00:00.000Z" userWallet)
  = Some "Schizo Sybils (Gen 1)"%string
  /\ nameIn (BeraVerifier.verifyNFTOwnership (requiring 1) noHoldings
               "2025-01-01T00:00:00.000Z" userWallet)
     = Some "Super Schizos (Gen 2)"%string
  /\ nameIn (MonadNFTVerifier.verifyNFTOwnership (requiring 1) noHoldings
               "2025-01-01T00:00:00.000Z" userWallet) = None.
Proof.
  apply (collection_name_of_empty_wallet (requiring 1) noHoldings
           "2025-01-01T00:00:00.000Z" userWallet collectionAddress
           {| ownedNfts := Some []; totalCount := Some (Num 0) |});
    reflexivity.
Defined.

Section Staking.

Import MonadNFTVerifier.

Variable net : contractRpc.

Lemma check_shape (wallet contractAddress : string) :
  let r := checkStakedNFTsDirectly net wallet contractAddress in
  hasStakedNFTs r = num_gt (reportedCount r) (Num 0)
  /\ (hasStakedNFTs r = true -> stakedCount r = Some (reportedCount r)).
Proof.
  unfold checkStakedNFTsDirectly.
  destruct (eth_getCode net contractAddress) as [| code]; [split; [reflexivity | discriminate] |].
  destruct (usable code); split; try reflexivity; discriminate.
Qed.

Lemma summedCounts_nonneg (rs : list stakingResult) (sum : Z) :
  summedCounts rs = Some sum -> 0 <= sum.
Proof.
  revert sum. induction rs as [| r rest IH]; simpl; intros sum.
  - intros [= <-]. lia.
  - destruct (reportedCount r) as [| | z]; try discriminate.
    destruct (summedCounts rest) as [total |]; [| discriminate].
    destruct (Z.leb_spec 0 z); [| discriminate].
    intros [= <-]. specialize (IH total eq_refl). lia.
Qed.

(** The total the loop accumulates is the sum of the reported counts,
    while that sum is at most 2^53. *)
Lemma checkAll_total (wallet : string) (contracts : list string) :
  forall (t : tally) (z0 sum : Z),
  totalStakedCount t = Num z0 -> 0 <= z0 ->
  summedCounts (map (checkStakedNFTsDirectly net wallet) contracts) = Some sum ->
  z0 + sum <= 2 ^ 53 ->
  totalStakedCount (fold_left (addContract net wallet) contracts t) = Num (z0 + sum).
Proof.
  induction contracts as [| c rest IH]; intros t z0 sum Ht Hz0 Hsum Hbound.
  - simpl in *. injection Hsum as <-. rewrite Ht. f_equal. lia.
  - simpl in Hsum. simpl fold_left.
    destruct (check_shape wallet c) as [Hhas Hcount].
    destruct (reportedCount (checkStakedNFTsDirectly net wallet c)) as [| | z] eqn:Er;
      try discriminate.
    destruct (summedCounts (map (checkStakedNFTsDirectly net wallet) rest))
      as [total |] eqn:Et; [| discriminate].
    destruct (Z.leb_spec 0 z); [| discriminate].
    injection Hsum as <-.
    pose proof (summedCounts_nonneg _ _ Et) as Htotal.
    unfold addContract.
    destruct (hasStakedNFTs (checkStakedNFTsDirectly net wallet c)) eqn:Eh.
    + rewrite (Hcount eq_refl). simpl default. rewrite (IH _ (z0 + z) total).
      * f_equal. lia.
      * simpl. rewrite Ht. simpl. apply number_of_Z_small. lia.
      * lia.
      * reflexivity.
      * lia.
    + simpl in Hhas. symmetry in Hhas. apply Z.ltb_ge in Hhas.
      rewrite (IH _ z0 total).
      * f_equal. lia.
      * exact Ht.
      * lia.
      * reflexivity.
      * lia.
Qed.

Variable cfg : config.
Variable env : stakingEnv.
Variable api : holdingsApi.
Variable now : string.

Lemma total_is_sum (wallet : string) (sum : Z) :
  stakedSum net env wallet = Some sum -> sum <= 2 ^ 53 ->
  totalStakedCount (checkAll net wallet (getStakingContracts env)) = Num sum.
Proof.
  intros Hsum Hbound. unfold checkAll.
  rewrite (checkAll_total wallet _ _ 0 sum); [reflexivity | reflexivity | lia | exact Hsum | lia].
Qed.

Lemma count_positive {A : Type} (l : list A) :
  l <> [] -> num_gt (count l) (Num 0) = true.
Proof. destruct l; [congruence |]. intros _. reflexivity. Qed.

(** C3 (as amended).  When the direct check fails, at least one staking
    contract is configured and the staked counts sum to at most 2^53: if
    the sum is positive, the result is tagged "staked" (and verified)
    exactly when the sum reaches the minimum, and otherwise tagged
    "insufficient-staked" with the sum attached; if the sum is zero and
    the direct check was answered by the holdings API, the result is the
    failed direct result tagged "both-failed", not verified and with no
    staked count attached. *)
Theorem staking_tag (wallet : string) (sum : Z) :
  verified (verifyNFTOwnership cfg api now wallet) = false ->
  getStakingContracts env <> [] ->
  stakedSum net env wallet = Some sum -> sum <= 2 ^ 53 ->
  let r := verifyNFTOwnershipWithStaking net cfg env api now wallet in
  (0 < sum ->
     (verificationMethod r = Some tagStaked
      <-> num_ge (Num sum) (cfg_minNftCount cfg) = true)
     /\ verified r = num_ge (Num sum) (cfg_minNftCount cfg)
     /\ (num_ge (Num sum) (cfg_minNftCount cfg) = false ->
         verificationMethod r = Some tagInsufficient
         /\ stakedNFTCount r = Some (Num sum)))
  /\ (sum = 0 -> api wallet <> Rejected ->
      verificationMethod r = Some tagBothFailed
      /\ verified r = false
      /\ stakedNFTCount r = None).
Proof.
  intros Hdirect Hcontracts Hsum Hbound r. subst r.
  unfold verifyNFTOwnershipWithStaking, withStaking_body.
  rewrite Hdirect. rewrite (total_is_sum wallet sum Hsum Hbound).
  rewrite (count_positive _ Hcontracts). simpl andb.
  split.
  - intros Hpos.
    change (num_gt (Num sum) (Num 0)) with (0 <? sum).
    replace (0 <? sum) with true by (symmetry; apply Z.ltb_lt; assumption).
    unfold tagStaked, tagInsufficient.
    destruct (num_ge (Num sum) (cfg_minNftCount cfg)); simpl;
      repeat split; intros; try reflexivity; discriminate.
  - intros -> Hanswered. simpl.
    assert (Hdetails : exists d,
               result_details (verifyNFTOwnership cfg api now wallet) = Some d).
    { unfold verifyNFTOwnership.
      destruct (api wallet); [congruence |].
      destruct (negb _); eexists; reflexivity. }
    destruct Hdetails as [d Hd]. rewrite Hd. simpl.
    split; [reflexivity |]. split; [reflexivity |].
    unfold verifyNFTOwnership.
    destruct (api wallet); [reflexivity |].
    destruct (negb _); reflexivity.
Qed.

End Staking.

Lemma staking_tag_witness :
  let r := MonadNFTVerifier.verifyNFTOwnershipWithStaking
             (stakingContractAnswering wordThree) (requiring 2)
             oneStakingContract noHoldings "2025-01-01T00:00:00.000Z" userWallet in
  verificationMethod r = Some MonadNFTVerifier.tagStaked
  /\ verified r = true.
Proof.
  destruct (staking_tag (stakingContractAnswering wordThree) (requiring 2)
              oneStakingContract noHoldings "2025-01-01T00:00:00.000Z"
              userWallet 3) as [Hpos _].
  - reflexivity.
  - discriminate.
  - reflexivity.
  - by_computation.
  - destruct (Hpos ltac:(lia)) as (Htag & Hverified & _).
    split; [apply Htag; reflexivity | exact Hverified].
Defined.

(** C3, counterexample.  One staking contract that reports a count of 0, a
    minimum of 1, a wallet without NFTs: the sum is below the minimum and
    the tag is "failed_both", not "staking_insufficient_multi". *)
Lemma staking_tag_zero_is_both_failed :
  ~ MonadNFTVerifier.staking_tag_as_stated
      (stakingContractAnswering wordZero) (requiring 1) oneStakingContract
      noHoldings "2025-01-01T00:00:00.000Z" userWallet 0.
Proof.
  intros H.
  destruct H as [_ Hinsufficient].
  - reflexivity.
  - discriminate.
  - reflexivity.
  - by_computation.
  - destruct (Hinsufficient eq_refl) as [Htag _].
    vm_compute in Htag. discriminate Htag.
Qed.

End OwnershipClaims.

(* ===================================================================== *)
(** * The amount generator's claims                                       *)
(* ===================================================================== *)

Module AmountClaims.

Import JS Amount.

(** C6, on the code.  The amount 0.0000000150, which
    [generateVerificationAmount] returns for a suitable [Math.random()],
    is converted to 14999999999 base units, one less than
    floor(0.0000000150 * 10^18) = 15000000000. *)
Theorem ethToWei_one_unit_short :
  generateVerificationAmount (Dy 500399674853111 (-53)) = Number_of_fixed10 150
  /\ ethToWei (Number_of_fixed10 150) = "14999999999"%string
  /\ decimal (150 * 10 ^ 18 / 10 ^ 10) = "15000000000"%string.
Proof. vm_compute. repeat split. Qed.

(** The conversion is exact for the amount of the specification's example
    scenario, and one unit short for 32 of the 901 amounts. *)
Lemma ethToWei_short_amounts :
  ethToWei (Number_of_fixed10 734) = "73400000000"%string
  /\ shortAmounts
     = [150; 154; 161; 165; 300; 307; 308; 315; 322; 323; 329; 330; 337; 600;
        607; 609; 614; 616; 621; 623; 630; 637; 644; 646; 651; 653; 658; 660;
        667; 674; 681; 683].
Proof. vm_compute. split; reflexivity. Qed.

End AmountClaims.

(* ===================================================================== *)
(** * The rate limiter's claims                                           *)
(* ===================================================================== *)

Module RateLimiterClaims.

Import RateLimiter.

(** A call on a key that has no entry, or whose window has passed, opens a
    new window. *)
Lemma checkUserLimit_fresh (userLimits : gmap string entry)
    (userId action : string) (limits : gmap string limit) (now : Z) :
  (forall e, userLimits !! userKey userId action = Some e -> resetTime e < now) ->
  checkUserLimit userLimits userId action limits now
  = ({| allowed := true;
        remaining := limit_count (effectiveLimit limits action) - 1;
        verdict_resetTime := now + windowMs (effectiveLimit limits action) |},
     <[ userKey userId action :=
          {| count := 1;
             resetTime := now + windowMs (effectiveLimit limits action) |} ]>
       userLimits).
Proof.
  intros Hexpired. unfold checkUserLimit.
  destruct (userLimits !! userKey userId action) as [e |]; [| reflexivity].
  specialize (Hexpired e eq_refl).
  destruct (Z.ltb_spec (resetTime e) now); [reflexivity | lia].
Qed.

(** C8.  After a denied call, once the time exceeds the reset time the
    denial reported, the next call for the same user and action is
    allowed, restarts the counter at 1, and reports [count - 1] remaining
    and a reset time one window after the call; the denied call left the
    map as it was, and a sweep by [cleanup] in between changes nothing of
    this. *)
Theorem limit_resets_after_window (userLimits : gmap string entry)
    (userId action : string) (limits : gmap string limit) (t0 now sweep : Z) :
  allowed (fst (checkUserLimit userLimits userId action limits t0)) = false ->
  verdict_resetTime (fst (checkUserLimit userLimits userId action limits t0)) < now ->
  let after := snd (checkUserLimit userLimits userId action limits t0) in
  let limit := effectiveLimit limits action in
  let opened (m : gmap string entry) :=
    ({| allowed := true; remaining := limit_count limit - 1;
        verdict_resetTime := now + windowMs limit |},
     <[ userKey userId action :=
          {| count := 1; resetTime := now + windowMs limit |} ]> m) in
  after = userLimits
  /\ checkUserLimit after userId action limits now = opened after
  /\ checkUserLimit (cleanup after sweep) userId action limits now
     = opened (cleanup after sweep).
Proof.
  intros Hdenied Hlater after limit opened. subst after opened limit.
  assert (Hstate :
    snd (checkUserLimit userLimits userId action limits t0) = userLimits
    /\ forall e, userLimits !! userKey userId action = Some e -> resetTime e < now).
  { unfold checkUserLimit in Hdenied, Hlater |- *.
    destruct (userLimits !! userKey userId action) as [e |] eqn:He;
      [| discriminate Hdenied].
    destruct (resetTime e <? t0); [discriminate Hdenied |].
    destruct (limit_count (effectiveLimit limits action) <=? count e);
      [| discriminate Hdenied].
    split; [reflexivity |]. intros e' [= <-]. exact Hlater. }
  destruct Hstate as [-> Hexpired].
  split; [reflexivity |]. split.
  - apply checkUserLimit_fresh. exact Hexpired.
  - apply checkUserLimit_fresh. intros e He.
    unfold cleanup in He. apply map_lookup_filter_Some in He.
    destruct He as [He _]. apply Hexpired. exact He.
Qed.

Lemma limit_resets_after_window_witness :
  fst (checkUserLimit Examples.exhausted "42" "verify" ∅ 70000)
  = {| allowed := true; remaining := 4; verdict_resetTime := 130000 |}.
Proof.
  pose proof (limit_resets_after_window Examples.exhausted "42" "verify" ∅
                6000 70000 65000) as H.
  destruct H as (Hafter & Hcall & _).
  - vm_compute. reflexivity.
  - vm_compute. reflexivity.
  - rewrite Hafter in Hcall. rewrite Hcall. reflexivity.
Defined.

End RateLimiterClaims.

(* ===================================================================== *)
(** * The verification store's claims                                     *)
(* ===================================================================== *)

Module StoreClaims.

Import Ownership Store.

Lemma saveJSON_frame (data : gmap string userRecord)
    (user name wallet : string) (result : verificationResult)
    (network : string) (t : clock) (r : userRecord) :
  data !! user = Some r ->
  let data' := snd (saveJSON data user name wallet result network t) in
  let saved := {| nv_walletAddress := wallet; verifiedAt := at_verification t;
                  nv_verificationResult := result; nv_network := network |} in
  (exists r', data' !! user = Some r'
              /\ framed network r r'
              /\ username r' = name
              /\ lastUpdated r' = Some (at_update t)
              /\ verifications r' = <[ network := saved ]> (verifications r))
  /\ (forall u, u <> user -> data' !! u = data !! u).
Proof.
  intros Hr data' saved. subst data' saved. unfold saveJSON. rewrite Hr. simpl.
  split.
  - eexists. split; [apply lookup_insert_eq |]. simpl.
    repeat split. intros n Hn. apply lookup_insert_ne. congruence.
  - intros u Hu. apply lookup_insert_ne. congruence.
Qed.

Import PostgreSQLDatabase.

(** C10.  For a stored user record, a save for network [network] leaves
    the user's identifier, creation time and the entries of every other
    network as they were, and leaves every other user's record as it was;
    it overwrites the user name and the update time and replaces the entry
    of [network].  This holds for the JSON store, and for the PostgreSQL
    store as [getVerifiedUser] reads it, where the name and the entry are
    replaced when the statements succeed. *)
Theorem saveVerification_frame
    (data : gmap string userRecord) (db : database)
    (user name wallet : string) (result : verificationResult)
    (network : string) (t : clock) (userQuery verificationQuery reads : bool)
    (r rdb : userRecord) :
  data !! user = Some r ->
  getVerifiedUser db user reads = Some rdb ->
  let data' :=
    snd (VerificationDatabase.saveVerification data user name wallet result
           network t) in
  let db' :=
    snd (PostgreSQLDatabase.saveVerification db user name wallet result network
           t userQuery verificationQuery) in
  let saved := {| nv_walletAddress := wallet; verifiedAt := at_verification t;
                  nv_verificationResult := result; nv_network := network |} in
  (* VerificationDatabase *)
  (exists r', data' !! user = Some r'
              /\ framed network r r'
              /\ username r' = name
              /\ lastUpdated r' = Some (at_update t)
              /\ verifications r' = <[ network := saved ]> (verifications r))
  /\ (forall u, u <> user -> data' !! u = data !! u)
  (* PostgreSQLDatabase *)
  /\ (exists r', getVerifiedUser db' user reads = Some r'
                 /\ framed network rdb r'
                 /\ (useJSON db || userQuery && verificationQuery = true ->
                     username r' = name
                     /\ verifications r' !! network = Some saved))
  /\ (forall u, u <> user ->
        getVerifiedUser db' u reads = getVerifiedUser db u reads).
Proof.
  intros Hr Hrdb data' db' saved.
  destruct (saveJSON_frame data user name wallet result network t r Hr)
    as [Hjson Hothers].
  split; [exact Hjson |]. split; [exact Hothers |].
  subst db' data'. unfold PostgreSQLDatabase.saveVerification.
  unfold getVerifiedUser in Hrdb.
  destruct (useJSON db) eqn:Hmode.
  - (* the JSON fallback is the store *)
    unfold saveVerificationJSON.
    destruct (jsonData db) as [jdata |] eqn:Hj; [| discriminate Hrdb].
    destruct (saveJSON_frame jdata user name wallet result network t rdb Hrdb)
      as [(r' & Hr' & Hframe & Hname & _ & Hentry) Hrest].
    destruct (saveJSON jdata user name wallet result network t) as [s jdata'].
    simpl in Hr', Hrest. unfold getVerifiedUser. simpl. rewrite Hmode. split.
    + exists r'. split; [exact Hr' |]. split; [exact Hframe |].
      intros _. split; [exact Hname |]. rewrite Hentry. apply lookup_insert_eq.
    + rewrite Hj. exact Hrest.
  - destruct reads; [| discriminate Hrdb]. simpl in Hrdb.
    destruct (verified_users db !! user) as [row |] eqn:Hrow; [| discriminate Hrdb].
    injection Hrdb as <-.
    assert (Hfallback : forall db0 : database,
      useJSON db0 = false ->
      verified_users (snd (saveVerificationJSON db0 user name wallet result network t))
      = verified_users db0
      /\ user_verifications (snd (saveVerificationJSON db0 user name wallet result network t))
         = user_verifications db0
      /\ useJSON (snd (saveVerificationJSON db0 user name wallet result network t))
         = false).
    { intros db0 Hdb0. unfold saveVerificationJSON.
      destruct (jsonData db0); [| auto].
      destruct (saveJSON _ _ _ _ _ _ _). simpl. auto. }
    destruct userQuery; simpl negb; cbv iota.
    + destruct verificationQuery; simpl negb; cbv iota.
      * (* both statements succeed *)
        simpl. unfold getVerifiedUser. simpl. rewrite Hmode. simpl. split.
        -- unfold upsertUser. rewrite Hrow. rewrite lookup_insert_eq.
           eexists. split; [reflexivity |]. split.
           ++ unfold framed. simpl. repeat split.
              intros n Hn. rewrite !map_lookup_imap.
              unfold upsertVerification, rowsOf. rewrite lookup_insert_eq. simpl.
              rewrite lookup_insert_ne by congruence. reflexivity.
           ++ intros _. simpl. split; [reflexivity |].
              rewrite map_lookup_imap.
              unfold upsertVerification, rowsOf at 1. rewrite lookup_insert_eq.
              simpl. rewrite lookup_insert_eq. reflexivity.
        -- intros u Hu. unfold upsertUser. rewrite Hrow.
           rewrite lookup_insert_ne by congruence.
           destruct (verified_users db !! u); [| reflexivity].
           unfold upsertVerification, rowsOf at 1.
           rewrite lookup_insert_ne by congruence. reflexivity.
      * (* the second statement fails: the user row is updated *)
        match goal with
        | |- context [saveVerificationJSON ?d] =>
            destruct (Hfallback d eq_refl) as (Hu' & Hv' & Hm')
        end.
        unfold getVerifiedUser. rewrite Hm', Hu', Hv'. simpl. rewrite Hmode.
        simpl. split.
        -- unfold upsertUser. rewrite Hrow. rewrite lookup_insert_eq.
           eexists. split; [reflexivity |]. split.
           ++ unfold framed. simpl. repeat split.
           ++ discriminate.
        -- intros u Hu. unfold upsertUser. rewrite Hrow.
           rewrite lookup_insert_ne by congruence. reflexivity.
    + (* the first statement fails: the tables are untouched *)
      destruct (Hfallback db Hmode) as (Hu' & Hv' & Hm').
      unfold getVerifiedUser. rewrite Hm', Hu', Hv'. rewrite Hmode. simpl.
      split.
      * rewrite Hrow. eexists. split; [reflexivity |]. split.
        -- unfold framed. repeat split.
        -- discriminate.
      * reflexivity.
Qed.

Lemma saveVerification_frame_witness :
  exists r',
    snd (VerificationDatabase.saveVerification Examples.monadVerified "42" "alice2"
           Examples.userWallet
           (Examples.verifiedResult "arbitrum" Examples.userWallet) "arbitrum"
           Examples.laterClock) !! "42"%string = Some r'
    /\ createdAt r' = "2025-01-01T00:00:00.000Z"%string
    /\ username r' = "alice2"%string
    /\ is_Some (verifications r' !! "monad_testnet"%string).
Proof.
  destruct (Examples.monadVerified !! "42"%string) as [r |] eqn:Hr;
    [| vm_compute in Hr; discriminate Hr].
  destruct (getVerifiedUser Examples.monadVerifiedPG "42" true) as [rdb |] eqn:Hrdb;
    [| vm_compute in Hrdb; discriminate Hrdb].
  destruct (saveVerification_frame Examples.monadVerified Examples.monadVerifiedPG
              "42" "alice2" Examples.userWallet
              (Examples.verifiedResult "arbitrum" Examples.userWallet) "arbitrum"
              Examples.laterClock true true true r rdb Hr Hrdb)
    as ((r' & Hr' & (_ & Hcreated & Hother) & Hname & _) & _).
  exists r'. split; [exact Hr' |].
  vm_compute in Hr. injection Hr as <-.
  split; [exact Hcreated |]. split; [exact Hname |].
  rewrite Hother by discriminate. vm_compute. eexists. reflexivity.
Defined.

End StoreClaims.

(* ===================================================================== *)
(** * The handlers' claims                                                *)
(* ===================================================================== *)

Module BotClaims.

Import JS Amount Ownership Store Bot.

(** ** Create or resume *)

Lemma findCode_user (cs : codes) (user id : string) (c : verificationCode) :
  findCode cs user = Some (id, c) -> code_userId c = user /\ In id (ids cs).
Proof.
  unfold findCode, ids. induction cs as [| [k v] rest IH]; simpl; [discriminate |].
  destruct (String.eqb_spec (code_userId v) user) as [Heq | Hne].
  - intros [= -> ->]. split; [exact Heq | left; reflexivity].
  - intros H. destruct (IH H) as [Hu Hin]. split; [exact Hu | right; exact Hin].
Qed.

Lemma ids_assign (cs : codes) (id k : string) (record : verificationCode) :
  In k (ids (assign cs id record)) -> k = id \/ In k (ids cs).
Proof.
  unfold ids. induction cs as [| [k0 v0] rest IH]; simpl.
  - intros [<- | []]. left. reflexivity.
  - destruct (String.eqb_spec k0 id) as [-> | Hne]; simpl.
    + intros [<- | Hin]; [left; reflexivity | right; right; exact Hin].
    + intros [<- | Hin]; [right; left; reflexivity |].
      destruct (IH Hin) as [-> | Hin']; [left; reflexivity | right; right; exact Hin'].
Qed.

Lemma assign_NoDup (cs : codes) (id : string) (record : verificationCode) :
  List.NoDup (ids cs) -> List.NoDup (ids (assign cs id record)).
Proof.
  induction cs as [| [k0 v0] rest IH]; simpl; intros Hnd.
  - constructor; [intros [] | constructor].
  - apply List.NoDup_cons_iff in Hnd. destruct Hnd as [Hnotin Hrest].
    destruct (String.eqb_spec k0 id) as [-> | Hne]; simpl.
    + constructor; assumption.
    + constructor; [| apply IH; exact Hrest].
      intros Hin. apply ids_assign in Hin. destruct Hin as [-> | Hin]; contradiction.
Qed.

Lemma findCode_assign_new (cs : codes) (user id : string) (record : verificationCode) :
  findCode cs user = None -> code_userId record = user ->
  findCode (assign cs id record) user = Some (id, record).
Proof.
  unfold findCode. intros Hnone Huser.
  induction cs as [| [k v] rest IH]; simpl in *.
  - rewrite Huser, String.eqb_refl. reflexivity.
  - destruct (String.eqb (code_userId v) user) eqn:Ev; [discriminate Hnone |].
    destruct (String.eqb k id); simpl.
    + rewrite Huser, String.eqb_refl. reflexivity.
    + rewrite Ev. apply IH. exact Hnone.
Qed.

Lemma findCode_assign_same (cs : codes) (user id : string)
    (existing record : verificationCode) :
  List.NoDup (ids cs) ->
  findCode cs user = Some (id, existing) -> code_userId record = user ->
  findCode (assign cs id record) user = Some (id, record).
Proof.
  intros Hnd Hfound Huser.
  induction cs as [| [k v] rest IH]; simpl in *; [discriminate Hfound |].
  apply List.NoDup_cons_iff in Hnd. destruct Hnd as [Hnotin Hrest].
  unfold findCode in Hfound |- *. simpl in Hfound.
  destruct (String.eqb (code_userId v) user) eqn:Ev.
  - injection Hfound as -> ->. rewrite String.eqb_refl. simpl.
    rewrite Huser, String.eqb_refl. reflexivity.
  - destruct (findCode_user rest user id existing Hfound) as [_ Hin].
    destruct (String.eqb_spec k id) as [-> | Hne]; [contradiction |].
    simpl. rewrite Ev. apply IH; assumption.
Qed.

(** One submission by a user who is not verified. *)
Lemma submit_spec (cs : codes) (botWallet : option string)
    (input user name : string) (fresh : double) (idNow stampNow : Z) :
  List.NoDup (ids cs) ->
  isValidEthereumAddress (trim input) = true ->
  (forall id c, findCode cs user = Some (id, c) -> code_verified c = false) ->
  let a := effectiveAmount cs user fresh in
  let cs' := snd (handleModalSubmit cs botWallet input user name fresh idNow stampNow) in
  fst (handleModalSubmit cs botWallet input user name fresh idNow stampNow)
  = TransactionRequired a botWallet
  /\ List.NoDup (ids cs')
  /\ exists id c',
       findCode cs' user = Some (id, c')
       /\ code_amount c' = Some a
       /\ code_walletAddress c' = Some (trim input)
       /\ code_verified c' = false
       /\ (forall id0 c0, findCode cs user = Some (id0, c0) ->
             id = id0
             /\ (amount_truthy (code_amount c0) = true ->
                 code_amountWei c' = code_amountWei c0)).
Proof.
  intros Hnd Hvalid Hunverified a cs'. subst a cs'.
  unfold handleModalSubmit, effectiveAmount. rewrite Hvalid. simpl negb. cbv iota.
  destruct (findCode cs user) as [[id existing] |] eqn:Hfound; cbv beta iota.
  - pose proof (Hunverified id existing eq_refl) as Hv. rewrite !Hv.
    destruct (findCode_user cs user id existing Hfound) as [Huser _].
    simpl fst. simpl snd. split; [reflexivity |].
    split; [apply assign_NoDup; exact Hnd |].
    eexists id, _. split.
    + apply (findCode_assign_same cs user id existing); [exact Hnd | exact Hfound |].
      simpl. exact Huser.
    + simpl. rewrite ?Hv.
      destruct (amount_truthy (code_amount existing)) eqn:Et.
      * destruct (code_amount existing) as [a0 |]; [| discriminate Et].
        split; [reflexivity |]. split; [reflexivity |]. split; [reflexivity |].
        intros id0 c0 [= <- <-]. split; reflexivity.
      * split; [reflexivity |]. split; [reflexivity |]. split; [reflexivity |].
        intros id0 c0 [= <- <-]. split; [reflexivity |].
        rewrite Et. discriminate.
  - simpl fst. simpl snd. split; [reflexivity |].
    split; [apply assign_NoDup; exact Hnd |].
    eexists _, _. split.
    + apply findCode_assign_new; [exact Hfound | reflexivity].
    + simpl. split; [reflexivity |]. split; [reflexivity |].
      split; [reflexivity |]. discriminate.
Qed.

(** C5 (as amended).  For a user who is not verified, a second submission
    of the wallet modal works with the amount of the first one: it shows
    the same amount, keeps the same amount and the same base-unit text in
    the user's record, sets the claimed wallet to the newly submitted one,
    and does not depend on what the amount generator would return. *)
Theorem resume_keeps_the_amount (cs : codes) (botWallet : option string)
    (user : string)
    (input1 name1 : string) (fresh1 : double) (idNow1 stampNow1 : Z)
    (input2 name2 : string) (fresh2 : double) (idNow2 stampNow2 : Z) :
  List.NoDup (ids cs) ->
  (forall id c, findCode cs user = Some (id, c) -> code_verified c = false) ->
  isValidEthereumAddress (trim input1) = true ->
  isValidEthereumAddress (trim input2) = true ->
  amount_truthy (Some fresh1) = true ->
  let first :=
    handleModalSubmit cs botWallet input1 user name1 fresh1 idNow1 stampNow1 in
  let second :=
    handleModalSubmit (snd first) botWallet input2 user name2 fresh2 idNow2 stampNow2 in
  exists (a : double) (id : string) (c1 c2 : verificationCode),
    fst first = TransactionRequired a botWallet
    /\ fst second = TransactionRequired a botWallet
    /\ findCode (snd first) user = Some (id, c1)
    /\ findCode (snd second) user = Some (id, c2)
    /\ code_amount c1 = Some a /\ code_amount c2 = Some a
    /\ code_amountWei c2 = code_amountWei c1
    /\ code_walletAddress c2 = Some (trim input2)
    /\ code_verified c2 = false
    /\ (forall fresh' : double,
          handleModalSubmit (snd first) botWallet input2 user name2 fresh'
            idNow2 stampNow2 = second).
Proof.
  intros Hnd Hunverified Hvalid1 Hvalid2 Hfresh first second.
  destruct (submit_spec cs botWallet input1 user name1 fresh1 idNow1 stampNow1
              Hnd Hvalid1 Hunverified)
    as (Hshown1 & Hnd1 & id & c1 & Hfound1 & Hamount1 & _ & Hverified1 & _).
  fold first in Hshown1, Hnd1, Hfound1.
  assert (Hunverified1 :
    forall id' c', findCode (snd first) user = Some (id', c') ->
                   code_verified c' = false).
  { intros id' c' H. rewrite Hfound1 in H. injection H as <- <-. exact Hverified1. }
  assert (Htruthy : amount_truthy (Some (effectiveAmount cs user fresh1)) = true).
  { unfold effectiveAmount.
    destruct (findCode cs user) as [[id0 c0] |]; [| exact Hfresh].
    destruct (amount_truthy (code_amount c0)) eqn:Et; [| exact Hfresh].
    destruct (code_amount c0); [exact Et | discriminate Et]. }
  assert (Heffective : forall fresh',
    effectiveAmount (snd first) user fresh' = effectiveAmount cs user fresh1).
  { intros fresh'. unfold effectiveAmount at 1. rewrite Hfound1, Hamount1.
    rewrite Htruthy. reflexivity. }
  destruct (submit_spec (snd first) botWallet input2 user name2 fresh2 idNow2
              stampNow2 Hnd1 Hvalid2 Hunverified1)
    as (Hshown2 & _ & id2 & c2 & Hfound2 & Hamount2 & Hwallet2 & Hverified2 & Hsame).
  fold second in Hshown2, Hfound2.
  rewrite Heffective in Hshown2, Hamount2.
  destruct (Hsame id c1 Hfound1) as [-> Hwei].
  exists (effectiveAmount cs user fresh1), id, c1, c2.
  repeat split; try assumption.
  - apply Hwei. rewrite Hamount1. exact Htruthy.
  - intros fresh'. subst second. unfold handleModalSubmit.
    rewrite Hvalid2. simpl negb. cbv iota. rewrite Hfound1.
    rewrite Hverified1. rewrite Hamount1, Htruthy. reflexivity.
Qed.

Lemma resume_keeps_the_amount_witness :
  fst (handleModalSubmit
         (snd (handleModalSubmit [] (Some Examples.botWallet) Examples.userWallet
                 "42" "alice" (Number_of_fixed10 734) 1700000000000 1700000000001))
         (Some Examples.botWallet) Examples.stakingAddress "42" "alice"
         (Number_of_fixed10 150) 1700000060000 1700000060001)
  = TransactionRequired (Number_of_fixed10 734) (Some Examples.botWallet).
Proof.
  destruct (resume_keeps_the_amount [] (Some Examples.botWallet) "42"
              Examples.userWallet "alice" (Number_of_fixed10 734)
              1700000000000 1700000000001
              Examples.stakingAddress "alice" (Number_of_fixed10 150)
              1700000060000 1700000060001)
    as (a & id & c1 & c2 & Hfirst & Hsecond & _).
  - constructor.
  - intros id c H. discriminate H.
  - reflexivity.
  - reflexivity.
  - reflexivity.
  - rewrite Hsecond. vm_compute in Hfirst. injection Hfirst as <-.
    vm_compute. reflexivity.
Defined.

(** C5, counterexample.  An unverified record that carries no amount (an
    older version of the bot stored text codes): the submission generates
    a fresh amount although an unverified record of the user exists. *)
Lemma fresh_amount_for_a_record_without_amount :
  ~ fresh_only_without_record Examples.legacyCodes "42".
Proof.
  intros H.
  assert (Hrecord : exists id existing,
            findCode Examples.legacyCodes "42" = Some (id, existing)
            /\ code_verified existing = false).
  { eexists _, _. split; reflexivity. }
  specialize (H Hrecord None Examples.userWallet "alice"%string
                (Number_of_fixed10 734) (Number_of_fixed10 150) 0 0).
  vm_compute in H. discriminate H.
Qed.

(** ** Secondary networks *)

Import PostgreSQLDatabase.



Lemma store_ok_saveJSON (db : database) (user name wallet : string)
    (result : verificationResult) (network : string) (t : clock) :
  store_ok db -> verified result = true -> truthy (Some wallet) = true ->
  store_ok (snd (saveVerificationJSON db user name wallet result network t)).
Proof.
  intros Hok Hverified Hwallet. unfold saveVerificationJSON.
  destruct (jsonData db) as [data |] eqn:Hd; [| exact Hok].
  destruct Hok as [Hjson Hrows].
  unfold saveJSON. simpl. split; [| exact Hrows].
  simpl. intros data' u r n v [= <-] Hr Hv.
  destruct (decide (u = user)) as [-> | Hne].
  - rewrite lookup_insert_eq in Hr. injection Hr as <-. simpl in Hv.
    destruct (decide (n = network)) as [-> | Hn].
    + rewrite lookup_insert_eq in Hv. injection Hv as <-. split; assumption.
    + rewrite lookup_insert_ne in Hv by congruence.
      destruct (data !! user) as [r0 |] eqn:Hr0.
      * exact (Hjson data user r0 n v Hd Hr0 Hv).
      * simpl in Hv. rewrite lookup_empty in Hv. discriminate Hv.
  - rewrite lookup_insert_ne in Hr by congruence.
    exact (Hjson data u r n v Hd Hr Hv).
Qed.

Lemma store_ok_save (db : database) (user name wallet : string)
    (result : verificationResult) (network : string) (t : clock)
    (userQuery verificationQuery : bool) :
  store_ok db -> verified result = true -> truthy (Some wallet) = true ->
  store_ok (snd (saveVerification db user name wallet result network t
                   userQuery verificationQuery)).
Proof.
  intros Hok Hverified Hwallet. unfold saveVerification.
  destruct (useJSON db); [apply store_ok_saveJSON; assumption |].
  destruct userQuery; simpl negb; cbv iota;
    [| apply store_ok_saveJSON; assumption].
  assert (Hok1 : store_ok
    {| useJSON := false;
       verified_users := upsertUser (verified_users db) user name (at_creation t);
       user_verifications := user_verifications db;
       jsonData := jsonData db |}).
  { destruct Hok as [Hjson Hrows]. split; assumption. }
  destruct verificationQuery; simpl negb; cbv iota;
    [| apply store_ok_saveJSON; assumption].
  destruct Hok as [Hjson Hrows]. split; [exact Hjson |].
  simpl. intros u n row. unfold upsertVerification, rowsOf at 1.
  destruct (decide (u = user)) as [-> | Hne].
  - rewrite lookup_insert_eq. simpl.
    destruct (decide (n = network)) as [-> | Hn].
    + rewrite lookup_insert_eq. intros [= <-]. split; assumption.
    + rewrite lookup_insert_ne by congruence. apply Hrows.
  - rewrite lookup_insert_ne by congruence. apply Hrows.
Qed.

Lemma store_ok_remove (db : database) (user : string) (query : bool) :
  store_ok db -> store_ok (snd (removeVerification db user query)).
Proof.
  intros Hok. unfold removeVerification.
  destruct (useJSON db).
  - destruct (jsonData db) as [data |] eqn:Hd; [| exact Hok].
    destruct (data !! user) as [r0 |] eqn:Hr0; [| exact Hok].
    destruct Hok as [Hjson Hrows].
    simpl. split; [| exact Hrows].
    simpl. intros data' u r n v [= <-] Hr Hv.
    destruct (decide (u = user)) as [-> | Hne].
    + rewrite lookup_delete_eq in Hr. discriminate Hr.
    + rewrite lookup_delete_ne in Hr by congruence.
      exact (Hjson data u r n v Hd Hr Hv).
  - destruct query; [| exact Hok]. destruct Hok as [Hjson Hrows].
    simpl. split; [exact Hjson |].
    simpl. intros u n row. unfold rowsOf.
    destruct (decide (u = user)) as [-> | Hne].
    + rewrite lookup_delete_eq. simpl. rewrite lookup_empty. discriminate.
    + rewrite lookup_delete_ne by congruence. apply Hrows.
Qed.

Section Handlers.

Variable checkTransaction : string -> option string -> option string -> bool.
Variable monadVerifier : string -> verificationResult.
Variable arbitrumVerifier beraVerifier : string -> verificationResult.
Variable botWallet : option string.

Local Abbreviation handleButtonInteraction :=
  (Bot.handleButtonInteraction checkTransaction monadVerifier
     arbitrumVerifier beraVerifier).
Local Abbreviation useVerifiedWallet :=
  (Bot.useVerifiedWallet arbitrumVerifier beraVerifier).
Local Abbreviation confirmMonadTransaction :=
  (Bot.confirmMonadTransaction checkTransaction monadVerifier).
Local Abbreviation step :=
  (Bot.step checkTransaction monadVerifier arbitrumVerifier beraVerifier botWallet).
Local Abbreviation run :=
  (Bot.run checkTransaction monadVerifier arbitrumVerifier beraVerifier botWallet).

Lemma getVerifiedWallet_truthy (user : option userRecord) (wallet : string) :
  getVerifiedWallet user = Some wallet -> truthy (Some wallet) = true.
Proof.
  unfold getVerifiedWallet. destruct user as [r |]; [| discriminate].
  destruct (verifications r !! "monad_testnet"%string) as [v |]; [| discriminate].
  destruct (truthy (Some (nv_walletAddress v))) eqn:Et; [| discriminate].
  intros [= <-]. exact Et.
Qed.

Lemma useVerifiedWallet_store_ok (st : state) (w : world)
    (customId user name : string) :
  store_ok (verificationDB st) ->
  store_ok (verificationDB (snd (useVerifiedWallet st w customId user name))).
Proof.
  intros Hok. unfold Bot.useVerifiedWallet.
  destruct (getVerifiedWallet _) as [wallet |] eqn:Hw; [| exact Hok].
  apply getVerifiedWallet_truthy in Hw.
  destruct (if String.eqb (networkOf customId) "arbitrum" then _ else _)
    as [verify |]; [| exact Hok].
  destruct (verified (verify wallet)) eqn:Hv; [| exact Hok].
  pose proof (store_ok_save (verificationDB st) user name wallet (verify wallet)
                (networkOf customId) (saveClock w) (userQuery w)
                (verificationQuery w) Hok Hv Hw) as Hsaved.
  destruct (saveVerification _ _ _ _ _ _ _ _ _) as [[saved |] db']; exact Hsaved.
Qed.

Lemma confirmMonadTransaction_store_ok (st : state) (w : world)
    (user name : string) :
  store_ok (verificationDB st) ->
  store_ok (verificationDB (snd (confirmMonadTransaction st w botWallet user name))).
Proof.
  intros Hok. unfold Bot.confirmMonadTransaction.
  destruct (findCode (verificationCodes st) user) as [[id data] |]; [| exact Hok].
  destruct (truthy (code_walletAddress data)) eqn:Hw; simpl negb; cbv iota;
    [| exact Hok].
  destruct (checkTransaction _ _ _); simpl negb; cbv iota; [| exact Hok].
  destruct (verified (monadVerifier _)) eqn:Hv; [| exact Hok].
  assert (Hwallet : truthy (Some (default ""%string (code_walletAddress data))) = true).
  { destruct (code_walletAddress data); [exact Hw | discriminate Hw]. }
  pose proof (store_ok_save (verificationDB st) user name _ _ "monad_testnet"
                (saveClock w) (userQuery w) (verificationQuery w) Hok Hv Hwallet)
    as Hsaved.
  unfold saveMonadVerification.
  destruct (saveVerification _ _ _ _ _ _ _ _ _) as [[saved |] db']; exact Hsaved.
Qed.

(** Every interaction keeps the invariant of the store. *)
Lemma step_store_ok (st : state) (w : world) (i : interaction) :
  store_ok (verificationDB st) ->
  store_ok (verificationDB (snd (step st w i))).
Proof.
  intros Hok. destruct i as [chain user | customId user name
                             | input user name fresh idNow stampNow | user]; simpl.
  - exact Hok.
  - unfold Bot.handleButtonInteraction.
    destruct (String.eqb customId "request_monad_wallet"); [exact Hok |].
    destruct (String.eqb customId "confirm_monad_transaction");
      [apply confirmMonadTransaction_store_ok; exact Hok |].
    destruct (String.prefix "use_verified_wallet_" customId);
      [apply useVerifiedWallet_store_ok; exact Hok | exact Hok].
  - destruct (handleModalSubmit _ _ _ _ _ _ _ _). exact Hok.
  - unfold resetVerification.
    pose proof (store_ok_remove (verificationDB st) user (deleteQuery w) Hok) as Hrem.
    destruct (removeVerification _ _ _) as [removed db'].
    destruct (findCode _ _) as [[code data] |]; [exact Hrem |].
    destruct removed; exact Hrem.
Qed.

(** A bot that starts without records only ever holds entries of
    successful checks. *)
Lemma run_store_ok (events : list (world * interaction)) : forall st : state,
  store_ok (verificationDB st) ->
  store_ok (verificationDB (run st events)).
Proof.
  induction events as [| [w i] rest IH]; intros st Hok; simpl; [exact Hok |].
  apply IH. apply step_store_ok. exact Hok.
Qed.



End Handlers.


End BotClaims.

(* ===================================================================== *)
(** * Further properties of the rate limiter                              *)
(* ===================================================================== *)

Module RateLimiterProperties.

Import RateLimiter.

Lemma key_not_penaltyKey (userId action : string) :
  userKey userId action <> penaltyKey userId action.
Proof.
  unfold penaltyKey. generalize (userKey userId action) as s.
  induction s as [| c s IH]; simpl; [discriminate |].
  intros [= H]. exact (IH H).
Qed.

Section Quota.

Variables (userId action : string) (limits : gmap string limit).

Local Abbreviation key := (userKey userId action).
Local Abbreviation lim := (effectiveLimit limits action).

(** A call made while the stored window lasts. *)
Lemma checkUserLimit_within (m : gmap string entry) (e : entry) (now : Z) :
  m !! key = Some e -> now <= resetTime e ->
  checkUserLimit m userId action limits now
  = if limit_count lim <=? count e
    then ({| allowed := false; remaining := 0;
             verdict_resetTime := resetTime e |}, m)
    else ({| allowed := true; remaining := limit_count lim - (count e + 1);
             verdict_resetTime := resetTime e |},
          <[ key := {| count := count e + 1; resetTime := resetTime e |} ]> m).
Proof.
  intros He Hnow. unfold checkUserLimit. rewrite He.
  replace (resetTime e <? now) with false by (symmetry; apply Z.ltb_ge; lia).
  reflexivity.
Qed.

(** The counter after further calls inside the window: it grows by one
    per call until it reaches the limit. *)
Lemma replay_within (ts : list Z) : forall (m : gmap string entry) (e : entry),
  m !! key = Some e ->
  Forall (fun t => t <= resetTime e) ts ->
  replay m userId action limits ts !! key
  = Some {| count := Z.max (count e)
                       (Z.min (count e + Z.of_nat (List.length ts)) (limit_count lim));
            resetTime := resetTime e |}.
Proof.
  induction ts as [| t ts IH]; intros m e He Hts.
  - simpl. rewrite He. f_equal. destruct e as [c r]. simpl. f_equal. lia.
  - apply Forall_cons_1 in Hts. destruct Hts as [Ht Hts].
    change (replay m userId action limits (t :: ts))
      with (replay (snd (checkUserLimit m userId action limits t))
              userId action limits ts).
    rewrite (checkUserLimit_within m e t He Ht).
    destruct (limit_count lim <=? count e) eqn:Hfull.
    + simpl snd. rewrite (IH m e He Hts). apply Z.leb_le in Hfull.
      f_equal. f_equal. simpl List.length. lia.
    + simpl snd. apply Z.leb_gt in Hfull.
      rewrite (IH _ {| count := count e + 1; resetTime := resetTime e |});
        [| apply lookup_insert_eq | exact Hts].
      simpl. f_equal. f_equal. lia.
Qed.

End Quota.

(** X1.  The quota of one window, for an action that is not the name of
    a member of [Object.prototype].  A call that finds no entry, or an
    entry whose window has passed, is allowed whatever the limit is and
    opens a window; of the calls that follow inside that window, the one
    after [n] others is allowed exactly when [n + 1] is below the limit. *)
Theorem quota_per_window (userLimits : gmap string entry)
    (userId action : string) (limits : gmap string limit)
    (first : Z) (others : list Z) (now : Z) :
  let limit := effectiveLimit limits action in
  inheritedName action = false ->
  (forall e, userLimits !! userKey userId action = Some e -> resetTime e < first) ->
  Forall (fun t => t <= first + windowMs limit) others ->
  now <= first + windowMs limit ->
  allowed (fst (checkUserLimit userLimits userId action limits first)) = true
  /\ allowed (fst (checkUserLimit
                    (replay userLimits userId action limits (first :: others))
                    userId action limits now))
     = (Z.of_nat (List.length others) + 1 <? limit_count limit)
  /\ verdict_resetTime
       (fst (checkUserLimit
               (replay userLimits userId action limits (first :: others))
               userId action limits now))
     = first + windowMs limit.
Proof.
  intros limit _ Hfresh Hothers Hnow.
  assert (Hfirst : checkUserLimit userLimits userId action limits first
    = ({| allowed := true; remaining := limit_count limit - 1;
          verdict_resetTime := first + windowMs limit |},
       <[ userKey userId action :=
            {| count := 1; resetTime := first + windowMs limit |} ]> userLimits)).
  { unfold checkUserLimit.
    destruct (userLimits !! userKey userId action) as [e |] eqn:He; [| reflexivity].
    replace (resetTime e <? first) with true
      by (symmetry; apply Z.ltb_lt; apply Hfresh; reflexivity).
    reflexivity. }
  split; [rewrite Hfirst; reflexivity |].
  change (replay userLimits userId action limits (first :: others))
    with (replay (snd (checkUserLimit userLimits userId action limits first))
            userId action limits others).
  rewrite Hfirst. simpl snd.
  pose proof (replay_within userId action limits others
                (<[ userKey userId action :=
                      {| count := 1; resetTime := first + windowMs limit |} ]>
                   userLimits)
                {| count := 1; resetTime := first + windowMs limit |}
                (lookup_insert_eq _ _ _) Hothers) as Hafter.
  simpl in Hafter.
  rewrite (checkUserLimit_within userId action limits _ _ now Hafter Hnow).
  simpl count. simpl resetTime. fold limit.
  destruct (limit_count limit <=?
            Z.max 1 (Z.min (1 + Z.of_nat (List.length others)) (limit_count limit)))
    eqn:Hfull; simpl.
  - apply Z.leb_le in Hfull. split; [| reflexivity]. symmetry. apply Z.ltb_ge. lia.
  - apply Z.leb_gt in Hfull. split; [| reflexivity]. symmetry. apply Z.ltb_lt. lia.
Qed.

Lemma quota_per_window_witness :
  allowed (fst (checkUserLimit
                  (replay ∅ "42" "submit" ∅ [1000; 2000; 3000])
                  "42" "submit" ∅ 4000))
  = false.
Proof.
  exact (proj1 (proj2 (quota_per_window ∅ "42" "submit" ∅ 1000 [2000; 3000] 4000
                         eq_refl
                         ltac:(intros e H; rewrite lookup_empty in H; discriminate H)
                         ltac:(repeat constructor; vm_compute; discriminate)
                         ltac:(vm_compute; discriminate)))).
Defined.

(** X2.  [cleanup] is transparent: a map that was cleaned at an earlier
    time (or at the same time) gives every later [checkUserLimit] and
    [isPenalized] call the answer the uncleaned map gives. *)
Theorem cleanup_is_transparent (userLimits : gmap string entry)
    (cleanedAt now : Z) (userId action : string) (limits : gmap string limit) :
  cleanedAt <= now ->
  fst (checkUserLimit (cleanup userLimits cleanedAt) userId action limits now)
  = fst (checkUserLimit userLimits userId action limits now)
  /\ fst (isPenalized (cleanup userLimits cleanedAt) userId action now)
     = fst (isPenalized userLimits userId action now).
Proof.
  intros Hle.
  assert (Hlookup : forall k,
    cleanup userLimits cleanedAt !! k = userLimits !! k
    \/ (cleanup userLimits cleanedAt !! k = None
        /\ exists e, userLimits !! k = Some e /\ resetTime e < now)).
  { intros k. unfold cleanup.
    destruct (userLimits !! k) as [e |] eqn:He.
    - destruct (decide (resetTime e < cleanedAt)) as [Hold | Hlive].
      + right. split; [| exists e; split; [reflexivity | lia]].
        apply map_lookup_filter_None. right. intros x Hx. simpl.
        rewrite He in Hx. injection Hx as <-. intros Hn. exact (Hn Hold).
      + left. apply map_lookup_filter_Some. split; [exact He | exact Hlive].
    - left. apply map_lookup_filter_None. left. exact He. }
  split.
  - unfold checkUserLimit.
    destruct (Hlookup (userKey userId action)) as [-> | [-> (e & -> & Hold)]].
    + destruct (userLimits !! userKey userId action) as [e |]; [| reflexivity].
      destruct (resetTime e <? now); [reflexivity |].
      destruct (limit_count (effectiveLimit limits action) <=? count e); reflexivity.
    + replace (resetTime e <? now) with true by (symmetry; apply Z.ltb_lt; exact Hold).
      reflexivity.
  - unfold isPenalized.
    destruct (Hlookup (penaltyKey userId action)) as [-> | [-> (e & -> & Hold)]].
    + destruct (userLimits !! penaltyKey userId action) as [e |]; [| reflexivity].
      destruct (resetTime e <? now); reflexivity.
    + replace (resetTime e <? now) with true by (symmetry; apply Z.ltb_lt; exact Hold).
      reflexivity.
Qed.

Lemma cleanup_is_transparent_witness :
  fst (checkUserLimit (cleanup Examples.exhausted 70000) "42" "verify" ∅ 70000)
  = fst (checkUserLimit Examples.exhausted "42" "verify" ∅ 70000).
Proof.
  exact (proj1 (cleanup_is_transparent Examples.exhausted 70000 70000 "42" "verify" ∅
                  ltac:(vm_compute; discriminate))).
Defined.

(** X3.  The life of a penalty.  After [addPenalty] at time [start],
    [isPenalized] answers true up to and including [start + penaltyMs] and
    leaves the map alone, and the middleware answers with the restriction
    notice without calling [checkUserLimit], so that the user's counter
    stays as it is; at the first later call [isPenalized] answers false
    and deletes the penalty entry.  The penalty itself leaves the verdicts
    of [checkUserLimit] for the same user and action as they were. *)
Theorem penalty_lifetime (userLimits : gmap string entry)
    (userId action : string) (limits : gmap string limit)
    (penaltyMs start now limitNow messageNow : Z) :
  let penalized := addPenalty userLimits userId action penaltyMs start in
  (now <= start + penaltyMs ->
   isPenalized penalized userId action now = (true, penalized)
   /\ createRateLimitMiddleware action limits penalized userId now limitNow messageNow
      = (Restricted, penalized))
  /\ (start + penaltyMs < now ->
      isPenalized penalized userId action now
      = (false, delete (penaltyKey userId action) userLimits))
  /\ fst (checkUserLimit penalized userId action limits limitNow)
     = fst (checkUserLimit userLimits userId action limits limitNow).
Proof.
  intros penalized. subst penalized.
  unfold createRateLimitMiddleware, isPenalized, addPenalty.
  fold (penaltyKey userId action). rewrite lookup_insert_eq. simpl resetTime.
  split; [| split].
  - intros H.
    replace (start + penaltyMs <? now) with false
      by (symmetry; apply Z.ltb_ge; exact H).
    split; reflexivity.
  - intros H.
    replace (start + penaltyMs <? now) with true
      by (symmetry; apply Z.ltb_lt; exact H).
    rewrite delete_insert_eq. reflexivity.
  - unfold checkUserLimit.
    rewrite lookup_insert_ne by (apply not_eq_sym, key_not_penaltyKey).
    destruct (userLimits !! userKey userId action) as [e |]; [| reflexivity].
    destruct (resetTime e <? limitNow); [reflexivity |].
    destruct (limit_count (effectiveLimit limits action) <=? count e); reflexivity.
Qed.

Lemma penalty_lifetime_witness :
  createRateLimitMiddleware "verify" ∅ (addPenalty ∅ "42" "verify" 300000 1000)
    "42" 301000 301000 301000
  = (Restricted, addPenalty ∅ "42" "verify" 300000 1000)
  /\ fst (isPenalized (addPenalty ∅ "42" "verify" 300000 1000) "42" "verify" 301001)
     = false.
Proof.
  split.
  - exact (proj2 (proj1 (penalty_lifetime ∅ "42" "verify" ∅ 300000 1000
                           301000 301000 301000)
                    ltac:(vm_compute; discriminate))).
  - exact (f_equal fst
             (proj1 (proj2 (penalty_lifetime ∅ "42" "verify" ∅ 300000 1000
                              301001 301001 301001))
                ltac:(vm_compute; reflexivity))).
Defined.

(** X4.  The global limiter counts as the user limiter does, for actions
    that are not names of members of [Object.prototype].  When the two
    maps hold the same entry under their keys and the two limits in force
    are the same, [checkGlobalLimit] and [checkUserLimit] allow or refuse
    alike, and leave the same entry behind. *)
Theorem global_limit_counts_like_user_limit
    (globalLimits userLimits : gmap string entry)
    (globalAction userId action : string)
    (globalConfig limits : gmap string limit) (now : Z) :
  inheritedName globalAction = false -> inheritedName action = false ->
  globalLimits !! globalAction = userLimits !! userKey userId action ->
  effectiveGlobalLimit globalConfig globalAction = effectiveLimit limits action ->
  let g := checkGlobalLimit globalLimits globalAction globalConfig now in
  let u := checkUserLimit userLimits userId action limits now in
  g_allowed (fst g) = allowed (fst u)
  /\ snd g !! globalAction = snd u !! userKey userId action.
Proof.
  intros _ _ Hentry Hlimit g u. subst g u.
  unfold checkGlobalLimit, checkUserLimit.
  rewrite Hentry, Hlimit.
  destruct (userLimits !! userKey userId action) as [e |] eqn:He.
  - destruct (resetTime e <? now).
    + simpl. rewrite !lookup_insert_eq. split; reflexivity.
    + destruct (limit_count (effectiveLimit limits action) <=? count e); simpl.
      * rewrite Hentry, He. split; reflexivity.
      * rewrite !lookup_insert_eq. split; reflexivity.
  - simpl. rewrite !lookup_insert_eq. split; reflexivity.
Qed.

Lemma global_limit_counts_like_user_limit_witness :
  g_allowed (fst (checkGlobalLimit ∅ "role_assignment"
                    {[ "role_assignment"%string :=
                         {| limit_count := 5; windowMs := 60 * 1000 |} ]} 1000))
  = allowed (fst (checkUserLimit ∅ "42" "verify" ∅ 1000)).
Proof.
  exact (proj1 (global_limit_counts_like_user_limit ∅ ∅ "role_assignment" "42" "verify"
                  {[ "role_assignment"%string :=
                       {| limit_count := 5; windowMs := 60 * 1000 |} ]} ∅ 1000
                  eq_refl eq_refl eq_refl eq_refl)).
Defined.

End RateLimiterProperties.

(* ===================================================================== *)
(** * Further properties of the verification store                        *)
(* ===================================================================== *)

Module StoreProperties.

Import Ownership Store.

(** ** The JSON-backed store *)

(** X5.  A save can be read back.  After [saveVerification] the store
    answers for that user and network with the saved verdict and the saved
    wallet ([null] for an empty one), the user's record carries the new
    username and the saved entry, and the record of every other user is as
    it was. *)
Theorem save_then_read (data : gmap string userRecord)
    (user name wallet : string) (result : verificationResult)
    (network : string) (t : clock) :
  let saved :=
    VerificationDatabase.saveVerification data user name wallet result network t in
  VerificationDatabase.hasNetworkVerification (snd saved) user network
  = verified result
  /\ VerificationDatabase.getNetworkWallet (snd saved) user network
     = (if JS.truthy (Some wallet) then Some wallet else None)
  /\ (exists r,
        VerificationDatabase.getVerifiedUser (snd saved) user = Some r
        /\ username r = name
        /\ VerificationDatabase.getUserVerifications (snd saved) user !! network
           = Some (fst saved))
  /\ forall other, other <> user ->
       VerificationDatabase.getVerifiedUser (snd saved) other
       = VerificationDatabase.getVerifiedUser data other.
Proof.
  intros saved. subst saved.
  unfold VerificationDatabase.hasNetworkVerification,
    VerificationDatabase.getNetworkWallet,
    VerificationDatabase.getUserVerifications,
    VerificationDatabase.getVerifiedUser,
    VerificationDatabase.saveVerification, saveJSON.
  simpl. rewrite !lookup_insert_eq. simpl. rewrite !lookup_insert_eq. simpl.
  split; [reflexivity |]. split; [reflexivity |].
  split; [eexists; split; [reflexivity | split; reflexivity] |].
  intros other Hne. apply lookup_insert_ne. congruence.
Qed.

Lemma save_then_read_witness :
  VerificationDatabase.getVerifiedUser Examples.monadVerified "7"
  = VerificationDatabase.getVerifiedUser ∅ "7".
Proof.
  exact (proj2 (proj2 (proj2
    (save_then_read ∅ "42" "alice" Examples.userWallet
       (Examples.verifiedResult "monad_testnet" Examples.userWallet)
       "monad_testnet" Examples.sampleClock))) "7"%string
    ltac:(discriminate)).
Defined.

(** X6.  [removeVerification] erases the user and nobody else.  It
    answers [true] exactly when the user had a record; afterwards the user
    has no record, no verification on any network and no wallet, every
    other user's record is untouched, and a second removal answers [false]
    and changes nothing. *)
Theorem remove_erases_the_user (data : gmap string userRecord) (user : string) :
  let removed := VerificationDatabase.removeVerification data user in
  (fst removed = true <-> is_Some (VerificationDatabase.getVerifiedUser data user))
  /\ VerificationDatabase.getVerifiedUser (snd removed) user = None
  /\ (forall network,
        VerificationDatabase.hasNetworkVerification (snd removed) user network = false
        /\ VerificationDatabase.getNetworkWallet (snd removed) user network = None)
  /\ (forall other, other <> user ->
        VerificationDatabase.getVerifiedUser (snd removed) other
        = VerificationDatabase.getVerifiedUser data other)
  /\ VerificationDatabase.removeVerification (snd removed) user
     = (false, snd removed).
Proof.
  intros removed. subst removed.
  unfold VerificationDatabase.hasNetworkVerification,
    VerificationDatabase.getNetworkWallet,
    VerificationDatabase.getVerifiedUser,
    VerificationDatabase.removeVerification.
  destruct (data !! user) as [r |] eqn:Hr; simpl.
  - rewrite !lookup_delete_eq.
    split; [split; [intros _; eexists; reflexivity | reflexivity] |].
    split; [reflexivity |]. split; [intros network; split; reflexivity |].
    split; [| reflexivity].
    intros other Hne. apply lookup_delete_ne. congruence.
  - rewrite !Hr.
    split; [split; [discriminate | intros [x Hx]; discriminate Hx] |].
    split; [reflexivity |]. split; [intros network; split; reflexivity |].
    split; [| reflexivity].
    intros other _. reflexivity.
Qed.

Lemma remove_erases_the_user_witness :
  fst (VerificationDatabase.removeVerification Examples.monadVerified "42") = true.
Proof.
  apply (proj1 (remove_erases_the_user Examples.monadVerified "42")).
  vm_compute. eexists. reflexivity.
Defined.

(** ** Statistics *)

Section Stats.

Variable getTime : string -> JS.number.

Local Abbreviation countVerified := VerificationDatabase.countVerified.
Local Abbreviation verifiedOn := VerificationDatabase.verifiedOn.

Lemma count_step_comm (network : string) (u1 u2 : userRecord) (n : Z) :
  (if verifiedOn network u1 then (if verifiedOn network u2 then n + 1 else n) + 1
   else if verifiedOn network u2 then n + 1 else n)
  = (if verifiedOn network u2 then (if verifiedOn network u1 then n + 1 else n) + 1
     else if verifiedOn network u1 then n + 1 else n).
Proof. destruct (verifiedOn network u1), (verifiedOn network u2); reflexivity. Qed.

Lemma countVerified_insert_new (network : string) (data : gmap string userRecord)
    (k : string) (r : userRecord) :
  data !! k = None ->
  countVerified network (<[ k := r ]> data)
  = countVerified network data + Z.b2z (verifiedOn network r).
Proof.
  intros Hk. unfold VerificationDatabase.countVerified.
  rewrite map_fold_insert_L; [| intros; apply count_step_comm | exact Hk].
  destruct (verifiedOn network r); simpl; lia.
Qed.

Lemma countVerified_delete (network : string) (data : gmap string userRecord)
    (k : string) (r : userRecord) :
  data !! k = Some r ->
  countVerified network data
  = countVerified network (delete k data) + Z.b2z (verifiedOn network r).
Proof.
  intros Hk. unfold VerificationDatabase.countVerified.
  rewrite (map_fold_delete_L _ _ k r data); [| intros; apply count_step_comm | exact Hk].
  destruct (verifiedOn network r); simpl; lia.
Qed.

Lemma countVerified_bounds (network : string) (data : gmap string userRecord) :
  0 <= countVerified network data <= Z.of_nat (size data).
Proof.
  unfold VerificationDatabase.countVerified.
  apply (map_fold_weak_ind
           (fun (n : Z) (m : gmap string userRecord) => 0 <= n <= Z.of_nat (size m))).
  - rewrite map_size_empty. lia.
  - intros k r m n Hk IH. rewrite map_size_insert_None by exact Hk.
    destruct (verifiedOn network r); lia.
Qed.

Lemma verifiedOn_updated (counted network u nm c : string) (l : option string)
    (vs : gmap string networkVerification) (saved : networkVerification) :
  verifiedOn counted
    {| userId := u; username := nm; verifications := <[ network := saved ]> vs;
       createdAt := c; lastUpdated := l |}
  = if String.eqb counted network then verified (nv_verificationResult saved)
    else match vs !! counted with
         | Some v => verified (nv_verificationResult v)
         | None => false
         end.
Proof.
  unfold VerificationDatabase.verifiedOn. simpl.
  destruct (String.eqb_spec counted network) as [-> | Hne].
  - rewrite lookup_insert_eq. reflexivity.
  - rewrite lookup_insert_ne by congruence. reflexivity.
Qed.

(** The counter of [counted] after a save under [network]. *)
Lemma countVerified_save (counted : string) (data : gmap string userRecord)
    (user name wallet : string) (result : verificationResult)
    (network : string) (t : clock) :
  countVerified counted
    (snd (VerificationDatabase.saveVerification data user name wallet result network t))
  = countVerified counted data
    - Z.b2z (VerificationDatabase.hasNetworkVerification data user counted)
    + Z.b2z (if String.eqb counted network then verified result
             else VerificationDatabase.hasNetworkVerification data user counted).
Proof.
  unfold VerificationDatabase.saveVerification, saveJSON,
    VerificationDatabase.hasNetworkVerification,
    VerificationDatabase.getVerifiedUser. simpl snd.
  destruct (data !! user) as [r |] eqn:Hr.
  - rewrite <- insert_delete_eq.
    rewrite countVerified_insert_new by apply lookup_delete_eq.
    rewrite (countVerified_delete counted data user r Hr).
    rewrite verifiedOn_updated. simpl nv_verificationResult. simpl verifications.
    unfold VerificationDatabase.verifiedOn.
    destruct (String.eqb counted network); lia.
  - rewrite countVerified_insert_new by exact Hr.
    rewrite verifiedOn_updated. simpl nv_verificationResult. simpl verifications.
    rewrite lookup_empty.
    destruct (String.eqb counted network); simpl; lia.
Qed.

(** The counters of [getStats] never exceed the number of users. *)
Lemma stats_counts_bounded (data : gmap string userRecord) :
  let s := VerificationDatabase.getStats getTime data in
  0 <= VerificationDatabase.monadVerified s <= VerificationDatabase.totalUsers s
  /\ 0 <= VerificationDatabase.arbitrumVerified s <= VerificationDatabase.totalUsers s
  /\ 0 <= VerificationDatabase.beraVerified s <= VerificationDatabase.totalUsers s.
Proof.
  simpl. split; [| split]; apply countVerified_bounds.
Qed.

(** X7.  What a save does to the statistics.  A first save for a user
    adds one to [totalUsers], a later one leaves it; the counter of a
    network moves only by a save under exactly the key it reads: a save
    under ['monad_testnet'] replaces the user's former contribution to
    [monadVerified] by the new verdict, and a save under any key other
    than ['berachain'] (the Bera button saves under ['bera']) leaves
    [beraVerified] as it was. *)
Theorem stats_after_save (data : gmap string userRecord)
    (user name wallet : string) (result : verificationResult)
    (network : string) (t : clock) :
  let before := VerificationDatabase.getStats getTime data in
  let after :=
    VerificationDatabase.getStats getTime
      (snd (VerificationDatabase.saveVerification data user name wallet result
              network t)) in
  VerificationDatabase.totalUsers after
  = VerificationDatabase.totalUsers before
    + match VerificationDatabase.getVerifiedUser data user with
      | Some _ => 0
      | None => 1
      end
  /\ (network = "monad_testnet"%string ->
      VerificationDatabase.monadVerified after
      = VerificationDatabase.monadVerified before
        - Z.b2z (VerificationDatabase.hasMonadVerification data user)
        + Z.b2z (verified result))
  /\ (network <> "monad_testnet"%string ->
      VerificationDatabase.monadVerified after
      = VerificationDatabase.monadVerified before)
  /\ (network <> "arbitrum"%string ->
      VerificationDatabase.arbitrumVerified after
      = VerificationDatabase.arbitrumVerified before)
  /\ (network <> "berachain"%string ->
      VerificationDatabase.beraVerified after
      = VerificationDatabase.beraVerified before).
Proof.
  intros before after. subst before after.
  unfold VerificationDatabase.getStats.
  cbn [VerificationDatabase.totalUsers VerificationDatabase.monadVerified
       VerificationDatabase.arbitrumVerified VerificationDatabase.beraVerified].
  assert (Hother : forall counted, network <> counted ->
    countVerified counted
      (snd (VerificationDatabase.saveVerification data user name wallet result
              network t))
    = countVerified counted data).
  { intros counted Hne. rewrite countVerified_save.
    destruct (String.eqb_spec counted network) as [-> | _]; [contradiction | lia]. }
  split; [| split; [| split; [| split]]].
  - unfold VerificationDatabase.saveVerification, saveJSON,
      VerificationDatabase.getVerifiedUser. simpl snd.
    destruct (data !! user) as [r |] eqn:Hr.
    + rewrite map_size_insert_Some by (eexists; exact Hr). lia.
    + rewrite map_size_insert_None by exact Hr. lia.
  - intros ->. rewrite countVerified_save. rewrite String.eqb_refl. reflexivity.
  - intros Hne. apply Hother. exact Hne.
  - intros Hne. apply Hother. exact Hne.
  - intros Hne. apply Hother. exact Hne.
Qed.

End Stats.

Lemma stats_after_save_witness :
  VerificationDatabase.beraVerified
    (VerificationDatabase.getStats (fun _ => JS.NaN)
       (snd (VerificationDatabase.saveVerification Examples.monadVerified "42" "alice"
               Examples.userWallet
               (Examples.verifiedResult "berachain" Examples.userWallet)
               "bera" Examples.laterClock)))
  = VerificationDatabase.beraVerified
      (VerificationDatabase.getStats (fun _ => JS.NaN) Examples.monadVerified).
Proof.
  exact (proj2 (proj2 (proj2 (proj2
    (stats_after_save (fun _ => JS.NaN) Examples.monadVerified "42" "alice"
       Examples.userWallet (Examples.verifiedResult "berachain" Examples.userWallet)
       "bera" Examples.laterClock)))) ltac:(discriminate)).
Defined.

(** ** The PostgreSQL-backed store *)

Lemma saveJSON_verdict (data : gmap string userRecord)
    (user name wallet : string) (result : verificationResult)
    (network : string) (t : clock) :
  VerificationDatabase.hasNetworkVerification
    (snd (saveJSON data user name wallet result network t)) user network
  = verified result.
Proof.
  unfold VerificationDatabase.hasNetworkVerification,
    VerificationDatabase.getVerifiedUser, saveJSON.
  simpl. rewrite lookup_insert_eq. simpl. rewrite lookup_insert_eq. reflexivity.
Qed.

Lemma upsertUser_lookup (users : gmap string PostgreSQLDatabase.userRow)
    (user name now : string) :
  exists row,
    PostgreSQLDatabase.upsertUser users user name now !! user = Some row
    /\ PostgreSQLDatabase.row_username row = name.
Proof.
  unfold PostgreSQLDatabase.upsertUser.
  destruct (users !! user) as [row |]; rewrite lookup_insert_eq;
    eexists; split; reflexivity.
Qed.

Lemma upsertUser_other (users : gmap string PostgreSQLDatabase.userRow)
    (user name now other : string) :
  other <> user ->
  PostgreSQLDatabase.upsertUser users user name now !! other = users !! other.
Proof.
  intros Hne. unfold PostgreSQLDatabase.upsertUser.
  destruct (users !! user) as [row |]; apply lookup_insert_ne; congruence.
Qed.

(** X8.  With PostgreSQL in use and both statements succeeding, a save
    can be read back: the user's record then carries the new username and,
    under the saved network, the saved wallet and verdict; a read whose
    query fails answers like a missing record; and the record of every
    other user reads as before. *)
Theorem postgres_save_then_read (db : PostgreSQLDatabase.database)
    (user name wallet : string) (result : verificationResult)
    (network : string) (t : clock) :
  PostgreSQLDatabase.useJSON db = false ->
  let saved :=
    PostgreSQLDatabase.saveVerification db user name wallet result network t
      true true in
  let read := PostgreSQLDatabase.getVerifiedUser (snd saved) user true in
  (exists v, fst saved = Returned v
             /\ nv_walletAddress v = wallet /\ nv_verificationResult v = result
             /\ nv_network v = network)
  /\ (exists r, read = Some r /\ username r = name)
  /\ PostgreSQLDatabase.hasNetworkVerification read network = verified result
  /\ PostgreSQLDatabase.getNetworkWallet read network
     = (if JS.truthy (Some wallet) then Some wallet else None)
  /\ PostgreSQLDatabase.getVerifiedUser (snd saved) user false = None
  /\ forall other reads, other <> user ->
       PostgreSQLDatabase.getVerifiedUser (snd saved) other reads
       = PostgreSQLDatabase.getVerifiedUser db other reads.
Proof.
  intros Hmode saved read. subst read saved.
  unfold PostgreSQLDatabase.saveVerification. rewrite Hmode. simpl.
  unfold PostgreSQLDatabase.getVerifiedUser. simpl. rewrite Hmode.
  destruct (upsertUser_lookup (PostgreSQLDatabase.verified_users db) user name
              (at_creation t)) as (row & Hrow & Hname).
  rewrite Hrow.
  assert (Hentry :
    map_imap
      (fun network0 r =>
         Some {| nv_walletAddress := PostgreSQLDatabase.wallet_address r;
                 verifiedAt := PostgreSQLDatabase.verified_at r;
                 nv_verificationResult := PostgreSQLDatabase.verification_result r;
                 nv_network := network0 |})
      (PostgreSQLDatabase.rowsOf
         (PostgreSQLDatabase.upsertVerification
            (PostgreSQLDatabase.user_verifications db) user network wallet result
            (at_verification t)) user) !! network
    = Some {| nv_walletAddress := wallet; verifiedAt := at_verification t;
              nv_verificationResult := result; nv_network := network |}).
  { rewrite map_lookup_imap.
    unfold PostgreSQLDatabase.upsertVerification, PostgreSQLDatabase.rowsOf at 1.
    rewrite lookup_insert_eq. simpl. rewrite lookup_insert_eq. reflexivity. }
  split; [eexists; repeat split; reflexivity |].
  split; [eexists; split; [reflexivity | exact Hname] |].
  unfold PostgreSQLDatabase.hasNetworkVerification,
    PostgreSQLDatabase.getNetworkWallet. simpl verifications.
  rewrite Hentry. simpl.
  split; [reflexivity |]. split; [reflexivity |]. split; [reflexivity |].
  intros other reads Hne. destruct reads; [| reflexivity]. simpl.
  rewrite (upsertUser_other _ user name _ other Hne).
  destruct (PostgreSQLDatabase.verified_users db !! other) as [row' |];
    [| reflexivity].
  unfold PostgreSQLDatabase.upsertVerification, PostgreSQLDatabase.rowsOf.
  rewrite lookup_insert_ne by congruence. reflexivity.
Qed.

Lemma postgres_save_then_read_witness :
  PostgreSQLDatabase.hasNetworkVerification
    (PostgreSQLDatabase.getVerifiedUser Examples.monadVerifiedPG "42" true)
    "monad_testnet"
  = true.
Proof.
  exact (proj1 (proj2 (proj2
    (postgres_save_then_read (Bot.emptyStore false) "42" "alice" Examples.userWallet
       (Examples.verifiedResult "monad_testnet" Examples.userWallet)
       "monad_testnet" Examples.sampleClock eq_refl)))).
Defined.

(** X9.  A failing statement.  With PostgreSQL in use, a save one of
    whose statements fails records nothing in the verification table.  If
    the JSON fallback was never loaded (the object was built with a
    database URL and its tables were created), the save throws.  If it was
    loaded, the save reports success and the entry goes to the fallback
    data, where the reads of this mode do not look: what is read back for
    that network afterwards is only what the table held before. *)
Theorem failing_statement_is_not_recorded (db : PostgreSQLDatabase.database)
    (user name wallet : string) (result : verificationResult)
    (network : string) (t : clock) (userQuery verificationQuery : bool) :
  PostgreSQLDatabase.useJSON db = false ->
  userQuery && verificationQuery = false ->
  let saved :=
    PostgreSQLDatabase.saveVerification db user name wallet result network t
      userQuery verificationQuery in
  PostgreSQLDatabase.user_verifications (snd saved)
  = PostgreSQLDatabase.user_verifications db
  /\ (PostgreSQLDatabase.jsonData db = None -> fst saved = Thrown)
  /\ (forall data, PostgreSQLDatabase.jsonData db = Some data ->
        exists v data',
          fst saved = Returned v
          /\ PostgreSQLDatabase.jsonData (snd saved) = Some data'
          /\ VerificationDatabase.hasNetworkVerification data' user network
             = verified result)
  /\ (forall reads,
        PostgreSQLDatabase.hasNetworkVerification
          (PostgreSQLDatabase.getVerifiedUser (snd saved) user reads) network = true ->
        exists row,
          PostgreSQLDatabase.rowsOf (PostgreSQLDatabase.user_verifications db) user
            !! network = Some row
          /\ verified (PostgreSQLDatabase.verification_result row) = true).
Proof.
  intros Hmode Hfails saved.
  assert (Hsaved : exists db0,
    saved = PostgreSQLDatabase.saveVerificationJSON db0 user name wallet result
              network t
    /\ PostgreSQLDatabase.useJSON db0 = false
    /\ PostgreSQLDatabase.user_verifications db0
       = PostgreSQLDatabase.user_verifications db
    /\ PostgreSQLDatabase.jsonData db0 = PostgreSQLDatabase.jsonData db).
  { subst saved. unfold PostgreSQLDatabase.saveVerification. rewrite Hmode.
    destruct userQuery; simpl negb; cbv iota.
    - destruct verificationQuery; [discriminate Hfails |]. simpl negb. cbv iota.
      eexists. split; [reflexivity |]. split; [reflexivity |]. split; reflexivity.
    - exists db. split; [reflexivity |]. split; [exact Hmode |]. split; reflexivity. }
  destruct Hsaved as (db0 & -> & Hmode0 & Hrows0 & Hjson0).
  unfold PostgreSQLDatabase.saveVerificationJSON. rewrite Hjson0.
  destruct (PostgreSQLDatabase.jsonData db) as [data |] eqn:Hdata.
  - pose proof (saveJSON_verdict data user name wallet result network t) as Hread.
    destruct (saveJSON data user name wallet result network t) as [v data'] eqn:Hs.
    simpl in Hread. simpl.
    split; [exact Hrows0 |]. split; [discriminate |].
    split; [intros data0 _; exists v, data'; repeat split; exact Hread |].
    intros reads. unfold PostgreSQLDatabase.getVerifiedUser. simpl. rewrite Hmode0.
    destruct reads; [| discriminate]. simpl.
    destruct (PostgreSQLDatabase.verified_users db0 !! user) as [row |];
      [| discriminate].
    unfold PostgreSQLDatabase.hasNetworkVerification. simpl verifications.
    rewrite map_lookup_imap, Hrows0.
    destruct (PostgreSQLDatabase.rowsOf (PostgreSQLDatabase.user_verifications db) user
                !! network) as [raw |]; [| discriminate].
    simpl. intros Hv. exists raw. split; [reflexivity | exact Hv].
  - simpl. split; [exact Hrows0 |]. split; [reflexivity |].
    split; [discriminate |].
    intros reads. unfold PostgreSQLDatabase.getVerifiedUser. rewrite Hmode0.
    destruct reads; [| discriminate]. simpl.
    destruct (PostgreSQLDatabase.verified_users db0 !! user) as [row |];
      [| discriminate].
    unfold PostgreSQLDatabase.hasNetworkVerification. simpl verifications.
    rewrite map_lookup_imap, Hrows0.
    destruct (PostgreSQLDatabase.rowsOf (PostgreSQLDatabase.user_verifications db) user
                !! network) as [raw |]; [| discriminate].
    simpl. intros Hv. exists raw. split; [reflexivity | exact Hv].
Qed.

Lemma failing_statement_is_not_recorded_witness :
  fst (PostgreSQLDatabase.saveVerification (Bot.emptyStore false) "42" "alice"
         Examples.userWallet
         (Examples.verifiedResult "monad_testnet" Examples.userWallet)
         "monad_testnet" Examples.sampleClock true false)
  = Thrown.
Proof.
  exact (proj1 (proj2
    (failing_statement_is_not_recorded (Bot.emptyStore false) "42" "alice"
       Examples.userWallet
       (Examples.verifiedResult "monad_testnet" Examples.userWallet)
       "monad_testnet" Examples.sampleClock true false eq_refl eq_refl)) eq_refl).
Defined.

End StoreProperties.

(* ===================================================================== *)
(** * Further properties of the ownership verifiers                       *)
(* ===================================================================== *)

Module OwnershipProperties.

Import JS Ownership.

(** X10.  The three verifiers decide alike.  Given the same
    configuration and the same reply of the holdings API, the Arbitrum,
    Bera and Monad verifiers return the same verdict, the same error and
    the same counts; their results differ in the network they name (and
    in the collection name they show). *)
Theorem verifiers_decide_alike (cfg : config) (api : holdingsApi)
    (now wallet : string) :
  let a := ArbitrumNFTVerifier.verifyNFTOwnership cfg api now wallet in
  let b := BeraVerifier.verifyNFTOwnership cfg api now wallet in
  let m := MonadNFTVerifier.verifyNFTOwnership cfg api now wallet in
  (verified a = verified m /\ verified b = verified m)
  /\ (error a = error m /\ error b = error m)
  /\ (totalNFTs a = totalNFTs m /\ totalNFTs b = totalNFTs m)
  /\ (ownedNFTs a = ownedNFTs m /\ ownedNFTs b = ownedNFTs m)
  /\ (collectionNFTs a = collectionNFTs m /\ collectionNFTs b = collectionNFTs m)
  /\ (minRequired a = minRequired m /\ minRequired b = minRequired m)
  /\ network a = "arbitrum"%string /\ network b = "berachain"%string
  /\ network m = "monad_testnet"%string.
Proof.
  unfold ArbitrumNFTVerifier.verifyNFTOwnership, BeraVerifier.verifyNFTOwnership,
    MonadNFTVerifier.verifyNFTOwnership.
  destruct (api wallet) as [| data]; [simpl; repeat split |].
  destruct (truthy (cfg_requiredCollection cfg)); simpl; repeat split.
Qed.

Lemma lower_char_idem (c : ascii) : lower_char (lower_char c) = lower_char c.
Proof.
  destruct c as [[] [] [] [] [] [] [] []]; reflexivity.
Qed.

Lemma toLowerCase_idem (s : string) : toLowerCase (toLowerCase s) = toLowerCase s.
Proof.
  induction s as [| c s IH]; simpl; [reflexivity |].
  rewrite lower_char_idem, IH. reflexivity.
Qed.

Lemma truthy_toLowerCase (s t : string) :
  toLowerCase s = toLowerCase t -> truthy (Some s) = truthy (Some t).
Proof. destruct s, t; simpl; try reflexivity; discriminate. Qed.

(** X11.  The configured collection address is compared without regard
    to case.  Two configurations whose required addresses differ only in
    the case of their letters give the same verdict, the same count of
    collection NFTs and the same details, with each of the verifiers. *)
Theorem collection_address_ignores_case (cfg1 cfg2 : config)
    (required1 required2 : string) (api : holdingsApi) (now wallet : string) :
  cfg_requiredCollection cfg1 = Some required1 ->
  cfg_requiredCollection cfg2 = Some required2 ->
  cfg_minNftCount cfg1 = cfg_minNftCount cfg2 ->
  toLowerCase required1 = toLowerCase required2 ->
  let same (verify : config -> holdingsApi -> string -> string -> verificationResult) :=
    verified (verify cfg1 api now wallet) = verified (verify cfg2 api now wallet)
    /\ collectionNFTs (verify cfg1 api now wallet)
       = collectionNFTs (verify cfg2 api now wallet)
    /\ result_details (verify cfg1 api now wallet)
       = result_details (verify cfg2 api now wallet) in
  same MonadNFTVerifier.verifyNFTOwnership
  /\ same ArbitrumNFTVerifier.verifyNFTOwnership
  /\ same BeraVerifier.verifyNFTOwnership.
Proof.
  intros H1 H2 Hmin Hcase same. subst same. cbv beta.
  pose proof (truthy_toLowerCase _ _ Hcase) as Htruthy.
  assert (Hfilter : forall owned,
    fromCollection required1 owned = fromCollection required2 owned).
  { intros owned. unfold fromCollection. rewrite Hcase. reflexivity. }
  unfold MonadNFTVerifier.verifyNFTOwnership,
    ArbitrumNFTVerifier.verifyNFTOwnership, BeraVerifier.verifyNFTOwnership.
  rewrite H1, H2. simpl default.
  destruct (api wallet) as [| data]; [repeat split |].
  rewrite Htruthy, !Hfilter.
  destruct (truthy (Some required2)); simpl; rewrite ?Hmin; repeat split.
Qed.

Lemma collection_address_ignores_case_witness :
  verified
    (MonadNFTVerifier.verifyNFTOwnership
       {| cfg_requiredCollection := Some "0xABCDEF0000000000000000000000000000000001"%string;
          cfg_minNftCount := Num 1 |}
       Examples.noHoldings "now" Examples.userWallet)
  = verified
      (MonadNFTVerifier.verifyNFTOwnership
         {| cfg_requiredCollection := Some "0xabcdef0000000000000000000000000000000001"%string;
            cfg_minNftCount := Num 1 |}
         Examples.noHoldings "now" Examples.userWallet).
Proof.
  exact (proj1 (proj1
    (collection_address_ignores_case
       {| cfg_requiredCollection := Some "0xABCDEF0000000000000000000000000000000001"%string;
          cfg_minNftCount := Num 1 |}
       {| cfg_requiredCollection := Some "0xabcdef0000000000000000000000000000000001"%string;
          cfg_minNftCount := Num 1 |}
       _ _ Examples.noHoldings "now" Examples.userWallet
       eq_refl eq_refl eq_refl eq_refl))).
Defined.

(** ** Staking *)

Section Staking.

Import MonadNFTVerifier.

Variable net : contractRpc.
Variable cfg : config.
Variable env : stakingEnv.
Variable api : holdingsApi.
Variable now : string.

Lemma count_gt_0 {A : Type} (l : list A) :
  num_gt (count l) (Num 0) = true <-> l <> [].
Proof.
  destruct l as [| x l]; simpl.
  - split; [discriminate | congruence].
  - split; [discriminate | reflexivity].
Qed.

(** X12.  What a verified result means.  [verifyNFTOwnershipWithStaking]
    returns a verified result exactly when the direct check is verified,
    or at least one staking contract is configured and the staked total is
    positive and reaches the minimum; the method tag tells which of the
    two it was.  In particular a failure of the holdings API does not
    keep a wallet from being verified through its staked NFTs. *)
Theorem verified_means_owned_or_staked (wallet : string) :
  let direct := MonadNFTVerifier.verifyNFTOwnership cfg api now wallet in
  let contracts := getStakingContracts env in
  let total := totalStakedCount (checkAll net wallet contracts) in
  let r := verifyNFTOwnershipWithStaking net cfg env api now wallet in
  (verified r = true <->
     verified direct = true
     \/ (contracts <> [] /\ num_gt total (Num 0) = true
         /\ num_ge total (cfg_minNftCount cfg) = true))
  /\ (verified r = true ->
      verificationMethod r
      = Some (if verified direct then "direct_ownership"%string
              else "staking_direct_query_multi"%string)).
Proof.
  intros direct contracts total r. subst r.
  unfold verifyNFTOwnershipWithStaking, withStaking_body.
  fold direct. fold contracts. fold total.
  destruct (verified direct) eqn:Hdirect.
  - cbn [verified verificationMethod]. rewrite ?Hdirect.
    split; [split; [intros _; left |]; reflexivity | reflexivity].
  - destruct (num_gt (count contracts) (Num 0)) eqn:Hcount.
    + pose proof (proj1 (count_gt_0 contracts) Hcount) as Hne.
      destruct (num_gt total (Num 0)) eqn:Htotal; cbn [andb].
      * destruct (num_ge total (cfg_minNftCount cfg)) eqn:Hmin;
          cbn [verified verificationMethod].
        -- split; [| reflexivity].
           split; [intros _; right; repeat split; assumption | reflexivity].
        -- split; [| discriminate].
           split; [discriminate |].
           intros [H | (_ & _ & H)]; discriminate H.
      * destruct (result_details direct) as [d |];
          cbn [verified verificationMethod]; rewrite ?Hdirect.
        -- split; [| discriminate].
           split; [discriminate |].
           intros [H | (_ & H & _)]; discriminate H.
        -- split; [| discriminate].
           split; [discriminate |].
           intros [H | (_ & H & _)]; discriminate H.
    + cbn [andb verified verificationMethod]. rewrite ?Hdirect.
      split; [| discriminate].
      split; [discriminate |].
      intros [H | (Hne & _ & _)]; [discriminate H |].
      apply count_gt_0 in Hne. congruence.
Qed.

(** X13.  A wallet that passes the direct check is not looked up in the
    staking contracts: the result is the direct result tagged
    ['direct_ownership'], whatever the staking endpoint would answer and
    whichever staking contracts are configured. *)
Theorem direct_ownership_needs_no_staking (wallet : string)
    (net' : contractRpc) (env' : stakingEnv) :
  verified (MonadNFTVerifier.verifyNFTOwnership cfg api now wallet) = true ->
  verifyNFTOwnershipWithStaking net cfg env api now wallet
  = verifyNFTOwnershipWithStaking net' cfg env' api now wallet
  /\ verificationMethod (verifyNFTOwnershipWithStaking net cfg env api now wallet)
     = Some "direct_ownership"%string
  /\ result_details (verifyNFTOwnershipWithStaking net cfg env api now wallet)
     = result_details (MonadNFTVerifier.verifyNFTOwnership cfg api now wallet).
Proof.
  intros Hdirect. unfold verifyNFTOwnershipWithStaking, withStaking_body.
  rewrite Hdirect. repeat split.
Qed.

End Staking.

Lemma direct_ownership_needs_no_staking_witness :
  verificationMethod
    (MonadNFTVerifier.verifyNFTOwnershipWithStaking
       (Examples.stakingContractAnswering Examples.wordThree) (Examples.requiring 1)
       Examples.oneStakingContract Examples.oneHolding "now" Examples.userWallet)
  = Some "direct_ownership"%string.
Proof.
  exact (proj1 (proj2
    (direct_ownership_needs_no_staking
       (Examples.stakingContractAnswering Examples.wordThree) (Examples.requiring 1)
       Examples.oneStakingContract Examples.oneHolding "now" Examples.userWallet
       (Examples.stakingContractAnswering Examples.wordZero)
       Examples.sameContractTwice eq_refl))).
Defined.

(** ** The staking contracts and their replies *)

Section Contracts.

Import MonadNFTVerifier.

(** The test [getStakingContracts] applies to an address. *)
Local Abbreviation wellFormed :=
  (fun addr : string =>
     truthy (Some addr) && Nat.eqb (String.length addr) 42 && String.prefix "0x" addr).

(** X14.  The configured staking contracts.  [getStakingContracts]
    returns at most two addresses, each taken from one of the two
    environment variables, each 42 characters long and starting with
    [0x]; when both variables hold such an address it returns the two in
    order, also when they are the same address. *)
Theorem staking_contracts_are_addresses (env : stakingEnv) :
  let contracts := getStakingContracts env in
  Forall (fun a => String.length a = 42%nat /\ String.prefix "0x" a = true) contracts
  /\ (List.length contracts <= 2)%nat
  /\ (forall a, In a contracts ->
        STAKING_CONTRACT_ADDRESS env = Some a
        \/ STAKING_CONTRACT_ADDRESS_2 env = Some a)
  /\ (forall a b,
        STAKING_CONTRACT_ADDRESS env = Some a ->
        STAKING_CONTRACT_ADDRESS_2 env = Some b ->
        wellFormed a = true -> wellFormed b = true ->
        contracts = [a; b]).
Proof.
  intros contracts. subst contracts. unfold getStakingContracts.
  set (first := if truthy (STAKING_CONTRACT_ADDRESS env)
                then [default ""%string (STAKING_CONTRACT_ADDRESS env)] else []).
  set (second := if truthy (STAKING_CONTRACT_ADDRESS_2 env)
                 then [default ""%string (STAKING_CONTRACT_ADDRESS_2 env)] else []).
  assert (Hfirst : forall a, In a first -> STAKING_CONTRACT_ADDRESS env = Some a).
  { subst first. intros a. destruct (STAKING_CONTRACT_ADDRESS env) as [x |]; simpl.
    - destruct x as [| c x']; simpl; [intros [] | intros [<- | []]; reflexivity].
    - intros []. }
  assert (Hsecond : forall a, In a second -> STAKING_CONTRACT_ADDRESS_2 env = Some a).
  { subst second. intros a. destruct (STAKING_CONTRACT_ADDRESS_2 env) as [x |]; simpl.
    - destruct x as [| c x']; simpl; [intros [] | intros [<- | []]; reflexivity].
    - intros []. }
  split; [| split; [| split]].
  - apply List.Forall_forall. intros a Ha. apply List.filter_In in Ha.
    destruct Ha as [_ Hwf]. apply andb_prop in Hwf. destruct Hwf as [Hwf Hprefix].
    apply andb_prop in Hwf. destruct Hwf as [_ Hlen]. apply Nat.eqb_eq in Hlen.
    split; assumption.
  - eapply Nat.le_trans; [apply List.filter_length_le |].
    rewrite List.length_app. subst first second.
    destruct (truthy (STAKING_CONTRACT_ADDRESS env)),
      (truthy (STAKING_CONTRACT_ADDRESS_2 env)); simpl; lia.
  - intros a Ha. apply List.filter_In in Ha. destruct Ha as [Ha _].
    apply List.in_app_or in Ha. destruct Ha as [Ha | Ha]; [left | right]; auto.
  - intros a b Ha Hb Hwa Hwb. subst first second. rewrite Ha, Hb. simpl default.
    assert (Hta : truthy (Some a) = true).
    { apply andb_prop in Hwa. destruct Hwa as [Hwa _].
      apply andb_prop in Hwa. destruct Hwa as [Hwa _]. exact Hwa. }
    assert (Htb : truthy (Some b) = true).
    { apply andb_prop in Hwb. destruct Hwb as [Hwb _].
      apply andb_prop in Hwb. destruct Hwb as [Hwb _]. exact Hwb. }
    rewrite Hta, Htb. cbn [app List.filter]. cbv beta in Hwa, Hwb.
    rewrite Hwa, Hwb. reflexivity.
Qed.

End Contracts.

Section Counting.

Import MonadNFTVerifier.

Variable net : contractRpc.

Lemma check_count (wallet contractAddress : string) (c : number) :
  stakedCount (checkStakedNFTsDirectly net wallet contractAddress) = Some c ->
  hasStakedNFTs (checkStakedNFTsDirectly net wallet contractAddress)
  = num_gt c (Num 0).
Proof.
  unfold checkStakedNFTsDirectly.
  destruct (eth_getCode net contractAddress) as [| code]; [discriminate |].
  destruct (usable code); [| discriminate].
  simpl. intros [= <-]. reflexivity.
Qed.

(** X15.  A contract that is configured twice is counted twice.  When
    both environment variables name the same staking contract, the staked
    total is twice the count that contract reports; a wallet that fails
    the direct check is then verified as soon as twice its staked count
    reaches the minimum. *)
Theorem same_contract_twice_counts_twice (cfg : config) (env : stakingEnv)
    (api : holdingsApi) (now wallet contractAddress : string) (c minimum : Z) :
  STAKING_CONTRACT_ADDRESS env = Some contractAddress ->
  STAKING_CONTRACT_ADDRESS_2 env = Some contractAddress ->
  String.length contractAddress = 42%nat ->
  String.prefix "0x" contractAddress = true ->
  stakedCount (checkStakedNFTsDirectly net wallet contractAddress) = Some (Num c) ->
  0 < c <= 2 ^ 52 ->
  totalStakedCount (checkAll net wallet (getStakingContracts env)) = Num (2 * c)
  /\ (verified (MonadNFTVerifier.verifyNFTOwnership cfg api now wallet) = false ->
      cfg_minNftCount cfg = Num minimum -> minimum <= 2 * c ->
      verified (verifyNFTOwnershipWithStaking net cfg env api now wallet) = true).
Proof.
  intros H1 H2 Hlen Hprefix Hcount Hc.
  assert (Hcontracts : getStakingContracts env = [contractAddress; contractAddress]).
  { unfold getStakingContracts. rewrite H1, H2. simpl default.
    assert (Ht : truthy (Some contractAddress) = true).
    { destruct contractAddress; [discriminate Hlen | reflexivity]. }
    rewrite Ht. cbn [app List.filter]. rewrite Ht, Hlen, Hprefix. reflexivity. }
  assert (Hhas : hasStakedNFTs (checkStakedNFTsDirectly net wallet contractAddress)
                 = true).
  { rewrite (check_count _ _ _ Hcount). simpl. apply Z.ltb_lt. lia. }
  assert (Htotal : totalStakedCount
                     (checkAll net wallet [contractAddress; contractAddress])
                   = Num (2 * c)).
  { unfold checkAll. simpl fold_left. unfold addContract.
    rewrite !Hhas. cbn [totalStakedCount]. rewrite Hcount. simpl default.
    simpl num_add at 2. rewrite JSFacts.number_of_Z_small by lia.
    simpl num_add. rewrite JSFacts.number_of_Z_small by lia.
    f_equal. lia. }
  rewrite Hcontracts. split; [exact Htotal |].
  intros Hdirect Hmin Hreach.
  unfold verifyNFTOwnershipWithStaking, withStaking_body.
  rewrite Hdirect, Hcontracts, Htotal, Hmin.
  replace (num_gt (Num (2 * c)) (Num 0)) with true
    by (symmetry; simpl; apply Z.ltb_lt; lia).
  replace (num_ge (Num (2 * c)) (Num minimum)) with true
    by (symmetry; simpl; apply Z.leb_le; lia).
  reflexivity.
Qed.

Lemma readTokenIds_bounded (hex : string) : forall (remaining i : nat),
  (List.length (readTokenIds hex i remaining) <= remaining)%nat
  /\ Forall (fun id => num_gt id (Num 0) = true) (readTokenIds hex i remaining).
Proof.
  induction remaining as [| r IH]; intros i; cbn [readTokenIds].
  - split; [simpl; lia | constructor].
  - destruct (IH (S i)) as [Hlen Hpos]. cbv zeta.
    set (tokenIdHex := slice (128 + i * 64) (128 + (i + 1) * 64) hex).
    set (here := if Nat.eqb (String.length tokenIdHex) 64
                 then if num_gt (parseInt16 tokenIdHex) (Num 0)
                      then [parseInt16 tokenIdHex] else []
                 else []).
    assert (Hhere : (List.length here <= 1)%nat
                    /\ Forall (fun id => num_gt id (Num 0) = true) here).
    { subst here. destruct (Nat.eqb (String.length tokenIdHex) 64).
      - destruct (num_gt (parseInt16 tokenIdHex) (Num 0)) eqn:Hid.
        + split; [simpl; lia | constructor; [exact Hid | constructor]].
        + split; [simpl; lia | constructor].
      - split; [simpl; lia | constructor]. }
    destruct Hhere as [Hlen1 Hpos1]. rewrite List.length_app.
    split; [lia | apply List.Forall_app; split; assumption].
Qed.

Lemma fetchTokenIds_bounded (contractAddress padded : string) :
  (List.length (fetchTokenIds net contractAddress padded) <= 1000)%nat
  /\ Forall (fun id => num_gt id (Num 0) = true)
       (fetchTokenIds net contractAddress padded).
Proof.
  unfold fetchTokenIds.
  destruct (eth_call net contractAddress _) as [| d]; [split; [simpl; lia | constructor] |].
  destruct (usable d) as [result |]; [| split; [simpl; lia | constructor]].
  destruct (Nat.leb 128 _); [| split; [simpl; lia | constructor]].
  destruct (parseInt16 _) as [| s | n]; try (split; [simpl; lia | constructor]).
  destruct ((0 <? n) && (n <=? 1000)) eqn:Hn; [| split; [simpl; lia | constructor]].
  apply andb_prop in Hn. destruct Hn as [Hlo Hhi].
  apply Z.ltb_lt in Hlo. apply Z.leb_le in Hhi.
  destruct (readTokenIds_bounded (slice 2 (String.length result) result)
              (Z.to_nat n) 0) as [Hlen Hpos].
  split; [lia | exact Hpos].
Qed.

(** X16.  The token ids a contract check reports.  Whatever the
    contract answers, [checkStakedNFTsDirectly] reports at most 1000
    token ids, each a positive number, and none at all unless it found a
    positive staked count. *)
Theorem staked_token_ids_bounded (wallet contractAddress : string)
    (ids : list number) :
  let r := checkStakedNFTsDirectly net wallet contractAddress in
  sr_stakedTokenIds r = Some ids ->
  (List.length ids <= 1000)%nat
  /\ Forall (fun id => num_gt id (Num 0) = true) ids
  /\ (hasStakedNFTs r = false -> ids = []).
Proof.
  intros r. subst r. unfold checkStakedNFTsDirectly.
  destruct (eth_getCode net contractAddress) as [| code]; [discriminate |].
  destruct (usable code); [| discriminate].
  cbn [sr_stakedTokenIds hasStakedNFTs].
  destruct (num_gt _ (Num 0)).
  - intros [= <-].
    destruct (fetchTokenIds_bounded contractAddress (paddedAddress wallet))
      as [Hlen Hpos].
    split; [exact Hlen |]. split; [exact Hpos | discriminate].
  - intros [= <-]. split; [simpl; lia |]. split; [constructor | reflexivity].
Qed.

End Counting.

Lemma same_contract_twice_counts_twice_witness :
  verified
    (MonadNFTVerifier.verifyNFTOwnershipWithStaking
       (Examples.stakingContractAnswering Examples.wordThree) (Examples.requiring 5)
       Examples.sameContractTwice Examples.noHoldings "now" Examples.userWallet)
  = true.
Proof.
  exact (proj2
    (same_contract_twice_counts_twice
       (Examples.stakingContractAnswering Examples.wordThree) (Examples.requiring 5)
       Examples.sameContractTwice Examples.noHoldings "now" Examples.userWallet
       Examples.stakingAddress 3 5 eq_refl eq_refl eq_refl eq_refl eq_refl
       ltac:(split; [reflexivity | vm_compute; discriminate]))
    eq_refl eq_refl ltac:(vm_compute; discriminate)).
Defined.

Lemma staked_token_ids_bounded_witness :
  (List.length [Num 5; Num 9] <= 1000)%nat
  /\ Forall (fun id => num_gt id (Num 0) = true) [Num 5; Num 9].
Proof.
  destruct (staked_token_ids_bounded Examples.stakingContractHolding
              Examples.userWallet Examples.stakingAddress [Num 5; Num 9]
              ltac:(vm_compute; reflexivity)) as (Hlen & Hpos & _).
  split; [exact Hlen | exact Hpos].
Defined.

End OwnershipProperties.

(* ===================================================================== *)
(** * Further properties of the transaction scanner                       *)
(* ===================================================================== *)

Module ScannerProperties.

Import JS Scanner.

Section Scan.

Variables fromAddress toAddress exactAmount : string.
Variable net : rpc.

Local Abbreviation scan := (Scanner.scan fromAddress toAddress exactAmount net).
Local Abbreviation check :=
  (Scanner.checkVerificationTransaction fromAddress toAddress exactAmount net).
Local Abbreviation block_confirms :=
  (Scanner.block_confirms fromAddress toAddress exactAmount).
Local Abbreviation tx_confirms :=
  (Scanner.tx_confirms fromAddress toAddress exactAmount).

Lemma scan_true (fuel : nat) : forall (blockNum startBlock : number),
  scan fuel blockNum startBlock = Some (Returned true) ->
  exists n blk,
    num_ge n startBlock = true
    /\ eth_getBlockByNumber net n = Resolved blk
    /\ block_confirms blk = true.
Proof.
  induction fuel as [| fuel IH]; intros blockNum startBlock; simpl; [discriminate |].
  destruct (num_ge blockNum startBlock) eqn:Hge; [| discriminate].
  destruct (eth_getBlockByNumber net blockNum) as [| blk] eqn:Hblk; [discriminate |].
  destruct (block_confirms blk) eqn:Hconf.
  - intros _. exists blockNum, blk. repeat split; assumption.
  - apply IH.
Qed.

(** X17.  A confirmation is backed by a transaction.  Whatever the
    chain head and however long the scan runs, [checkVerificationTransaction]
    returns [true] only if the endpoint answered one of the block
    requests, for a block at or above the start of the window, with a
    block that holds a transaction to [toAddress] from [fromAddress]
    (compared without regard to case) whose value, read by [parseInt] and
    printed, is the text [exactAmount]. *)
Theorem confirmation_is_backed_by_a_transaction (fuel : nat) :
  check fuel = Some true ->
  exists hex n blk txs tx,
    eth_blockNumber net = Resolved hex
    /\ num_ge n (Math_max (Num 0) (num_sub (parseInt16_opt hex) (Num 1000))) = true
    /\ eth_getBlockByNumber net n = Resolved (Some blk)
    /\ transactions blk = Some txs /\ In tx txs
    /\ toLowerCase (default ""%string (tx_to tx)) = toLowerCase toAddress
    /\ toLowerCase (default ""%string (tx_from tx)) = toLowerCase fromAddress
    /\ txValue tx = exactAmount.
Proof.
  unfold Scanner.checkVerificationTransaction, Scanner.scan_body.
  destruct (eth_blockNumber net) as [| hex] eqn:Hhead; [discriminate |].
  cbv zeta.
  destruct (scan fuel _ _) as [[[] |] |] eqn:Hscan; try discriminate.
  intros _. apply scan_true in Hscan.
  destruct Hscan as (n & b & Hge & Hblk & Hconf).
  unfold Scanner.block_confirms in Hconf.
  destruct b as [blk |]; [| discriminate Hconf].
  destruct (transactions blk) as [txs |] eqn:Htxs; [| discriminate Hconf].
  apply List.existsb_exists in Hconf. destruct Hconf as (tx & Hin & Htx).
  unfold Scanner.tx_confirms in Htx.
  destruct (addresses_match fromAddress toAddress tx) eqn:Hmatch;
    [| discriminate Htx].
  unfold addresses_match in Hmatch.
  apply andb_prop in Hmatch. destruct Hmatch as [Hmatch Hfrom].
  apply andb_prop in Hmatch. destruct Hmatch as [_ Hto].
  apply String.eqb_eq in Hfrom, Hto, Htx.
  exists hex, n, blk, txs, tx. repeat split; assumption.
Qed.

(** X18.  A head the scanner cannot read.  When the reply to
    [eth_blockNumber] carries no result, or one that [parseInt] reads as
    [NaN], the loop is not entered: the function returns [false] at once,
    whatever the blocks hold. *)
Theorem unreadable_head_scans_nothing (hex : option string) (fuel : nat) :
  eth_blockNumber net = Resolved hex ->
  parseInt16_opt hex = NaN ->
  check (S fuel) = Some false.
Proof.
  intros Hhead Hnan.
  unfold Scanner.checkVerificationTransaction, Scanner.scan_body.
  rewrite Hhead, Hnan. reflexivity.
Qed.

(** X19.  The scan is bounded.  From a head up to 2^53 the function
    returns after at most 1001 block requests: every bound above that
    gives a result, and the same one. *)
Theorem scan_ends_within_the_window (head : Z) (fuel fuel' : nat) :
  head_is net head -> (1001 < fuel)%nat -> (1001 < fuel')%nat ->
  exists b, check fuel = Some b /\ check fuel' = Some b.
Proof.
  intros Hhead Hfuel Hfuel'.
  unfold Scanner.checkVerificationTransaction.
  rewrite (ScannerFacts.check_window fromAddress toAddress exactAmount net head fuel
             Hhead Hfuel).
  rewrite (ScannerFacts.check_window fromAddress toAddress exactAmount net head fuel'
             Hhead Hfuel').
  destruct (scan_range fromAddress toAddress exactAmount net _ head) as [b |];
    eexists; split; reflexivity.
Qed.

(** X20.  A head from which the loop cannot step down.  [blockNum--]
    is a floating-point subtraction; at a head that absorbs it (the
    nearest Number to [head - 1] is [head] again, as for 2^54), and that
    is not below the start of its own window as Number arithmetic
    computes it, the loop asks for the same block over and over: if that
    block is answered and holds no confirming transaction, the function
    returns within no bound. *)
Theorem scan_does_not_end_above_2_53 (hex : option string) (head : Z)
    (b : option block) (fuel : nat) :
  eth_blockNumber net = Resolved hex ->
  parseInt16_opt hex = Num head ->
  number_of_Z (head - 1) = Num head ->
  num_ge (Num head) (Math_max (Num 0) (num_sub (Num head) (Num 1000))) = true ->
  eth_getBlockByNumber net (Num head) = Resolved b ->
  block_confirms b = false ->
  check fuel = None.
Proof.
  intros Hhead Hparse Habsorbed Hge Hblk Hconf.
  unfold Scanner.checkVerificationTransaction, Scanner.scan_body.
  rewrite Hhead, Hparse. cbv zeta.
  rewrite (ScannerFacts.scan_stalls fromAddress toAddress exactAmount net
             head _ b fuel Habsorbed Hge Hblk Hconf).
  reflexivity.
Qed.

End Scan.

Lemma block_confirms_ignores_case (from1 from2 to1 to2 amount : string)
    (b : option block) :
  toLowerCase from1 = toLowerCase from2 ->
  toLowerCase to1 = toLowerCase to2 ->
  Scanner.block_confirms from1 to1 amount b = Scanner.block_confirms from2 to2 amount b.
Proof.
  intros Hfrom Hto. unfold Scanner.block_confirms.
  destruct b as [blk |]; [| reflexivity].
  destruct (transactions blk) as [txs |]; [| reflexivity].
  induction txs as [| tx txs IH]; simpl; [reflexivity |].
  rewrite IH. f_equal.
  unfold Scanner.tx_confirms, addresses_match. rewrite Hfrom, Hto. reflexivity.
Qed.

(** X21.  The two addresses are compared without regard to case: the
    scan gives the same answer for addresses that differ only in the case
    of their letters. *)
Theorem addresses_ignore_case (from1 from2 to1 to2 amount : string)
    (net : rpc) (fuel : nat) :
  toLowerCase from1 = toLowerCase from2 ->
  toLowerCase to1 = toLowerCase to2 ->
  checkVerificationTransaction from1 to1 amount net fuel
  = checkVerificationTransaction from2 to2 amount net fuel.
Proof.
  intros Hfrom Hto.
  unfold checkVerificationTransaction, scan_body.
  destruct (eth_blockNumber net) as [| hex]; [reflexivity |]. cbv zeta.
  assert (Hscan : forall blockNum startBlock,
    scan from1 to1 amount net fuel blockNum startBlock
    = scan from2 to2 amount net fuel blockNum startBlock).
  { induction fuel as [| fuel IH]; intros blockNum startBlock; simpl; [reflexivity |].
    destruct (num_ge blockNum startBlock); [| reflexivity].
    destruct (eth_getBlockByNumber net blockNum) as [| b]; [reflexivity |].
    rewrite (block_confirms_ignores_case from1 from2 to1 to2 amount b Hfrom Hto).
    destruct (Scanner.block_confirms from2 to2 amount b); [reflexivity | apply IH]. }
  rewrite Hscan. reflexivity.
Qed.

Lemma confirmation_is_backed_by_a_transaction_witness :
  exists hex n blk txs tx,
    eth_blockNumber (Examples.chain "0x7d0" 1990 [Examples.transferOf "0x5f5e100"])
    = Resolved hex
    /\ num_ge n (Math_max (Num 0) (num_sub (parseInt16_opt hex) (Num 1000))) = true
    /\ eth_getBlockByNumber
         (Examples.chain "0x7d0" 1990 [Examples.transferOf "0x5f5e100"]) n
       = Resolved (Some blk)
    /\ transactions blk = Some txs /\ In tx txs
    /\ toLowerCase (default ""%string (tx_to tx)) = toLowerCase Examples.botWallet
    /\ toLowerCase (default ""%string (tx_from tx)) = toLowerCase Examples.userWallet
    /\ txValue tx = "100000000"%string.
Proof.
  exact (confirmation_is_backed_by_a_transaction
           Examples.userWallet Examples.botWallet "100000000"
           (Examples.chain "0x7d0" 1990 [Examples.transferOf "0x5f5e100"]) 1002
           ltac:(vm_compute; reflexivity)).
Defined.

Lemma unreadable_head_scans_nothing_witness :
  checkVerificationTransaction Examples.userWallet Examples.botWallet "100000000"
    {| eth_blockNumber := Resolved None;
       eth_getBlockByNumber := fun _ => Rejected |} 1
  = Some false.
Proof.
  exact (unreadable_head_scans_nothing
           Examples.userWallet Examples.botWallet "100000000"
           {| eth_blockNumber := Resolved None;
              eth_getBlockByNumber := fun _ => Rejected |}
           None 0 eq_refl eq_refl).
Defined.

Lemma scan_ends_within_the_window_witness :
  exists b,
    checkVerificationTransaction Examples.userWallet Examples.botWallet "100000000"
      (Examples.chain "0x7d0" 1990 []) 1002 = Some b
    /\ checkVerificationTransaction Examples.userWallet Examples.botWallet "100000000"
         (Examples.chain "0x7d0" 1990 []) 5000 = Some b.
Proof.
  refine (scan_ends_within_the_window
            Examples.userWallet Examples.botWallet "100000000"
            (Examples.chain "0x7d0" 1990 []) 2000 1002 5000 _ _ _).
  - exists (Some "0x7d0"%string).
    split; [reflexivity |]. split; [reflexivity |].
    split; [discriminate | vm_compute; discriminate].
  - apply Nat.ltb_lt. reflexivity.
  - apply Nat.ltb_lt. vm_compute. reflexivity.
Defined.

Lemma scan_does_not_end_above_2_53_witness :
  checkVerificationTransaction Examples.userWallet Examples.botWallet "100000000"
    (Examples.chain "0x40000000000000" 0 []) 4000
  = None.
Proof.
  exact (scan_does_not_end_above_2_53
           Examples.userWallet Examples.botWallet "100000000"
           (Examples.chain "0x40000000000000" 0 [])
           (Some "0x40000000000000"%string) (2 ^ 54)
           (Some {| transactions := Some [] |}) 4000
           eq_refl ltac:(vm_compute; reflexivity) ltac:(vm_compute; reflexivity)
           ltac:(vm_compute; reflexivity) ltac:(vm_compute; reflexivity)
           eq_refl).
Defined.

Lemma addresses_ignore_case_witness :
  checkVerificationTransaction Examples.userWallet Examples.botWallet "100000000"
    (Examples.chain "0x7d0" 1990 [Examples.transferOf "0x5f5e100"]) 1002
  = checkVerificationTransaction
      "0xabcdef0123456789abcdef0123456789abcdef01"
      "0x00000000000000000000000000000000000b07b0" "100000000"
      (Examples.chain "0x7d0" 1990 [Examples.transferOf "0x5f5e100"]) 1002.
Proof.
  exact (addresses_ignore_case
           Examples.userWallet "0xabcdef0123456789abcdef0123456789abcdef01"
           Examples.botWallet "0x00000000000000000000000000000000000b07b0"
           "100000000"
           (Examples.chain "0x7d0" 1990 [Examples.transferOf "0x5f5e100"]) 1002
           ltac:(vm_compute; reflexivity) ltac:(vm_compute; reflexivity)).
Defined.

End ScannerProperties.

(* ===================================================================== *)
(** * Further properties of the interaction handlers                      *)
(* ===================================================================== *)

Module BotProperties.

Import JS Amount Ownership Store Bot.
Import PostgreSQLDatabase.

(** ** The challenge records *)

Local Abbreviation userOf :=
  (fun entry : string * verificationCode => code_userId (snd entry)).

Lemma findCode_None (cs : codes) (user : string) :
  findCode cs user = None <-> ~ In user (map userOf cs).
Proof.
  unfold findCode. induction cs as [| [k v] rest IH]; simpl.
  - split; [intros _ [] | reflexivity].
  - destruct (String.eqb_spec (code_userId v) user) as [Heq | Hne].
    + split; [discriminate | intros H; exfalso; apply H; left; exact Heq].
    + rewrite IH. split; [intros H [Hu | Hin]; [congruence | exact (H Hin)] |].
      intros H Hin. apply H. right. exact Hin.
Qed.

Lemma findCode_In (cs : codes) (user id : string) (c : verificationCode) :
  findCode cs user = Some (id, c) -> In (id, c) cs /\ code_userId c = user.
Proof.
  unfold findCode. intros H. apply List.find_some in H. destruct H as [Hin Hu].
  apply String.eqb_eq in Hu. split; assumption.
Qed.

(** Replacing a record under its id by one of the same user leaves the
    users as they are. *)
Lemma users_assign_same (cs : codes) (id : string) (old new : verificationCode) :
  List.NoDup (ids cs) -> In (id, old) cs -> code_userId new = code_userId old ->
  map userOf (assign cs id new) = map userOf cs.
Proof.
  intros Hnd Hin Huser. induction cs as [| [k v] rest IH]; simpl in *; [destruct Hin |].
  apply List.NoDup_cons_iff in Hnd. destruct Hnd as [Hnotin Hrest].
  destruct (String.eqb_spec k id) as [-> | Hne]; simpl.
  - destruct Hin as [[= ->] | Hin]; [rewrite Huser; reflexivity |].
    exfalso. apply Hnotin. unfold ids. apply (List.in_map fst) in Hin. exact Hin.
  - destruct Hin as [[= -> _] | Hin]; [congruence |].
    rewrite (IH Hrest Hin). reflexivity.
Qed.

(** Assigning a record of a user who has none keeps the users distinct,
    whether the id is new or in use. *)
Lemma users_assign_new (cs : codes) (id : string) (new : verificationCode) :
  unique_users cs -> ~ In (code_userId new) (map userOf cs) ->
  unique_users (assign cs id new).
Proof.
  unfold unique_users. induction cs as [| [k v] rest IH]; simpl; intros Hnd Hnotin.
  - constructor; [intros [] | constructor].
  - apply List.NoDup_cons_iff in Hnd. destruct Hnd as [Hv Hrest].
    destruct (String.eqb k id); simpl.
    + constructor; [| exact Hrest]. intros Hin. apply Hnotin. right. exact Hin.
    + constructor; [| apply IH; [exact Hrest | intros Hin; apply Hnotin; right; exact Hin]].
      intros Hin.
      assert (Hcases : forall l u, In u (map userOf (assign l id new)) ->
                u = code_userId new \/ In u (map userOf l)).
      { clear. induction l as [| [k0 v0] l IHl]; simpl; intros u.
        - intros [<- | []]. left. reflexivity.
        - destruct (String.eqb k0 id); simpl.
          + intros [<- | Hin]; [left; reflexivity | right; right; exact Hin].
          + intros [<- | Hin]; [right; left; reflexivity |].
            destruct (IHl u Hin) as [-> | Hin']; [left; reflexivity | right; right; exact Hin']. }
      destruct (Hcases rest _ Hin) as [Heq | Hin'].
      * apply Hnotin. left. exact Heq.
      * exact (Hv Hin').
Qed.

Lemma remove_ids (cs : codes) (id : string) :
  List.NoDup (ids cs) -> List.NoDup (ids (remove cs id)).
Proof.
  unfold ids, remove. induction cs as [| [k v] rest IH]; simpl; intros Hnd;
    [constructor |].
  apply List.NoDup_cons_iff in Hnd. destruct Hnd as [Hnotin Hrest].
  destruct (String.eqb k id); simpl; [apply IH; exact Hrest |].
  constructor; [| apply IH; exact Hrest].
  intros Hin. apply Hnotin. apply List.in_map_iff in Hin.
  destruct Hin as ([k' v'] & Hk & Hin). simpl in Hk. subst k'.
  apply List.filter_In in Hin. destruct Hin as [Hin _].
  apply (List.in_map fst) in Hin. exact Hin.
Qed.

Lemma remove_users (cs : codes) (id : string) :
  unique_users cs -> unique_users (remove cs id).
Proof.
  unfold unique_users, remove. induction cs as [| [k v] rest IH]; simpl; intros Hnd;
    [constructor |].
  apply List.NoDup_cons_iff in Hnd. destruct Hnd as [Hnotin Hrest].
  destruct (String.eqb k id); simpl; [apply IH; exact Hrest |].
  constructor; [| apply IH; exact Hrest].
  intros Hin. apply Hnotin. apply List.in_map_iff in Hin.
  destruct Hin as ([k' v'] & Hu & Hin). simpl in Hu.
  apply List.filter_In in Hin. destruct Hin as [Hin _].
  apply List.in_map_iff. exists (k', v'). split; [exact Hu | exact Hin].
Qed.

(** After the removal of a user's record, the user has none. *)
Lemma findCode_remove (cs : codes) (user id : string) (c : verificationCode) :
  unique_users cs -> findCode cs user = Some (id, c) ->
  findCode (remove cs id) user = None.
Proof.
  unfold unique_users, remove. intros Hnd Hfound.
  induction cs as [| [k v] rest IH]; simpl in *; [discriminate Hfound |].
  apply List.NoDup_cons_iff in Hnd. destruct Hnd as [Hnotin Hrest].
  unfold findCode in Hfound. simpl in Hfound.
  destruct (String.eqb_spec (code_userId v) user) as [Hu | Hu].
  - injection Hfound as -> ->. rewrite String.eqb_refl. simpl.
    apply findCode_None. intros Hin. apply Hnotin. rewrite Hu.
    apply List.in_map_iff in Hin. destruct Hin as ([k' v'] & Hu' & Hin).
    apply List.filter_In in Hin. destruct Hin as [Hin _].
    apply List.in_map_iff. exists (k', v'). split; [exact Hu' | exact Hin].
  - destruct (String.eqb k id); simpl.
    + apply IH; [exact Hrest | exact Hfound].
    + unfold findCode. simpl.
      destruct (String.eqb_spec (code_userId v) user) as [Hu' | _]; [contradiction |].
      apply IH; [exact Hrest | exact Hfound].
Qed.

(** ** The store under the handlers *)

Lemma keeps_mode_refl (db : database) : keeps_mode db db.
Proof. repeat split; auto. Qed.

Lemma saveJSON_keeps_mode (db : database) (user name wallet : string)
    (result : verificationResult) (network : string) (t : clock) :
  keeps_mode db (snd (saveVerificationJSON db user name wallet result network t)).
Proof.
  unfold saveVerificationJSON.
  destruct (jsonData db) as [data |] eqn:Hd; [| apply keeps_mode_refl].
  unfold keeps_mode. simpl. rewrite Hd.
  split; [reflexivity |]. split; [intros _; eexists; reflexivity | discriminate].
Qed.

Lemma save_keeps_mode (db : database) (user name wallet : string)
    (result : verificationResult) (network : string) (t : clock)
    (userQuery verificationQuery : bool) :
  keeps_mode db
    (snd (saveVerification db user name wallet result network t
            userQuery verificationQuery)).
Proof.
  unfold saveVerification.
  destruct (useJSON db) eqn:Hmode; [apply saveJSON_keeps_mode |].
  destruct userQuery; simpl negb; cbv iota; [| apply saveJSON_keeps_mode].
  destruct verificationQuery; simpl negb; cbv iota.
  - unfold keeps_mode. simpl. repeat split; auto.
  - pose proof (saveJSON_keeps_mode
                  {| useJSON := false;
                     verified_users :=
                       upsertUser (verified_users db) user name (at_creation t);
                     user_verifications := user_verifications db;
                     jsonData := jsonData db |}
                  user name wallet result network t) as H.
    unfold keeps_mode in *. simpl in H. rewrite Hmode. exact H.
Qed.

Lemma remove_keeps_mode (db : database) (user : string) (query : bool) :
  keeps_mode db (snd (removeVerification db user query)).
Proof.
  unfold removeVerification.
  destruct (useJSON db) eqn:Hmode.
  - destruct (jsonData db) as [data |] eqn:Hd; [| apply keeps_mode_refl].
    destruct (data !! user); [| apply keeps_mode_refl].
    unfold keeps_mode. simpl. rewrite Hd, Hmode.
    split; [reflexivity |]. split; [intros _; eexists; reflexivity | discriminate].
  - destruct query; [| apply keeps_mode_refl].
    unfold keeps_mode. simpl. rewrite Hmode. repeat split; auto.
Qed.

Lemma networks_ok_empty (json : bool) : networks_ok (emptyStore json).
Proof.
  split.
  - intros data user r n v Hd Hr _. destruct json; [| discriminate Hd].
    injection Hd as <-. rewrite lookup_empty in Hr. discriminate Hr.
  - intros user n row H. unfold emptyStore, rowsOf in H. simpl in H.
    rewrite lookup_empty in H. simpl in H. rewrite lookup_empty in H.
    discriminate H.
Qed.

Lemma networks_ok_saveJSON (db : database) (user name wallet : string)
    (result : verificationResult) (network : string) (t : clock) :
  networks_ok db -> savedNetwork network ->
  networks_ok (snd (saveVerificationJSON db user name wallet result network t)).
Proof.
  intros Hok Hnet. unfold saveVerificationJSON.
  destruct (jsonData db) as [data |] eqn:Hd; [| exact Hok].
  destruct Hok as [Hjson Hrows].
  unfold saveJSON. simpl. split; [| exact Hrows].
  simpl. intros data' u r n v [= <-] Hr Hv.
  destruct (decide (u = user)) as [-> | Hne].
  - rewrite lookup_insert_eq in Hr. injection Hr as <-. simpl in Hv.
    destruct (decide (n = network)) as [-> | Hn]; [exact Hnet |].
    rewrite lookup_insert_ne in Hv by congruence.
    destruct (data !! user) as [r0 |] eqn:Hr0.
    + exact (Hjson data user r0 n v Hd Hr0 Hv).
    + simpl in Hv. rewrite lookup_empty in Hv. discriminate Hv.
  - rewrite lookup_insert_ne in Hr by congruence.
    exact (Hjson data u r n v Hd Hr Hv).
Qed.

Lemma networks_ok_save (db : database) (user name wallet : string)
    (result : verificationResult) (network : string) (t : clock)
    (userQuery verificationQuery : bool) :
  networks_ok db -> savedNetwork network ->
  networks_ok (snd (saveVerification db user name wallet result network t
                      userQuery verificationQuery)).
Proof.
  intros Hok Hnet. unfold saveVerification.
  destruct (useJSON db); [apply networks_ok_saveJSON; assumption |].
  destruct userQuery; simpl negb; cbv iota;
    [| apply networks_ok_saveJSON; assumption].
  assert (Hok1 : networks_ok
    {| useJSON := false;
       verified_users := upsertUser (verified_users db) user name (at_creation t);
       user_verifications := user_verifications db;
       jsonData := jsonData db |}).
  { destruct Hok as [Hjson Hrows]. split; assumption. }
  destruct verificationQuery; simpl negb; cbv iota;
    [| apply networks_ok_saveJSON; assumption].
  destruct Hok as [Hjson Hrows]. split; [exact Hjson |].
  simpl. intros u n row. unfold upsertVerification, rowsOf at 1.
  destruct (decide (u = user)) as [-> | Hne].
  - rewrite lookup_insert_eq. simpl.
    destruct (decide (n = network)) as [-> | Hn]; [intros _; exact Hnet |].
    rewrite lookup_insert_ne by congruence. apply Hrows.
  - rewrite lookup_insert_ne by congruence. apply Hrows.
Qed.

Lemma networks_ok_remove (db : database) (user : string) (query : bool) :
  networks_ok db -> networks_ok (snd (removeVerification db user query)).
Proof.
  intros Hok. unfold removeVerification.
  destruct (useJSON db).
  - destruct (jsonData db) as [data |] eqn:Hd; [| exact Hok].
    destruct (data !! user) as [r0 |] eqn:Hr0; [| exact Hok].
    destruct Hok as [Hjson Hrows].
    simpl. split; [| exact Hrows].
    simpl. intros data' u r n v [= <-] Hr Hv.
    destruct (decide (u = user)) as [-> | Hne].
    + rewrite lookup_delete_eq in Hr. discriminate Hr.
    + rewrite lookup_delete_ne in Hr by congruence.
      exact (Hjson data u r n v Hd Hr Hv).
  - destruct query; [| exact Hok]. destruct Hok as [Hjson Hrows].
    simpl. split; [exact Hjson |].
    simpl. intros u n row. unfold rowsOf.
    destruct (decide (u = user)) as [-> | Hne].
    + rewrite lookup_delete_eq. simpl. rewrite lookup_empty. discriminate.
    + rewrite lookup_delete_ne by congruence. apply Hrows.
Qed.

(** Every entry the store returns sits under a key the handlers use. *)
Lemma networks_ok_read (db : database) (user : string) (reads : bool)
    (n : string) (v : networkVerification) :
  networks_ok db ->
  getUserVerifications (getVerifiedUser db user reads) !! n = Some v ->
  savedNetwork n.
Proof.
  intros [Hjson Hrows]. unfold getUserVerifications, getVerifiedUser.
  destruct (useJSON db).
  - destruct (jsonData db) as [data |] eqn:Hd;
      [| rewrite lookup_empty; discriminate].
    destruct (data !! user) as [r |] eqn:Hr; [| rewrite lookup_empty; discriminate].
    intros Hv. exact (Hjson data user r n v eq_refl Hr Hv).
  - destruct reads; simpl; [| rewrite lookup_empty; discriminate].
    destruct (verified_users db !! user) as [row |];
      [| rewrite lookup_empty; discriminate].
    simpl. rewrite map_lookup_imap.
    destruct (rowsOf (user_verifications db) user !! n) as [raw |] eqn:Hraw;
      [| discriminate].
    intros _. exact (Hrows user n raw Hraw).
Qed.

(** ** The states the bot reaches *)

Lemma initialState_ok (json : bool) : state_ok json (initialState json).
Proof.
  unfold state_ok, initialState. simpl.
  split; [reflexivity |].
  split; [destruct json; [eexists |]; reflexivity |].
  split; [apply networks_ok_empty |].
  split; constructor.
Qed.

Lemma state_ok_update (json : bool) (st : state) (cs : codes) (db' : database) :
  state_ok json st ->
  keeps_mode (verificationDB st) db' -> networks_ok db' ->
  List.NoDup (ids cs) -> unique_users cs ->
  state_ok json {| verificationCodes := cs; verificationDB := db' |}.
Proof.
  intros (Hmode & Hjson & _ & _ & _) (Hm & Hsome & Hnone) Hnet Hids Husers.
  unfold state_ok. simpl.
  split; [congruence |].
  split; [destruct json; [apply Hsome | apply Hnone]; exact Hjson |].
  split; [exact Hnet |]. split; assumption.
Qed.

Lemma savedNetwork_of_verifier {A : Type} (network : string) (a b : A) (f : A) :
  (if String.eqb network "arbitrum" then Some a
   else if String.eqb network "bera" then Some b else None) = Some f ->
  savedNetwork network.
Proof.
  unfold savedNetwork.
  destruct (String.eqb_spec network "arbitrum") as [-> | _]; [auto |].
  destruct (String.eqb_spec network "bera") as [-> | _]; [auto | discriminate].
Qed.

Lemma handleModalSubmit_codes_ok (cs : codes) (botWallet : option string)
    (input user name : string) (fresh : double) (idNow stampNow : Z) :
  List.NoDup (ids cs) -> unique_users cs ->
  List.NoDup (ids (snd (handleModalSubmit cs botWallet input user name fresh
                          idNow stampNow)))
  /\ unique_users (snd (handleModalSubmit cs botWallet input user name fresh
                          idNow stampNow)).
Proof.
  intros Hids Husers. unfold handleModalSubmit.
  destruct (isValidEthereumAddress (trim input)); simpl negb; cbv iota;
    [| split; assumption].
  destruct (findCode cs user) as [[id existing] |] eqn:Hfound.
  - destruct (code_verified existing); [split; assumption |].
    simpl snd. split; [apply BotClaims.assign_NoDup; exact Hids |].
    unfold unique_users.
    destruct (findCode_In cs user id existing Hfound) as [Hin _].
    erewrite (users_assign_same cs id existing);
      [exact Husers | exact Hids | exact Hin | reflexivity].
  - simpl snd. split; [apply BotClaims.assign_NoDup; exact Hids |].
    apply users_assign_new; [exact Husers |].
    simpl. apply findCode_None. exact Hfound.
Qed.

Section Handlers.

Variable checkTransaction : string -> option string -> option string -> bool.
Variable monadVerifier : string -> verificationResult.
Variable arbitrumVerifier beraVerifier : string -> verificationResult.
Variable botWallet : option string.

Local Abbreviation handleButtonInteraction :=
  (Bot.handleButtonInteraction checkTransaction monadVerifier
     arbitrumVerifier beraVerifier).
Local Abbreviation useVerifiedWallet :=
  (Bot.useVerifiedWallet arbitrumVerifier beraVerifier).
Local Abbreviation confirmMonadTransaction :=
  (Bot.confirmMonadTransaction checkTransaction monadVerifier).
Local Abbreviation step :=
  (Bot.step checkTransaction monadVerifier arbitrumVerifier beraVerifier botWallet).
Local Abbreviation run :=
  (Bot.run checkTransaction monadVerifier arbitrumVerifier beraVerifier botWallet).

Lemma confirmMonadTransaction_state_ok (json : bool) (st : state) (w : world)
    (user name : string) :
  state_ok json st ->
  state_ok json (snd (confirmMonadTransaction st w botWallet user name)).
Proof.
  intros Hok. unfold Bot.confirmMonadTransaction.
  destruct (findCode (verificationCodes st) user) as [[id data] |] eqn:Hfound;
    [| exact Hok].
  destruct (truthy (code_walletAddress data)); simpl negb; cbv iota; [| exact Hok].
  destruct (checkTransaction _ _ _); simpl negb; cbv iota; [| exact Hok].
  destruct (verified (monadVerifier _)); [| exact Hok].
  unfold saveMonadVerification.
  pose proof (save_keeps_mode (verificationDB st) user name
                (default ""%string (code_walletAddress data))
                (monadVerifier (default ""%string (code_walletAddress data)))
                "monad_testnet" (saveClock w) (userQuery w) (verificationQuery w))
    as Hmode.
  pose proof Hok as (H1 & H2 & Hnet & Hids & Husers).
  pose proof (networks_ok_save (verificationDB st) user name
                (default ""%string (code_walletAddress data))
                (monadVerifier (default ""%string (code_walletAddress data)))
                "monad_testnet" (saveClock w) (userQuery w) (verificationQuery w)
                Hnet (or_introl eq_refl)) as Hnet'.
  destruct (saveVerification _ _ _ _ _ _ _ _ _) as [[saved |] db']; simpl snd.
  - apply (state_ok_update json st);
      [exact Hok | exact Hmode | exact Hnet'
      | apply BotClaims.assign_NoDup; exact Hids |].
    unfold unique_users.
    destruct (findCode_In _ _ _ _ Hfound) as [Hin _].
    erewrite (users_assign_same _ id data);
      [exact Husers | exact Hids | exact Hin | reflexivity].
  - apply (state_ok_update json st);
      [exact Hok | exact Hmode | exact Hnet' | exact Hids | exact Husers].
Qed.

Lemma useVerifiedWallet_state_ok (json : bool) (st : state) (w : world)
    (customId user name : string) :
  state_ok json st ->
  state_ok json (snd (useVerifiedWallet st w customId user name)).
Proof.
  intros Hok. unfold Bot.useVerifiedWallet.
  destruct (getVerifiedWallet _) as [wallet |]; [| exact Hok].
  destruct (if String.eqb (networkOf customId) "arbitrum" then _ else _)
    as [verify |] eqn:Hverifier; [| exact Hok].
  apply savedNetwork_of_verifier in Hverifier.
  destruct (verified (verify wallet)); [| exact Hok].
  pose proof (save_keeps_mode (verificationDB st) user name wallet (verify wallet)
                (networkOf customId) (saveClock w) (userQuery w)
                (verificationQuery w)) as Hmode.
  pose proof Hok as (H1 & H2 & Hnet & Hids & Husers).
  pose proof (networks_ok_save (verificationDB st) user name wallet (verify wallet)
                (networkOf customId) (saveClock w) (userQuery w)
                (verificationQuery w) Hnet Hverifier) as Hnet'.
  destruct (saveVerification _ _ _ _ _ _ _ _ _) as [[saved |] db']; simpl snd;
    apply (state_ok_update json st); assumption.
Qed.

Lemma step_state_ok (json : bool) (st : state) (w : world) (i : interaction) :
  state_ok json st -> state_ok json (snd (step st w i)).
Proof.
  intros Hok. destruct i as [chain user | customId user name
                             | input user name fresh idNow stampNow | user]; simpl.
  - exact Hok.
  - unfold Bot.handleButtonInteraction.
    destruct (String.eqb customId "request_monad_wallet"); [exact Hok |].
    destruct (String.eqb customId "confirm_monad_transaction");
      [apply confirmMonadTransaction_state_ok; exact Hok |].
    destruct (String.prefix "use_verified_wallet_" customId);
      [apply useVerifiedWallet_state_ok; exact Hok | exact Hok].
  - pose proof Hok as (H1 & H2 & Hnet & Hids & Husers).
    destruct (handleModalSubmit_codes_ok (verificationCodes st) botWallet input user
                name fresh idNow stampNow Hids Husers) as [Hids' Husers'].
    destruct (handleModalSubmit _ _ _ _ _ _ _ _) as [e cs]. simpl in *.
    unfold state_ok. simpl. split; [exact H1 |]. split; [exact H2 |].
    split; [exact Hnet |]. split; assumption.
  - unfold resetVerification.
    pose proof (remove_keeps_mode (verificationDB st) user (deleteQuery w)) as Hmode.
    pose proof Hok as (H1 & H2 & Hnet & Hids & Husers).
    pose proof (networks_ok_remove (verificationDB st) user (deleteQuery w) Hnet)
      as Hnet'.
    destruct (removeVerification _ _ _) as [removed db']. simpl snd in *.
    destruct (findCode _ _) as [[code data] |].
    + simpl snd. apply (state_ok_update json st);
        [exact Hok | exact Hmode | exact Hnet'
        | apply remove_ids; exact Hids | apply remove_users; exact Husers].
    + destruct removed; simpl snd; apply (state_ok_update json st); assumption.
Qed.

Lemma run_state_ok (json : bool) (events : list (world * interaction)) :
  forall st : state, state_ok json st -> state_ok json (run st events).
Proof.
  induction events as [| [w i] rest IH]; intros st Hok; simpl; [exact Hok |].
  apply IH. apply step_state_ok. exact Hok.
Qed.

Ltac find_in_list := simpl; repeat (first [left; reflexivity | right]).

(** X22.  The status command never lists Berachain as verified.  The
    Bera button saves under the key ['bera'], the status command reads
    the key ['berachain']: in every state the bot reaches from an empty
    start, whatever the user has verified, the status embed has no
    "verified" field for Berachain and, when it lists anything, lists
    Berachain among the networks still available to verify. *)
Theorem status_never_reports_berachain (json : bool)
    (events : list (world * interaction)) (w : world) (user : string) :
  let st := run (initialState json) events in
  match verificationStatus st w user with
  | NoVerificationsYet => True
  | VerificationStatus fields =>
      (forall wallet verifiedAt,
         ~ In (VerifiedOn Berachain wallet verifiedAt) fields)
      /\ exists chains, In (AvailableToVerify chains) fields /\ In Berachain chains
  end.
Proof.
  intros st.
  assert (Hok : state_ok json st) by (apply run_state_ok, initialState_ok).
  destruct Hok as (_ & _ & Hnet & _ & _).
  unfold verificationStatus.
  set (uv := getUserVerifications
               (getVerifiedUser (verificationDB st) user (readQuery w))).
  assert (Hbera : uv !! "berachain"%string = None).
  { destruct (uv !! "berachain"%string) as [v |] eqn:E; [| reflexivity].
    apply (networks_ok_read _ _ _ _ _ Hnet) in E.
    destruct E as [E | [E | E]]; discriminate E. }
  destruct (Nat.eqb (size uv) 0); [exact I |].
  cbv zeta. unfold verifiedUnder. rewrite Hbera.
  destruct (uv !! "monad_testnet"%string) as [m |];
    [destruct (verified (nv_verificationResult m)) |];
    (destruct (uv !! "arbitrum"%string) as [a |];
       [destruct (verified (nv_verificationResult a)) |]);
    (split;
       [intros wallet verifiedAt Hin; simpl in Hin;
        repeat (destruct Hin as [Hin | Hin]; [discriminate Hin |]); exact Hin
       | eexists; split; find_in_list]).
Qed.

Lemma remove_then_read (db : database) (user : string) (query reads : bool) :
  (useJSON db = true /\ is_Some (jsonData db))
  \/ (useJSON db = false /\ query = true) ->
  getVerifiedUser (snd (removeVerification db user query)) user reads = None.
Proof.
  unfold removeVerification, getVerifiedUser.
  intros [[Hmode [data Hd]] | [Hmode ->]]; rewrite Hmode.
  - rewrite Hd. destruct (data !! user) as [r |] eqn:Hr; simpl.
    + rewrite ?Hmode. apply lookup_delete_eq.
    + rewrite ?Hmode, ?Hd. exact Hr.
  - simpl. rewrite ?Hmode. destruct reads; [| reflexivity]. simpl.
    rewrite lookup_delete_eq. reflexivity.
Qed.

(** X23.  [reset-verification] starts the user over.  In every state
    the bot reaches from an empty start, after the command the user has
    no challenge record; the store, in the JSON mode or when the DELETE
    statement succeeds, has no record of the user; and the next
    submission of a valid wallet address issues a challenge with a
    freshly generated amount. *)
Theorem reset_starts_over (json : bool) (events : list (world * interaction))
    (w : world) (user : string) :
  let st := run (initialState json) events in
  let st' := snd (step st w (ResetCommand user)) in
  findCode (verificationCodes st') user = None
  /\ (json = true \/ deleteQuery w = true ->
      forall reads, getVerifiedUser (verificationDB st') user reads = None)
  /\ (forall input name fresh idNow stampNow,
        isValidEthereumAddress (trim input) = true ->
        fst (handleModalSubmit (verificationCodes st') botWallet input user name
               fresh idNow stampNow)
        = TransactionRequired fresh botWallet).
Proof.
  intros st st'.
  assert (Hok : state_ok json st) by (apply run_state_ok, initialState_ok).
  destruct Hok as (Hmode & Hjson & _ & _ & Husers).
  assert (Hcodes : findCode (verificationCodes st') user = None).
  { subst st'. simpl. unfold resetVerification.
    destruct (removeVerification _ _ _) as [removed db'].
    destruct (findCode (verificationCodes st) user) as [[code data] |] eqn:Hfound.
    - simpl. apply (findCode_remove _ _ _ data); assumption.
    - destruct removed; simpl; exact Hfound. }
  split; [exact Hcodes |]. split.
  - intros Hdeleted reads.
    assert (Hdb : verificationDB st'
                  = snd (removeVerification (verificationDB st) user (deleteQuery w))).
    { clear Hcodes. subst st'. simpl. unfold resetVerification.
      destruct (removeVerification _ _ _) as [removed db'].
      destruct (findCode _ _) as [[code data] |]; [reflexivity |].
      destruct removed; reflexivity. }
    rewrite Hdb. apply remove_then_read.
    destruct json.
    + left. split; assumption.
    + right. split; [exact Hmode |].
      destruct Hdeleted as [Hj | Hq]; [discriminate Hj | exact Hq].
  - intros input name fresh idNow stampNow Hvalid.
    unfold handleModalSubmit. rewrite Hvalid, Hcodes. reflexivity.
Qed.

Lemma failing_save (db : database) (user name wallet : string)
    (result : verificationResult) (network : string) (t : clock)
    (userQuery verificationQuery : bool) :
  useJSON db = false -> jsonData db = None ->
  userQuery && verificationQuery = false ->
  fst (saveVerification db user name wallet result network t
         userQuery verificationQuery) = Thrown
  /\ user_verifications
       (snd (saveVerification db user name wallet result network t
               userQuery verificationQuery))
     = user_verifications db.
Proof.
  intros Hmode Hjson Hfails. unfold saveVerification, saveVerificationJSON.
  rewrite Hmode.
  destruct userQuery; simpl negb; cbv iota.
  - destruct verificationQuery; [discriminate Hfails |]. simpl negb. cbv iota.
    simpl. rewrite Hjson. split; reflexivity.
  - rewrite Hjson. split; reflexivity.
Qed.

(** X24.  With PostgreSQL in use, a failed save grants nothing.  In
    every state the bot reaches from an empty start with a database
    configured, a button press during which one of the two statements of
    a save fails grants no role, leaves the challenge records as they
    are and records no verification. *)
Theorem failed_save_grants_nothing (events : list (world * interaction))
    (w : world) (customId user name : string) :
  userQuery w && verificationQuery w = false ->
  let st := run (initialState false) events in
  let result := handleButtonInteraction st w botWallet customId user name in
  (forall n, ~ In (GrantRole n) (fst result))
  /\ verificationCodes (snd result) = verificationCodes st
  /\ user_verifications (verificationDB (snd result))
     = user_verifications (verificationDB st).
Proof.
  intros Hfails st result.
  assert (Hok : state_ok false st) by (apply run_state_ok, initialState_ok).
  destruct Hok as (Hmode & Hjson & _ & _ & _).
  subst result. unfold Bot.handleButtonInteraction.
  destruct (String.eqb customId "request_monad_wallet").
  { simpl. repeat split. intros n [H | []]. discriminate H. }
  destruct (String.eqb customId "confirm_monad_transaction").
  { unfold Bot.confirmMonadTransaction.
    destruct (findCode (verificationCodes st) user) as [[id data] |].
    2: { simpl. repeat split. intros n [H | []]. discriminate H. }
    destruct (truthy (code_walletAddress data)); simpl negb; cbv iota.
    2: { simpl. repeat split. intros n [H | []]. discriminate H. }
    destruct (checkTransaction _ _ _); simpl negb; cbv iota.
    2: { simpl. repeat split. intros n [H | [H | []]]; discriminate H. }
    destruct (verified (monadVerifier _)).
    2: { simpl. repeat split. intros n [H | [H | [H | []]]]; discriminate H. }
    unfold saveMonadVerification.
    destruct (failing_save (verificationDB st) user name
                (default ""%string (code_walletAddress data))
                (monadVerifier (default ""%string (code_walletAddress data)))
                "monad_testnet" (saveClock w) (userQuery w) (verificationQuery w)
                Hmode Hjson Hfails) as [Hthrown Hrows].
    destruct (saveVerification _ _ _ _ _ _ _ _ _) as [outcome db'].
    simpl in Hthrown, Hrows. subst outcome. simpl.
    split; [intros n [H | [H | [H | []]]]; discriminate H |].
    split; [reflexivity | exact Hrows]. }
  destruct (String.prefix "use_verified_wallet_" customId).
  2: { simpl. repeat split. intros n []. }
  unfold Bot.useVerifiedWallet.
  destruct (getVerifiedWallet _) as [wallet |].
  2: { simpl. repeat split. intros n [H | []]. discriminate H. }
  destruct (if String.eqb (networkOf customId) "arbitrum" then _ else _)
    as [verify |].
  2: { simpl. repeat split. intros n [H | []]. discriminate H. }
  destruct (verified (verify wallet)).
  2: { simpl. repeat split. intros n [H | [H | []]]; discriminate H. }
  destruct (failing_save (verificationDB st) user name wallet (verify wallet)
              (networkOf customId) (saveClock w) (userQuery w) (verificationQuery w)
              Hmode Hjson Hfails) as [Hthrown Hrows].
  destruct (saveVerification _ _ _ _ _ _ _ _ _) as [outcome db'].
  simpl in Hthrown, Hrows. subst outcome. simpl.
  split; [intros n [H | [H | []]]; discriminate H |].
  split; [reflexivity | exact Hrows].
Qed.

(** X25.  The confirmation button is guarded.  It changes the state and
    grants the role only for a user whose challenge record names a
    wallet, after the transaction check on that wallet and the record's
    base-unit amount returned true and the ownership check returned a
    verified result; it runs the ownership check only after the
    transaction was found, and on the record's wallet. *)
Theorem confirmation_is_guarded (st : state) (w : world) (user name : string) :
  let result := confirmMonadTransaction st w botWallet user name in
  let found :=
    match findCode (verificationCodes st) user with
    | Some (_, record) =>
        truthy (code_walletAddress record)
        && checkTransaction (default ""%string (code_walletAddress record))
             botWallet (code_amountWei record)
    | None => false
    end in
  let passes :=
    match findCode (verificationCodes st) user with
    | Some (_, record) =>
        found && verified (monadVerifier (default ""%string (code_walletAddress record)))
    | None => false
    end in
  (passes = false ->
   snd result = st /\ forall n, ~ In (GrantRole n) (fst result))
  /\ (forall n, In (GrantRole n) (fst result) ->
        n = "monad_testnet"%string /\ roleFound w = true /\ passes = true)
  /\ (forall n wallet, In (CheckOwnership n wallet) (fst result) ->
        n = "monad_testnet"%string /\ found = true
        /\ exists id record,
             findCode (verificationCodes st) user = Some (id, record)
             /\ code_walletAddress record = Some wallet).
Proof.
  intros result found passes. subst result found passes.
  unfold Bot.confirmMonadTransaction.
  destruct (findCode (verificationCodes st) user) as [[id data] |].
  2: { simpl. split; [intros _; split; [reflexivity | intros n [H | []]; discriminate H] |].
       split; intros; simpl in *; intuition discriminate. }
  destruct (code_walletAddress data) as [wallet |] eqn:Hwallet; simpl default.
  2: { simpl. split; [intros _; split; [reflexivity | intros n [H | []]; discriminate H] |].
       split; intros; simpl in *; intuition discriminate. }
  destruct (truthy (Some wallet)) eqn:Htruthy; simpl negb; cbv iota.
  2: { simpl. split; [intros _; split; [reflexivity | intros n [H | []]; discriminate H] |].
       split; intros; simpl in *; intuition discriminate. }
  destruct (checkTransaction wallet botWallet (code_amountWei data)) eqn:Hcheck;
    simpl negb; cbv iota.
  2: { simpl. split; [intros _; split;
                        [reflexivity | intros n [H | [H | []]]; discriminate H] |].
       split; intros; simpl in *; intuition discriminate. }
  destruct (verified (monadVerifier wallet)) eqn:Hverified.
  2: { simpl. split; [intros _; split;
                        [reflexivity | intros n [H | [H | [H | []]]]; discriminate H] |].
       split.
       - intros n [H | [H | [H | []]]]; discriminate H.
       - intros n wallet' [H | [H | [H | []]]]; try discriminate H.
         injection H as <- <-. split; [reflexivity |]. split; [reflexivity |].
         exists id, data. split; [reflexivity | exact Hwallet]. }
  destruct (saveMonadVerification _ _ _ _ _ _ _ _) as [[saved |] db']; simpl.
  - split; [discriminate |]. split.
    + intros n Hin. destruct Hin as [H | [H | Hin]]; try discriminate H.
      destruct (roleFound w); simpl in Hin.
      * destruct Hin as [H | [H | []]]; [| discriminate H].
        injection H as <-. repeat split.
      * destruct Hin as [H | []]. discriminate H.
    + intros n wallet' Hin. destruct Hin as [H | [H | Hin]]; try discriminate H.
      * injection H as <- <-. split; [reflexivity |]. split; [reflexivity |].
        exists id, data. split; [reflexivity | exact Hwallet].
      * destruct (roleFound w); simpl in Hin.
        -- destruct Hin as [H | [H | []]]; discriminate H.
        -- destruct Hin as [H | []]. discriminate H.
  - split; [discriminate |]. split.
    + intros n [H | [H | [H | []]]]; discriminate H.
    + intros n wallet' [H | [H | [H | []]]]; try discriminate H.
      injection H as <- <-. split; [reflexivity |]. split; [reflexivity |].
      exists id, data. split; [reflexivity | exact Hwallet].
Qed.




End Handlers.

Lemma failed_save_grants_nothing_witness :
  verificationCodes
    (snd (Bot.handleButtonInteraction (fun _ _ _ => true)
            (Examples.verifiedResult "monad_testnet")
            (Examples.verifiedResult "arbitrum")
            (Examples.verifiedResult "berachain")
            (Bot.run (fun _ _ _ => true)
               (Examples.verifiedResult "monad_testnet")
               (Examples.verifiedResult "arbitrum")
               (Examples.verifiedResult "berachain")
               (Some Examples.botWallet) (initialState false)
               [(Examples.calmWorld,
                 ModalSubmit Examples.userWallet "42" "alice"
                   (Number_of_fixed10 200) 1700000000000 1700000000000)])
            Examples.stormWorld (Some Examples.botWallet)
            "confirm_monad_transaction" "42" "alice"))
  = verificationCodes
      (Bot.run (fun _ _ _ => true)
         (Examples.verifiedResult "monad_testnet")
         (Examples.verifiedResult "arbitrum")
         (Examples.verifiedResult "berachain")
         (Some Examples.botWallet) (initialState false)
         [(Examples.calmWorld,
           ModalSubmit Examples.userWallet "42" "alice"
             (Number_of_fixed10 200) 1700000000000 1700000000000)]).
Proof.
  exact (proj1 (proj2
    (failed_save_grants_nothing (fun _ _ _ => true)
       (Examples.verifiedResult "monad_testnet")
       (Examples.verifiedResult "arbitrum")
       (Examples.verifiedResult "berachain")
       (Some Examples.botWallet)
       [(Examples.calmWorld,
         ModalSubmit Examples.userWallet "42" "alice"
           (Number_of_fixed10 200) 1700000000000 1700000000000)]
       Examples.stormWorld "confirm_monad_transaction" "42" "alice" eq_refl))).
Defined.


(** ** Other users' challenges *)

Lemma remove_notin (cs : codes) (id : string) :
  ~ In id (ids cs) -> remove cs id = cs.
Proof.
  unfold remove, ids. induction cs as [| [k v] rest IH]; simpl; intros Hnotin;
    [reflexivity |].
  destruct (String.eqb_spec k id) as [-> | Hne]; simpl.
  - exfalso. apply Hnotin. left. reflexivity.
  - rewrite IH; [reflexivity |]. intros Hin. apply Hnotin. right. exact Hin.
Qed.

Lemma findCode_assign_other (cs : codes) (id other : string)
    (new : verificationCode) :
  List.NoDup (ids cs) -> code_userId new <> other ->
  findCode (assign cs id new) other = findCode (remove cs id) other.
Proof.
  intros Hnd Hne. induction cs as [| [k v] rest IH]; simpl.
  - unfold findCode. simpl.
    destruct (String.eqb_spec (code_userId new) other); [contradiction | reflexivity].
  - simpl in Hnd. apply List.NoDup_cons_iff in Hnd. destruct Hnd as [Hnotin Hrest].
    unfold remove. simpl.
    destruct (String.eqb_spec k id) as [-> | Hk]; simpl.
    + fold (remove rest id). rewrite (remove_notin rest id Hnotin).
      unfold findCode. simpl.
      destruct (String.eqb_spec (code_userId new) other); [contradiction | reflexivity].
    + fold (remove rest id). unfold findCode. simpl.
      destruct (String.eqb (code_userId v) other); [reflexivity |].
      apply IH. exact Hrest.
Qed.

Lemma findCode_remove_other (cs : codes) (id other : string) (c : verificationCode) :
  List.NoDup (ids cs) -> In (id, c) cs -> code_userId c <> other ->
  findCode (remove cs id) other = findCode cs other.
Proof.
  intros Hnd Hin Hne. induction cs as [| [k v] rest IH]; simpl; [reflexivity |].
  simpl in Hnd. apply List.NoDup_cons_iff in Hnd. destruct Hnd as [Hnotin Hrest].
  unfold remove. simpl.
  destruct (String.eqb_spec k id) as [-> | Hk]; simpl.
  - fold (remove rest id). rewrite (remove_notin rest id Hnotin).
    destruct Hin as [[= ->] | Hin].
    + unfold findCode. simpl.
      destruct (String.eqb_spec (code_userId c) other); [contradiction | reflexivity].
    + exfalso. apply Hnotin. apply (List.in_map fst) in Hin. exact Hin.
  - fold (remove rest id). destruct Hin as [[= -> _] | Hin]; [congruence |].
    unfold findCode. simpl.
    destruct (String.eqb (code_userId v) other); [reflexivity |].
    apply IH; assumption.
Qed.

(** X27.  A submission and the challenges of other users.  A
    submission of the wallet modal leaves the challenge record of every
    other user as it is, as long as the submitting user has a record or
    the new record's id (the millisecond of the submission) is not in
    use.  When it is in use by another user's record, that record is
    replaced: the other user's challenge is gone. *)
Theorem submission_and_other_users (cs : codes) (botWallet : option string)
    (input user name : string) (fresh : double) (idNow stampNow : Z)
    (other : string) :
  List.NoDup (ids cs) -> other <> user ->
  let cs' :=
    snd (handleModalSubmit cs botWallet input user name fresh idNow stampNow) in
  (is_Some (findCode cs user) \/ ~ In (decimal idNow) (ids cs) ->
   findCode cs' other = findCode cs other)
  /\ (forall victim,
        unique_users cs -> findCode cs user = None ->
        isValidEthereumAddress (trim input) = true ->
        findCode cs other = Some (decimal idNow, victim) ->
        findCode cs' other = None).
Proof.
  intros Hnd Hother cs'. subst cs'. unfold handleModalSubmit.
  destruct (isValidEthereumAddress (trim input)); simpl negb; cbv iota.
  2: { split; [reflexivity | discriminate]. }
  destruct (findCode cs user) as [[id existing] |] eqn:Hfound.
  - destruct (findCode_In cs user id existing Hfound) as [Hin Huser].
    split; [| discriminate]. intros _.
    destruct (code_verified existing); [reflexivity |]. simpl snd.
    rewrite findCode_assign_other; [| exact Hnd | simpl; congruence].
    apply (findCode_remove_other cs id other existing); [assumption .. | congruence].
  - simpl snd. split.
    + intros [[x Hx] | Hfree]; [discriminate Hx |].
      rewrite findCode_assign_other; [| exact Hnd | simpl; congruence].
      rewrite (remove_notin cs _ Hfree). reflexivity.
    + intros victim Husers _ _ Hvictim.
      rewrite findCode_assign_other; [| exact Hnd | simpl; congruence].
      apply (findCode_remove cs other (decimal idNow) victim); assumption.
Qed.

Lemma submission_and_other_users_witness :
  findCode
    (snd (handleModalSubmit Examples.pendingCodes (Some Examples.botWallet)
            Examples.userWallet "42" "alice" (Number_of_fixed10 150)
            1700000000000 1700000000000)) "7"
  = None.
Proof.
  refine (proj2
    (submission_and_other_users Examples.pendingCodes (Some Examples.botWallet)
       Examples.userWallet "42" "alice" (Number_of_fixed10 150)
       1700000000000 1700000000000 "7" _ _) _ _ eq_refl eq_refl eq_refl).
  - repeat constructor. intros [].
  - discriminate.
  - repeat constructor. intros [].
Defined.

End BotProperties.

(* ===================================================================== *)
(** * Further properties of the challenge amounts                         *)
(* ===================================================================== *)

Module AmountProperties.

Import JS Amount.

(** X28.  The challenge amounts.  [generateVerificationAmount] returns
    [Number(x.toFixed(10))], the double nearest to [k / 10^10] for the
    integer [k] that [toFixed] chose.  For each [k] from 100 to 1000:
    printing that double with ten decimals gives [k] back (the amount
    shown to the user is the amount generated, and rounding it again
    changes nothing); [ethToWei] turns it into [k * 10^8] base units or
    into one unit less, never into anything else; and the amount is not
    zero, so that a record holding it is resumed. *)
Theorem challenge_amounts (k : Z) :
  100 <= k <= 1000 ->
  let amount := Number_of_fixed10 k in
  toFixed10 amount = k
  /\ (ethToWei amount = decimal (k * 10 ^ 8)
      \/ ethToWei amount = decimal (k * 10 ^ 8 - 1))
  /\ amount_truthy (Some amount) = true.
Proof.
  intros Hk amount. subst amount.
  assert (Hall :
    forallb
      (fun k =>
         (toFixed10 (Number_of_fixed10 k) =? k)
         && (String.eqb (ethToWei (Number_of_fixed10 k)) (decimal (k * 10 ^ 8))
             || String.eqb (ethToWei (Number_of_fixed10 k)) (decimal (k * 10 ^ 8 - 1)))
         && amount_truthy (Some (Number_of_fixed10 k)))
      (map Z.of_nat (seq 100 901)) = true)
    by (vm_compute; reflexivity).
  rewrite List.forallb_forall in Hall.
  assert (Hin : In k (map Z.of_nat (seq 100 901))).
  { apply List.in_map_iff. exists (Z.to_nat k). split; [lia |].
    apply List.in_seq. lia. }
  specialize (Hall k Hin).
  apply andb_prop in Hall. destruct Hall as [Hall Htruthy].
  apply andb_prop in Hall. destruct Hall as [Hfixed Hwei].
  apply Z.eqb_eq in Hfixed. apply orb_prop in Hwei.
  split; [exact Hfixed |]. split; [| exact Htruthy].
  destruct Hwei as [H | H]; apply String.eqb_eq in H; [left | right]; exact H.
Qed.

Lemma challenge_amounts_witness :
  toFixed10 (Number_of_fixed10 734) = 734.
Proof.
  exact (proj1 (challenge_amounts 734 ltac:(split; discriminate))).
Defined.

End AmountProperties.

(* ===================================================================== *)
(** * Properties of the input validation                                  *)
(* ===================================================================== *)

Module ValidationProperties.

Import JS Validation.

Lemma substring_length (n : nat) : forall s : string,
  (String.length (String.substring 0 n s) <= n)%nat.
Proof.
  induction n as [| n IH]; intros [| c s]; simpl; try lia.
  specialize (IH s). lia.
Qed.

Lemma substring_chars (P : ascii -> Prop) (n : nat) : forall s : string,
  Forall P (String.list_ascii_of_string s) ->
  Forall P (String.list_ascii_of_string (String.substring 0 n s)).
Proof.
  induction n as [| n IH]; intros [| c s]; simpl; intros H; try constructor.
  - apply List.Forall_cons_iff in H. apply H.
  - apply IH. apply List.Forall_cons_iff in H. apply H.
Qed.

Lemma removeDangerous_chars (s : string) :
  Forall (fun c => dangerous c = false)
    (String.list_ascii_of_string (removeDangerous s)).
Proof.
  induction s as [| c s IH]; simpl; [constructor |].
  destruct (dangerous c) eqn:Hc; [exact IH |].
  simpl. constructor; assumption.
Qed.

(** X29.  [sanitizeInput] returns at most 100 characters, none of them
    an angle bracket, a double quote or an apostrophe; an argument that
    is not a string gives the empty string. *)
Theorem sanitizeInput_is_safe (input : option string) :
  let out := sanitizeInput input in
  (String.length out <= 100)%nat
  /\ Forall (fun c => dangerous c = false) (String.list_ascii_of_string out)
  /\ (input = None -> out = ""%string).
Proof.
  destruct input as [s |]; simpl.
  - split; [apply substring_length |].
    split; [apply substring_chars, removeDangerous_chars | discriminate].
  - split; [lia |]. split; [constructor | reflexivity].
Qed.

Lemma isValidDiscordId_truthy (id : option string) :
  isValidDiscordId id = true -> truthy id = true.
Proof.
  destruct id as [[| c s] |]; simpl; [| reflexivity |]; discriminate.
Qed.

Lemma idErrors_none (name : string) (value : option string) :
  idErrors name value = [] <-> isValidDiscordId value = true.
Proof.
  unfold idErrors.
  destruct (truthy value) eqn:Ht; simpl.
  - destruct (isValidDiscordId value); simpl; split; congruence.
  - split; [discriminate |]. intros H. apply isValidDiscordId_truthy in H. congruence.
Qed.

Lemma idErrors_length (name : string) (value : option string) :
  (List.length (idErrors name value) <= 1)%nat.
Proof.
  unfold idErrors.
  destruct (truthy value); simpl; [| lia].
  destruct (isValidDiscordId value); simpl; lia.
Qed.

(** X30.  [validateConfig] accepts a configuration exactly when the
    token is present and each of the three identifiers is a text of 17 to
    19 decimal digits; it reports at most one error per setting. *)
Theorem validateConfig_accepts (c : config) :
  (isValid (validateConfig c) = true <->
     truthy (DISCORD_TOKEN c) = true
     /\ isValidDiscordId (CLIENT_ID c) = true
     /\ isValidDiscordId (GUILD_ID c) = true
     /\ isValidDiscordId (VERIFIED_ROLE_ID c) = true)
  /\ (List.length (errors (validateConfig c)) <= 4)%nat.
Proof.
  unfold validateConfig. cbn [isValid errors].
  pose proof (idErrors_none "CLIENT_ID" (CLIENT_ID c)) as H1.
  pose proof (idErrors_none "GUILD_ID" (GUILD_ID c)) as H2.
  pose proof (idErrors_none "VERIFIED_ROLE_ID" (VERIFIED_ROLE_ID c)) as H3.
  pose proof (idErrors_length "CLIENT_ID" (CLIENT_ID c)) as L1.
  pose proof (idErrors_length "GUILD_ID" (GUILD_ID c)) as L2.
  pose proof (idErrors_length "VERIFIED_ROLE_ID" (VERIFIED_ROLE_ID c)) as L3.
  split.
  - destruct (truthy (DISCORD_TOKEN c)); simpl.
    + destruct (idErrors "CLIENT_ID" (CLIENT_ID c)) as [| e1 l1]; simpl.
      * destruct (idErrors "GUILD_ID" (GUILD_ID c)) as [| e2 l2]; simpl.
        -- destruct (idErrors "VERIFIED_ROLE_ID" (VERIFIED_ROLE_ID c)) as [| e3 l3];
             simpl.
           ++ split; [intros _ | reflexivity].
              split; [reflexivity |].
              split; [apply H1; reflexivity |].
              split; [apply H2; reflexivity | apply H3; reflexivity].
           ++ split; [discriminate |]. intros (_ & _ & _ & Hc).
              apply H3 in Hc. discriminate Hc.
        -- split; [discriminate |]. intros (_ & _ & Hb & _).
           apply H2 in Hb. discriminate Hb.
      * split; [discriminate |]. intros (_ & Ha & _ & _).
        apply H1 in Ha. discriminate Ha.
    + split; [discriminate |]. intros (Ht & _). discriminate Ht.
  - rewrite !List.length_app.
    assert (Htoken : (List.length
                        (if negb (truthy (DISCORD_TOKEN c))
                         then ["DISCORD_TOKEN is required"%string] else []) <= 1)%nat)
      by (destruct (truthy (DISCORD_TOKEN c)); simpl; lia).
    lia.
Qed.

End ValidationProperties.
